(** * XRoboFly-BE: the checkout-to-order reconciliation workflow

    A shallow embedding of [src/controller/payment.controller.js]: the three
    request handlers [createCheckoutSession], [checkoutSuccess] and
    [cashfreeWebhook], the helper [verifyCashfreeWebhook], and the store
    operations they await (the Mongo collections of orders and products, the
    Redis store of pending orders, the Cashfree gateway).

    Conventions.
    - A Mongo collection is the list of its documents; a query takes the first
      document that matches.
    - The Redis store is a finite map from keys to the stored value and its
      expiry ([JSON.parse (JSON.stringify v) = v] on the records stored here).
    - Prices, quantities, stock levels and the amounts that are stored or
      sent are integers ([Z]).  The arithmetic of the pricing is that of the
      code, on binary64 numbers: the price and the quantity of a line are
      converted to numbers ([Number_of_Z]), the subtotal, the division by
      1.05, [Math.round] and the total are computed on floats, and the
      results, which are integers whenever they are finite, are stored as
      the integers they hold ([Z_of_Number]).
    - Every awaited call may reject.  A handler runs in a small state-and-
      exception monad [M]; the environment [Env] of a request says which
      awaited calls reject, what the gateway answers, and what [Date.now()],
      [Math.random()] and the ObjectId generator return. *)

From Stdlib Require Import ZArith QArith Qround Qpower Lia Ascii String Floats
  Uint63.
From stdpp Require Import base option list gmap strings pretty.

Open Scope string_scope.
Open Scope list_scope.
Open Scope Z_scope.

(* ================================================================= *)
(** ** JavaScript values *)

(** Truthiness of a string ([""] is falsy) and of a possibly-undefined one. *)
Definition truthy_string (s : string) : bool := negb (String.eqb s "").

Definition truthy (o : option string) : bool :=
  match o with
  | Some s => truthy_string s
  | None => false
  end.

(** [a || b] on possibly-undefined strings. *)
Definition or_else (a b : option string) : option string :=
  if truthy a then a else b.

(** [Math.round]: the nearest integer, ties towards plus infinity. *)
Definition Math_round (x : Q) : Z := Qfloor (x + 0.5)%Q.

(** JavaScript numbers are binary64 floats.  [Number_of_Z] is the number that
    an integer denotes: the integer itself when a float holds it (every
    integer up to 2^53 in absolute value), the nearest float otherwise, and
    an infinity beyond the largest float.  [Q_of_Number] is the exact value
    of a finite number. *)
Definition Number_of_Z (z : Z) : float :=
  SF2Prim (binary_normalize prec emax z 0 false).

Definition Q_of_Number (x : float) : option Q :=
  match Prim2SF x with
  | S754_zero _ => Some 0%Q
  | S754_finite s m e =>
      Some (inject_Z (if s then Z.neg m else Z.pos m) * Qpower 2 e)%Q
  | _ => None
  end.

(** [Math.round] on a number: a finite number gives the number of its
    rounded value, [Infinity] and [NaN] give themselves.  (For a value in
    [-0.5, 0) the engine answers -0 where this gives +0; the two are the same
    amount.) *)
Definition Math_round_Number (x : float) : float :=
  match Q_of_Number x with
  | Some q => Number_of_Z (Math_round q)
  | None => x
  end.

(** The integer that a number holds, for the amounts that are stored and
    sent as JSON.  It is exact on every finite number that is an integer;
    [Infinity] and [NaN], which JSON writes as [null], hold none, and 0
    stands for them here. *)
Definition Z_of_Number (x : float) : Z :=
  match Prim2SF x with
  | S754_finite s m e =>
      if s then - Z.shiftl (Z.pos m) e else Z.shiftl (Z.pos m) e
  | _ => 0
  end.

(** What a [throw] carries: the error's name and its [message]. *)
Inductive Exn : Type :=
  | Throw (name message : string).

Definition exn_message (e : Exn) : string :=
  match e with Throw _ m => m end.

(* ================================================================= *)
(** ** Documents *)

(** An address object, passed through verbatim. *)
Inductive Address : Type :=
  | address (json : string).

Record CustomerDetails : Type := {
  cd_name : string;
  cd_email : string;
  cd_phone : string
}.

(** A document of the [products] collection. *)
Record Product : Type := {
  p_id : string;
  p_name : string;
  p_price : Z;
  stock : Z;
  images : list string
}.

(** An element of [req.body.products]. *)
Record CartItem : Type := {
  productId : string;
  quantity : Z
}.

(** An element of [orderProducts], frozen into the pending order. *)
Record OrderProduct : Type := {
  op_productId : string;
  op_name : string;
  op_price : Z;
  op_quantity : Z;
  op_image : string
}.

(** The pending order stored in Redis ([orderData] once read back). *)
Record PendingOrder : Type := {
  userId : option string;
  customerDetails : CustomerDetails;
  shippingAddress : Address;
  pd_products : list OrderProduct;
  subtotal : Z;
  shipping : Z;
  tax : Z;
  discount : Z;
  totalAmount : Z;
  createdAt : Z
}.

(** A line of an order document. *)
Record OrderLine : Type := {
  ol_product : string;
  ol_quantity : Z;
  ol_price : Z
}.

(** A document of the [orders] collection. *)
Record Order : Type := {
  o_id : string;
  o_user : option string;
  o_products : list OrderLine;
  o_totalAmount : Z;
  o_shippingAddress : Address;
  o_billingAddress : Address;
  orderStatus : string;
  cashfreeOrderId : string;
  cashfreePaymentId : option string
}.

(** The stores the handlers share. *)
Record Db : Type := {
  orders : list Order;
  products : list Product;
  redis : gmap string (PendingOrder * Z)
}.

Definition set_orders (os : list Order) (d : Db) : Db :=
  {| orders := os; products := products d; redis := redis d |}.

Definition set_products (ps : list Product) (d : Db) : Db :=
  {| orders := orders d; products := ps; redis := redis d |}.

Definition set_redis (r : gmap string (PendingOrder * Z)) (d : Db) : Db :=
  {| orders := orders d; products := products d; redis := r |}.

(* ================================================================= *)
(** ** Store operations, each one atomic *)

(** [Product.findById(id)]. *)
Definition Product_findById (id : string) (d : Db) : option Product :=
  find (fun p => String.eqb (p_id p) id) (products d).

Definition inc_stock (delta : Z) (p : Product) : Product :=
  {| p_id := p_id p; p_name := p_name p; p_price := p_price p;
     stock := stock p + delta; images := images p |}.

(** [Product.findOneAndUpdate({ _id: id, stock: { $gte: qty } },
    { $inc: { stock: -qty } }, { new: true })] on the collection: the first
    document with that id and enough stock is decremented and returned. *)
Fixpoint findOneAndUpdate_stock (id : string) (qty : Z) (ps : list Product)
  : option Product * list Product :=
  match ps with
  | [] => (None, [])
  | p :: rest =>
      if String.eqb (p_id p) id && (qty <=? stock p)
      then (Some (inc_stock (- qty) p), inc_stock (- qty) p :: rest)
      else let '(r, rest') := findOneAndUpdate_stock id qty rest in
           (r, p :: rest')
  end.

Definition Product_findOneAndUpdate (id : string) (qty : Z) (d : Db)
  : Db * (Exn + option Product) :=
  let '(r, ps) := findOneAndUpdate_stock id qty (products d) in
  (set_products ps d, inr r).

(** [Order.findOne({ cashfreeOrderId: id })]. *)
Definition Order_findOne (id : string) (d : Db) : option Order :=
  find (fun o => String.eqb (cashfreeOrderId o) id) (orders d).

Definition has_order_id (id : string) (os : list Order) : bool :=
  existsb (fun o => String.eqb (o_id o) id) os.

Definition has_cashfreeOrderId (id : string) (os : list Order) : bool :=
  existsb (fun o => String.eqb (cashfreeOrderId o) id) os.

(** Modelled from the spec: the schema of [models/Order.model.js] is not among
    the sources; the spec gives the collection a "unique index on gateway
    order id", next to Mongo's own unique index on [_id].  [Order.create]
    rejects with a duplicate-key error (E11000) when either index would be
    violated and appends the document otherwise. *)
Definition Order_create (doc : Order) (d : Db) : Db * (Exn + Order) :=
  if has_order_id (o_id doc) (orders d)
     || has_cashfreeOrderId (cashfreeOrderId doc) (orders d)
  then (d, inl (Throw "MongoServerError" "E11000 duplicate key error"))
  else (set_orders (orders d ++ [doc]) d, inr doc).

Fixpoint delete_by_id (id : string) (os : list Order) : list Order :=
  match os with
  | [] => []
  | o :: rest =>
      if String.eqb (o_id o) id then rest else o :: delete_by_id id rest
  end.

(** [Order.findByIdAndDelete(id)]. *)
Definition Order_findByIdAndDelete (id : string) (d : Db) : Db * (Exn + unit) :=
  (set_orders (delete_by_id id (orders d)) d, inr tt).

Fixpoint replace_by_id (doc : Order) (os : list Order) : option (list Order) :=
  match os with
  | [] => None
  | o :: rest =>
      if String.eqb (o_id o) (o_id doc) then Some (doc :: rest)
      else option_map (cons o) (replace_by_id doc rest)
  end.

(** [doc.save()] of a document that was read from the collection: the stored
    document with the same [_id] is replaced; saving a document that is gone
    rejects. *)
Definition Order_save (doc : Order) (d : Db) : Db * (Exn + unit) :=
  match replace_by_id doc (orders d) with
  | Some os => (set_orders os d, inr tt)
  | None => (d, inl (Throw "DocumentNotFoundError" "No document found"))
  end.

Definition PENDING_ORDER_TTL : Z := 3600.

Definition PENDING_KEY (id : string) : string := "pending_order:" +:+ id.

(** [redis.set(key, JSON.stringify(v), 'EX', ttl)]. *)
Definition redis_set (key : string) (v : PendingOrder) (ttl : Z) (d : Db)
  : Db * (Exn + unit) :=
  (set_redis (<[key := (v, ttl)]> (redis d)) d, inr tt).

(** [redis.get(key)] followed by [raw ? JSON.parse(raw) : null]. *)
Definition redis_get (key : string) (d : Db) : Db * (Exn + option PendingOrder) :=
  (d, inr (fst <$> redis d !! key)).

(** [redis.del(key)]. *)
Definition redis_del (key : string) (d : Db) : Db * (Exn + unit) :=
  (set_redis (delete key (redis d)) d, inr tt).

(* ================================================================= *)
(** ** Requests, responses and the environment of a request *)

(** The JSON bodies the handlers send: [{success, message}], the same with the
    payment [status], with the [order], the opened session (success, with its
    fixed message), and the bare [{success: true}]. *)
Inductive Json : Type :=
  | JMessage (success : bool) (message : string)
  | JPaymentStatus (message status : string)
  | JOrder (message : string) (order : Order)
  | JSession (paymentSessionId orderId : string) (orderAmount : Z)
  | JAck.

(** [res.status(code).json(body)]. *)
Record Response : Type := {
  status : Z;
  json : Json
}.

Definition respond (code : Z) (b : Json) : Response :=
  {| status := code; json := b |}.

(** The order request sent to Cashfree. *)
Record OrderRequest : Type := {
  order_amount : Z;
  order_currency : string;
  order_id : string;
  customer_id : string;
  customer_name : string;
  customer_email : string;
  customer_phone : string;
  meta_return_url : string;
  meta_notify_url : string;
  order_note : string
}.

(** [cashfreeResponse.data], when the response has one. *)
Record SessionData : Type := {
  payment_session_id : string;
  sd_order_id : option string
}.

(** A payment attempt as the gateway reports it. *)
Record Payment : Type := {
  payment_status : string;
  cf_payment_id : option string
}.

(** The environment of one request: which awaited calls reject (by their
    position among the awaited calls of the request), the clock, the random
    suffix and the ObjectId generated for a new order, the process
    environment, and the gateway's answers.  A gateway answer is a rejection
    (network error, non-2xx, timeout) or a response whose [data] may be
    missing. *)
Record Env : Type := {
  io_rejects : nat -> bool;
  Date_now : nat -> Z;
  Math_random_id : string;
  new_ObjectId : string;
  return_url : string;
  notify_url : string;
  CASHFREE_SECRET_KEY : option string;
  PGCreateOrder : OrderRequest -> Exn + option SessionData;
  PGOrderFetchPayments : string -> Exn + option (list Payment)
}.

(** [req] of [createCheckoutSession]. *)
Record SessionBody : Type := {
  sb_customerDetails : option CustomerDetails;
  sb_shippingAddress : option Address;
  sb_products : option (list CartItem)
}.

Record SessionRequest : Type := {
  sr_user : option string;
  sr_body : option SessionBody
}.

(** [req] of [checkoutSuccess]; [cr_user] is [req.user?._id?.toString()]. *)
Record ConfirmRequest : Type := {
  cr_user : option string;
  cr_body : option (option string)
}.

(** [req] of [cashfreeWebhook]. *)
Record WebhookData : Type := {
  wd_order : option (option string);
  wd_payment : option (option string)
}.

Record WebhookBody : Type := {
  type : string;
  data : option WebhookData
}.

Record WebhookRequest : Type := {
  x_webhook_timestamp : option string;
  x_webhook_signature : option string;
  rawBody : option string;
  wr_body : option WebhookBody
}.

(* ================================================================= *)
(** ** The monad of a handler body *)

(** The stores and the number of calls awaited so far. *)
Record World : Type := {
  db : Db;
  tick : nat
}.

Definition M (A : Type) : Type := World -> World * (Exn + A).

#[global] Instance M_ret : MRet M := fun A (a : A) w => (w, inr a).

#[global] Instance M_bind : MBind M := fun A B (f : A -> M B) (m : M A) w =>
  match m w with
  | (w', inr a) => f a w'
  | (w', inl e) => (w', inl e)
  end.

Definition throw {A : Type} (e : Exn) : M A := fun w => (w, inl e).

(** [try { m } catch (e) { h e }]. *)
Definition try_catch {A : Type} (m : M A) (h : Exn -> M A) : M A := fun w =>
  match m w with
  | (w', inr a) => (w', inr a)
  | (w', inl e) => h e w'
  end.

Definition next (d : Db) (w : World) : World :=
  {| db := d; tick := S (tick w) |}.

Section Handlers.

Variable env : Env.

(** [await op]: the call rejects when the environment says so, leaving the
    stores as they are, and runs atomically otherwise. *)
Definition await {A : Type} (op : Db -> Db * (Exn + A)) : M A := fun w =>
  if io_rejects env (tick w)
  then (next (db w) w, inl (Throw "Error" "request failed"))
  else let '(d, r) := op (db w) in (next d w, r).

(** An awaited read. *)
Definition await_read {A : Type} (q : Db -> A) : M A :=
  await (fun d => (d, inr (q d))).

(** An awaited call of a collaborator outside the stores. *)
Definition await_call {A : Type} (r : Exn + A) : M A :=
  await (fun d => (d, r)).

(** A handler: [try { body } catch (error) { on_error error }], started on
    the stores [d]. *)
Definition handler (body : M Response) (on_error : Exn -> Response) (d : Db)
  : Db * Response :=
  match body {| db := d; tick := 0 |} with
  | (w, inr r) => (db w, r)
  | (w, inl e) => (db w, on_error e)
  end.

(** [error.message || fallback]. *)
Definition message_or (e : Exn) (fallback : string) : string :=
  if truthy_string (exn_message e) then exn_message e else fallback.

(* ----------------------------------------------------------------- *)
(** *** createCheckoutSession *)

Definition is_hex_digit (c : ascii) : bool :=
  let n := nat_of_ascii c in
  ((48 <=? n) && (n <=? 57) || (65 <=? n) && (n <=? 70)
   || (97 <=? n) && (n <=? 102))%nat.

(** [/^[0-9a-fA-F]{24}$/.test(s)]. *)
Definition isValidObjectId (s : string) : bool :=
  (String.length s =? 24)%nat && forallb is_hex_digit (list_ascii_of_string s).

(** The first loop: fetch every cart line's product, or answer 400. *)
Fixpoint fetch_products (items : list CartItem) (dbProducts : list Product)
  : M (Response + list Product) :=
  match items with
  | [] => mret (inr dbProducts)
  | item :: rest =>
      product ← (if isValidObjectId (productId item)
                 then await_read (Product_findById (productId item))
                 else mret None);
      match product with
      | None =>
          mret (inl (respond 400 (JMessage false
            ("Product not found: " +:+ productId item +:+
             ". Please ensure you're using valid product IDs from the database."))))
      | Some p => fetch_products rest (dbProducts ++ [p])
      end
  end.

(** The advisory stock check, line by line. *)
Fixpoint check_stock (items : list CartItem) (dbProducts : list Product)
  : option Response :=
  match items, dbProducts with
  | item :: items', product :: dbProducts' =>
      if stock product <? quantity item
      then Some (respond 400 (JMessage false
             ("Insufficient stock for " +:+ p_name product +:+
              ". Available: " +:+ pretty (stock product))))
      else check_stock items' dbProducts'
  | _, _ => None
  end.

(** The element pushed on [orderProducts] for a cart line and its product. *)
Definition order_line (item : CartItem) (product : Product) : OrderProduct :=
  {| op_productId := p_id product;
     op_name := p_name product;
     op_price := p_price product;
     op_quantity := quantity item;
     op_image := default "" (head (images product)) |}.

(** The pricing loop: [subtotal] and [orderProducts].  [subtotal] is a
    number, and so are [product.price * item.quantity] and the sum. *)
Fixpoint price_lines (items : list CartItem) (dbProducts : list Product)
    (subtotal : float) (orderProducts : list OrderProduct)
  : float * list OrderProduct :=
  match items, dbProducts with
  | item :: items', product :: dbProducts' =>
      let itemTotal :=
        (Number_of_Z (p_price product) * Number_of_Z (quantity item))%float in
      price_lines items' dbProducts' (subtotal + itemTotal)%float
        (orderProducts ++ [order_line item product])
  | _, _ => (subtotal, orderProducts)
  end.

(** The price breakdown of a GST-inclusive subtotal, as the amounts that are
    stored and sent. *)
Record Pricing : Type := {
  pr_shipping : Z;
  pr_baseSubtotal : Z;
  pr_tax : Z;
  pr_discount : Z;
  pr_totalAmount : Z
}.

(** The breakdown is computed on numbers; the literal [1.05] denotes the
    float 0x1.0cccccccccccdp+0. *)
Definition pricing (subtotalInclGST : float) : Pricing :=
  let shipping :=
    if (5000 <? subtotalInclGST)%float then 0%float else 99%float in
  let baseSubtotal :=
    Math_round_Number (subtotalInclGST / 0x1.0cccccccccccdp+0)%float in
  let tax := (subtotalInclGST - baseSubtotal)%float in
  let discount := 0%float in
  let totalAmount := (subtotalInclGST + shipping)%float in
  {| pr_shipping := Z_of_Number shipping;
     pr_baseSubtotal := Z_of_Number baseSubtotal;
     pr_tax := Z_of_Number tax;
     pr_discount := Z_of_Number discount;
     pr_totalAmount := Z_of_Number totalAmount |}.

(** [`XRF_${Date.now()}_${Math.random().toString(36).substr(2, 9).toUpperCase()}`]. *)
Definition new_order_id : string :=
  "XRF_" +:+ pretty (Date_now env 0) +:+ "_" +:+ Math_random_id env.

(** [orderRequest]. *)
Definition order_request (user : option string)
    (customerDetails : CustomerDetails) (totalAmount : Z)
    (orderProducts : list OrderProduct) : OrderRequest :=
  {| order_amount := totalAmount;
     order_currency := "INR";
     order_id := new_order_id;
     customer_id :=
       default "" (or_else user (Some ("guest_" +:+ pretty (Date_now env 1))));
     customer_name := cd_name customerDetails;
     customer_email := cd_email customerDetails;
     customer_phone := cd_phone customerDetails;
     meta_return_url := return_url env;
     meta_notify_url := notify_url env;
     order_note :=
       "XRoboFly Order - " +:+ pretty (Z.of_nat (length orderProducts))
       +:+ " items" |}.

(** The value stored under the pending key. *)
Definition pending_order (user : option string)
    (customerDetails : CustomerDetails) (shippingAddress : Address)
    (orderProducts : list OrderProduct) (pr : Pricing) : PendingOrder :=
  {| userId := user;
     customerDetails := customerDetails;
     shippingAddress := shippingAddress;
     pd_products := orderProducts;
     subtotal := pr_baseSubtotal pr;
     shipping := pr_shipping pr;
     tax := pr_tax pr;
     discount := pr_discount pr;
     totalAmount := pr_totalAmount pr;
     createdAt := Date_now env 2 |}.

(** The gateway session and the pending order, once the cart is priced.  The
    sweep of [global.pendingOrders] that follows [redis.set] is left out:
    nothing assigns that global, and it is none of the stores. *)
Definition open_session (user : option string)
    (customerDetails : CustomerDetails) (shippingAddress : Address)
    (subtotal : float) (orderProducts : list OrderProduct) : M Response :=
  let pr := pricing subtotal in
  let orderId := new_order_id in
  let orderRequest :=
    order_request user customerDetails (pr_totalAmount pr) orderProducts in
  cashfreeResponse ← await_call (PGCreateOrder env orderRequest);
  _ ← await (redis_set (PENDING_KEY orderId)
        (pending_order user customerDetails shippingAddress orderProducts pr)
        PENDING_ORDER_TTL);
  match cashfreeResponse with
  | None =>
      throw (Throw "TypeError" "Cannot read properties of undefined")
  | Some data =>
      mret (respond 200
        (JSession (payment_session_id data)
           (default orderId (or_else (sd_order_id data) (Some orderId)))
           (pr_totalAmount pr)))
  end.

Definition createCheckoutSession_body (req : SessionRequest) : M Response :=
  match sr_body req with
  | None => throw (Throw "TypeError" "Cannot destructure property of undefined")
  | Some body =>
      match sb_customerDetails body, sb_shippingAddress body, sb_products body with
      | Some customerDetails, Some shippingAddress, Some ((_ :: _) as items) =>
          fetched ← fetch_products items [];
          match fetched with
          | inl response => mret response
          | inr dbProducts =>
              if negb (length dbProducts =? length items)%nat
              then mret (respond 400 (JMessage false "Some products not found"))
              else
                match check_stock items dbProducts with
                | Some response => mret response
                | None =>
                    let '(subtotal, orderProducts) :=
                      price_lines items dbProducts 0%float [] in
                    open_session (sr_user req) customerDetails shippingAddress
                      subtotal orderProducts
                end
          end
      | _, _, _ => mret (respond 400 (JMessage false "Missing required fields"))
      end
  end.

Definition createCheckoutSession (req : SessionRequest) (d : Db) : Db * Response :=
  handler (createCheckoutSession_body req)
    (fun error => respond 500
       (JMessage false (message_or error "Failed to create checkout session")))
    d.

(* ----------------------------------------------------------------- *)
(** *** checkoutSuccess *)

(** The stock loop: one conditional decrement per line; at the first line that
    finds no document, the order is deleted, the pending order is deleted and
    the answer is 409. *)
Fixpoint decrement_stock (newOrder : Order) (orderId : string)
    (items : list OrderProduct) : M (option Response) :=
  match items with
  | [] => mret None
  | item :: rest =>
      updated ← await (Product_findOneAndUpdate (op_productId item) (op_quantity item));
      match updated with
      | None =>
          _ ← await (Order_findByIdAndDelete (o_id newOrder));
          _ ← await (redis_del (PENDING_KEY orderId));
          mret (Some (respond 409 (JMessage false
            ("Insufficient stock for " +:+ op_name item +:+
             ". Please update your cart and try again."))))
      | Some _ => decrement_stock newOrder orderId rest
      end
  end.

(** [sendMail] (services/mailer.services.js) renders the template and hands
    the message to the mail transport; it touches none of the stores, and a
    failure of the transport is a rejection of the call. *)
Definition sendMail (to subject template : string) : M unit :=
  await_call (inr tt).

(** Modelled from the spec: [createShipmentForOrder] lives in
    [shiprocket.controller.js], which is not among the sources; the spec has
    it as a fire-and-forget call to the shipping collaborator, outside the
    transactional core. *)
Definition createShipmentForOrder (orderId : string) : M unit :=
  await_call (inr tt).

(** The document handed to [Order.create]. *)
Definition order_document (orderId : string) (latestPayment : Payment)
    (orderData : PendingOrder) : Order :=
  {| o_id := new_ObjectId env;
     o_user := userId orderData;
     o_products :=
       map (fun p => {| ol_product := op_productId p;
                        ol_quantity := op_quantity p;
                        ol_price := op_price p |})
           (pd_products orderData);
     o_totalAmount := totalAmount orderData;
     o_shippingAddress := shippingAddress orderData;
     o_billingAddress := shippingAddress orderData;
     orderStatus := "pending";
     cashfreeOrderId := orderId;
     cashfreePaymentId := cf_payment_id latestPayment |}.

(** From [Order.create] to the end of the handler. *)
Definition materialize (orderId : string) (latestPayment : Payment)
    (orderData : PendingOrder) : M Response :=
  newOrder ← await (Order_create (order_document orderId latestPayment orderData));
  rolled_back ← decrement_stock newOrder orderId (pd_products orderData);
  match rolled_back with
  | Some response => mret response
  | None =>
      _ ← try_catch
            (sendMail (cd_email (customerDetails orderData))
               ("Order Confirmed - XRoboFly #" +:+ o_id newOrder)
               "orderConfirmation")
            (fun emailError => mret tt);
      _ ← try_catch (createShipmentForOrder (o_id newOrder))
            (fun shipmentError => mret tt);
      _ ← await (redis_del (PENDING_KEY orderId));
      mret (respond 200 (JOrder "Payment verified and order created" newOrder))
  end.

Definition checkoutSuccess_body (req : ConfirmRequest) : M Response :=
  match cr_body req with
  | None => throw (Throw "TypeError" "Cannot destructure property of undefined")
  | Some body_orderId =>
      if negb (truthy body_orderId)
      then mret (respond 400 (JMessage false "Order ID is required"))
      else
        let orderId := default "" body_orderId in
        payments ← await_call (PGOrderFetchPayments env orderId);
        match payments with
        | None => throw (Throw "TypeError" "Cannot read properties of undefined")
        | Some [] =>
            mret (respond 400 (JMessage false "No payment information found"))
        | Some (latestPayment :: _) =>
            if negb (String.eqb (payment_status latestPayment) "SUCCESS")
            then mret (respond 400
                   (JPaymentStatus "Payment not completed"
                      (payment_status latestPayment)))
            else
              existingOrder ← await_read (Order_findOne orderId);
              match existingOrder with
              | Some existing =>
                  mret (respond 200 (JOrder "Order already processed" existing))
              | None =>
                  raw ← await (redis_get (PENDING_KEY orderId));
                  match raw with
                  | None =>
                      mret (respond 400 (JMessage false
                        "Order data not found. Session may have expired."))
                  | Some orderData =>
                      if truthy (userId orderData)
                         && negb (bool_decide (cr_user req = userId orderData))
                      then mret (respond 403 (JMessage false "Unauthorized"))
                      else materialize orderId latestPayment orderData
                  end
              end
        end
  end.

Definition checkoutSuccess (req : ConfirmRequest) (d : Db) : Db * Response :=
  handler (checkoutSuccess_body req)
    (fun error => respond 500
       (JMessage false (message_or error "Failed to verify payment")))
    d.

(* ----------------------------------------------------------------- *)
(** *** cashfreeWebhook *)

(** [crypto.createHmac('sha256', key).update(payload).digest('base64')]. *)
Variable hmac_sha256_base64 : string -> string -> string.

(** [crypto.timingSafeEqual(Buffer.from(a), Buffer.from(b))]: a [RangeError]
    when the byte lengths differ, the comparison otherwise. *)
Definition crypto_timingSafeEqual (a b : string) : Exn + bool :=
  if (String.length a =? String.length b)%nat
  then inr (String.eqb a b)
  else inl (Throw "RangeError" "Input buffers must have the same byte length").

Definition verifyCashfreeWebhook (rawBody timestamp signature : string)
  : Exn + bool :=
  if negb (truthy (CASHFREE_SECRET_KEY env)) || negb (truthy_string rawBody)
     || negb (truthy_string timestamp) || negb (truthy_string signature)
  then inr false
  else
    let payload := timestamp +:+ rawBody in
    let expected :=
      hmac_sha256_base64 (default "" (CASHFREE_SECRET_KEY env)) payload in
    crypto_timingSafeEqual expected signature.

Definition set_status (s : string) (paymentId : option string) (o : Order) : Order :=
  {| o_id := o_id o; o_user := o_user o; o_products := o_products o;
     o_totalAmount := o_totalAmount o;
     o_shippingAddress := o_shippingAddress o;
     o_billingAddress := o_billingAddress o;
     orderStatus := s;
     cashfreeOrderId := cashfreeOrderId o;
     cashfreePaymentId := paymentId |}.

(** The handler after the signature check. *)
Definition process_webhook (req : WebhookRequest) : M Response :=
  match wr_body req with
  | None => throw (Throw "TypeError" "Cannot destructure property of undefined")
  | Some body =>
      match data body with
      | Some {| wd_order := Some order_id; wd_payment := payment |} =>
          if negb (truthy order_id)
          then mret (respond 200 (JMessage true "Webhook acknowledged"))
          else
            let orderId := default "" order_id in
            found ← await_read (Order_findOne orderId);
            match found with
            | None => mret (respond 200 (JMessage true "Order not found"))
            | Some order =>
                _ ← (if String.eqb (type body) "PAYMENT_SUCCESS_WEBHOOK" then
                       if String.eqb (orderStatus order) "pending"
                       then await (Order_save
                              (set_status "processing"
                                 (or_else (payment ≫= id) (cashfreePaymentId order))
                                 order))
                       else mret tt
                     else if String.eqb (type body) "PAYMENT_FAILED_WEBHOOK" then
                       await (Order_save
                         (set_status "cancelled" (cashfreePaymentId order) order))
                     else if String.eqb (type body) "PAYMENT_USER_DROPPED_WEBHOOK" then
                       await (Order_save
                         (set_status "cancelled" (cashfreePaymentId order) order))
                     else mret tt);
                mret (respond 200 JAck)
            end
      | _ => mret (respond 200 (JMessage true "Webhook acknowledged"))
      end
  end.

Definition cashfreeWebhook_body (req : WebhookRequest) : M Response :=
  let timestamp := x_webhook_timestamp req in
  let signature := x_webhook_signature req in
  if truthy timestamp && truthy signature
  then
    match verifyCashfreeWebhook (default "" (rawBody req))
            (default "" timestamp) (default "" signature) with
    | inl e => throw e
    | inr false => mret (respond 401 (JMessage false "Invalid signature"))
    | inr true => process_webhook req
    end
  else process_webhook req.

Definition cashfreeWebhook (req : WebhookRequest) (d : Db) : Db * Response :=
  handler (cashfreeWebhook_body req)
    (fun error => respond 200 (JMessage true "Webhook received"))
    d.

End Handlers.

(* ================================================================= *)
(** ** Specifications of handler bodies *)

(** [triple P m Q E]: started on stores that satisfy [P], the body [m] either
    returns a value [a] on stores that satisfy [Q a], or throws on stores that
    satisfy [E].  Bodies are total functions, so this is total correctness. *)
Definition triple {A : Type} (P : Db -> Prop) (m : M A)
    (Q : A -> Db -> Prop) (E : Db -> Prop) : Prop :=
  forall w, P (db w) ->
    match m w with
    | (w', inr a) => Q a (db w')
    | (w', inl _) => E (db w')
    end.

(** No awaited call of the request rejects. *)
Definition no_rejection (env : Env) : Prop :=
  forall n, io_rejects env n = false.

(** Both unique indexes of the [orders] collection hold. *)
Definition unique_orders (d : Db) : Prop :=
  List.NoDup (map o_id (orders d))
  /\ List.NoDup (map cashfreeOrderId (orders d)).

(** No product has a negative stock. *)
Definition stock_nonneg (d : Db) : Prop :=
  Forall (fun p => 0 <= stock p) (products d).

Definition sumZ (l : list Z) : Z := fold_right Z.add 0 l.

#[global] Arguments sumZ : simpl never.

(** The stock of the whole catalogue, and the quantity a pending order asks for. *)
Definition total_stock (d : Db) : Z := sumZ (map stock (products d)).

Definition total_quantity (items : list OrderProduct) : Z :=
  sumZ (map op_quantity items).

(** The answer of a confirmation that created the order [o]. *)
Definition order_created (o : Order) : Response :=
  respond 200 (JOrder "Payment verified and order created" o).

(** The answer of a confirmation that found the order [o] already there. *)
Definition order_already_processed (o : Order) : Response :=
  respond 200 (JOrder "Order already processed" o).

(** The GST-inclusive subtotal of frozen order lines, as the pricing loop
    accumulates it: a number, from 0, one line after the other. *)
Definition lines_subtotal (items : list OrderProduct) : float :=
  fold_left
    (fun subtotal line =>
       (subtotal + Number_of_Z (op_price line) * Number_of_Z (op_quantity line))
       %float)
    items 0%float.

(** The same subtotal in exact integer arithmetic. *)
Definition exact_subtotal (items : list OrderProduct) : Z :=
  sumZ (map (fun p => op_price p * op_quantity p) items).

(** Lines whose prices and quantities are non-negative integers that a number
    holds exactly. *)
Definition safe_lines (items : list OrderProduct) : Prop :=
  Forall (fun line => 0 <= op_price line < 2 ^ 53
                      /\ 0 <= op_quantity line < 2 ^ 53) items.

(** The binary64 representation of the integer [N] when [|N| < 2^53]: a
    mantissa of 53 bits and the exponent that goes with it. *)
Definition SFsafe (N : Z) : spec_float :=
  match N with
  | Z0 => S754_zero false
  | Z.pos p =>
      S754_finite false
        (Z.to_pos (Z.pos p * 2 ^ (53 - Z.pos (digits2_pos p))))
        (Z.pos (digits2_pos p) - 53)
  | Z.neg p =>
      S754_finite true
        (Z.to_pos (Z.pos p * 2 ^ (53 - Z.pos (digits2_pos p))))
        (Z.pos (digits2_pos p) - 53)
  end.

(** [K * 2^E] is the normal form of the positive integer [N]. *)
Definition normal_form (N : Z) (K : positive) (E : Z) : Prop :=
  Z.pos (digits2_pos K) = 53 /\ -52 <= E <= 0 /\ Z.pos K = N * 2 ^ (- E).

(** The mantissa of the literal [1.05]: 0x1.0cccccccccccdp+0. *)
Definition mantissa_105 : positive := 4728779608739021.

(** What the conditional updates of [items], in order, make of a catalogue
    (an update that finds no document changes nothing). *)
Definition conditional_decrements (items : list OrderProduct) (ps : list Product)
  : list Product :=
  fold_left
    (fun ps item =>
       (findOneAndUpdate_stock (op_productId item) (op_quantity item) ps).2)
    items ps.

(** The signature check of [cashfreeWebhook] ran and returned [false]. *)
Definition signature_rejected (env : Env) (hmac : string -> string -> string)
    (req : WebhookRequest) : bool :=
  truthy (x_webhook_timestamp req) && truthy (x_webhook_signature req)
  && match verifyCashfreeWebhook env hmac (default "" (rawBody req))
             (default "" (x_webhook_timestamp req))
             (default "" (x_webhook_signature req)) with
     | inr false => true
     | _ => false
     end.

(** The signature check was skipped (a header is missing) or returned [true]. *)
Definition signature_passed (env : Env) (hmac : string -> string -> string)
    (req : WebhookRequest) : bool :=
  negb (truthy (x_webhook_timestamp req) && truthy (x_webhook_signature req))
  || match verifyCashfreeWebhook env hmac (default "" (rawBody req))
             (default "" (x_webhook_timestamp req))
             (default "" (x_webhook_signature req)) with
     | inr true => true
     | _ => false
     end.

(** [req.body.data.order.order_id], when the payload has a truthy one. *)
Definition webhook_order_id (req : WebhookRequest) : option string :=
  match wr_body req with
  | Some {| data := Some {| wd_order := Some (Some order_id) |} |} =>
      if truthy_string order_id then Some order_id else None
  | _ => None
  end.

(** The order [o] saved over the stored document that has its [_id]. *)
Definition saved (o : Order) (os : list Order) : list Order :=
  map (fun x => if String.eqb (o_id x) (o_id o) then o else x) os.

(** A confirmation from [Order.create] on, inside the handler's [try]: what a
    request that has passed the existence check and the ownership check does
    on the stores [d] it finds when its turn comes (another request may have
    written to them since the checks). *)
Definition checkoutSuccess_resumed (env : Env) (orderId : string)
    (latestPayment : Payment) (orderData : PendingOrder) (d : Db)
  : Db * Response :=
  handler (materialize env orderId latestPayment orderData)
    (fun error => respond 500
       (JMessage false (message_or error "Failed to verify payment")))
    d.

(** The catalogue of [d] comes from [ps0] by conditional updates alone. *)
Definition decremented_from (ps0 : list Product) (d : Db) : Prop :=
  exists items, products d = conditional_decrements items ps0.

(** What the first loop of [createCheckoutSession] finds for a cart line: the
    product that has the line's id, when the id has the shape of an ObjectId
    (no query is made otherwise). *)
Definition cart_product (d : Db) (item : CartItem) : option Product :=
  if isValidObjectId (productId item)
  then Product_findById (productId item) d
  else None.

(** Every conditional update of [items], in order, finds its document. *)
Fixpoint decrements_succeed (items : list OrderProduct) (ps : list Product)
  : bool :=
  match items with
  | [] => true
  | item :: rest =>
      match findOneAndUpdate_stock (op_productId item) (op_quantity item) ps with
      | (Some _, ps') => decrements_succeed rest ps'
      | (None, _) => false
      end
  end.

(** The quantity that the lines of [items] ask of the product [id]. *)
Definition ordered_quantity (items : list OrderProduct) (id : string) : Z :=
  sumZ (map op_quantity
          (List.filter (fun line => String.eqb (op_productId line) id)
             items)).

(** The line of an order document for a cart line and its product. *)
Definition cart_order_line (item : CartItem) (product : Product) : OrderLine :=
  {| ol_product := p_id product;
     ol_quantity := quantity item;
     ol_price := p_price product |}.

(** What an event of the webhook may make of a stored order: nothing, a
    pending order that is now processing, or an order that is now cancelled. *)
Definition status_update (o o' : Order) : Prop :=
  o' = o
  \/ (orderStatus o = "pending"
      /\ exists paymentId, o' = set_status "processing" paymentId o)
  \/ o' = set_status "cancelled" (cashfreePaymentId o) o.

(** The event types that [cashfreeWebhook] handles. *)
Definition handled_event (event : string) : bool :=
  String.eqb event "PAYMENT_SUCCESS_WEBHOOK"
  || String.eqb event "PAYMENT_FAILED_WEBHOOK"
  || String.eqb event "PAYMENT_USER_DROPPED_WEBHOOK".

(** The document that the [switch] of [cashfreeWebhook] saves for an event of
    type [event] on the order [o] it has found, if it saves one. *)
Definition event_update (event : string) (payment : option (option string))
    (o : Order) : option Order :=
  if String.eqb event "PAYMENT_SUCCESS_WEBHOOK" then
    if String.eqb (orderStatus o) "pending"
    then Some (set_status "processing"
                 (or_else (payment ≫= id) (cashfreePaymentId o)) o)
    else None
  else if String.eqb event "PAYMENT_FAILED_WEBHOOK"
          || String.eqb event "PAYMENT_USER_DROPPED_WEBHOOK"
  then Some (set_status "cancelled" (cashfreePaymentId o) o)
  else None.

(* ================================================================= *)
(** ** Scenarios *)

(** The checkout of the specification: one frame at 1050 and two motors at
    525 each, prices GST-inclusive. *)
Definition frame : Product :=
  {| p_id := "65f000000000000000000001"; p_name := "Frame";
     p_price := 1050; stock := 5; images := ["frame.png"] |}.

Definition motor : Product :=
  {| p_id := "65f000000000000000000002"; p_name := "Motor";
     p_price := 525; stock := 4; images := [] |}.

Definition scenario_db : Db :=
  {| orders := []; products := [frame; motor]; redis := ∅ |}.

Definition success_payment : Payment :=
  {| payment_status := "SUCCESS"; cf_payment_id := Some "pay_1" |}.

(** No call rejects, the gateway opens the session and reports the payment
    as successful. *)
Definition scenario_env : Env :=
  {| io_rejects := fun _ => false;
     Date_now := fun _ => 1700000000000;
     Math_random_id := "K3J9X2M1Q";
     new_ObjectId := "65f0000000000000000000aa";
     return_url := "https://xrobofly.com/payment-success?order_id={order_id}";
     notify_url := "http://localhost:8000/api/payment/webhook";
     CASHFREE_SECRET_KEY := Some "secret";
     PGCreateOrder := fun rq =>
       inr (Some {| payment_session_id := "session_1";
                    sd_order_id := Some (order_id rq) |});
     PGOrderFetchPayments := fun _ => inr (Some [success_payment]) |}.

Definition scenario_customer : CustomerDetails :=
  {| cd_name := "Asha"; cd_email := "asha@example.com"; cd_phone := "9000000000" |}.

Definition scenario_session_request : SessionRequest :=
  {| sr_user := Some "user_1";
     sr_body := Some
       {| sb_customerDetails := Some scenario_customer;
          sb_shippingAddress := Some (address "{}");
          sb_products := Some
            [ {| productId := p_id frame; quantity := 1 |};
              {| productId := p_id motor; quantity := 2 |} ] |} |}.

Definition scenario_order_id : string := "XRF_1700000000000_K3J9X2M1Q".

(** The pending order that opening the session stores. *)
Definition scenario_pending : PendingOrder :=
  {| userId := Some "user_1";
     customerDetails := scenario_customer;
     shippingAddress := address "{}";
     pd_products :=
       [ {| op_productId := p_id frame; op_name := "Frame"; op_price := 1050;
            op_quantity := 1; op_image := "frame.png" |};
         {| op_productId := p_id motor; op_name := "Motor"; op_price := 525;
            op_quantity := 2; op_image := "" |} ];
     subtotal := 2000;
     shipping := 99;
     tax := 100;
     discount := 0;
     totalAmount := 2199;
     createdAt := 1700000000000 |}.

(** The stores once the session is open. *)
Definition scenario_reserved : Db :=
  {| orders := [];
     products := [frame; motor];
     redis := {[ PENDING_KEY scenario_order_id
                 := (scenario_pending, PENDING_ORDER_TTL) ]} |}.

(** The confirmation by the owner, and one by somebody else. *)
Definition scenario_confirm_request : ConfirmRequest :=
  {| cr_user := Some "user_1"; cr_body := Some (Some scenario_order_id) |}.

Definition intruder_confirm_request : ConfirmRequest :=
  {| cr_user := Some "user_2"; cr_body := Some (Some scenario_order_id) |}.

(** The order that the confirmation creates, and the stores after it. *)
Definition scenario_order : Order :=
  {| o_id := "65f0000000000000000000aa";
     o_user := Some "user_1";
     o_products :=
       [ {| ol_product := p_id frame; ol_quantity := 1; ol_price := 1050 |};
         {| ol_product := p_id motor; ol_quantity := 2; ol_price := 525 |} ];
     o_totalAmount := 2199;
     o_shippingAddress := address "{}";
     o_billingAddress := address "{}";
     orderStatus := "pending";
     cashfreeOrderId := scenario_order_id;
     cashfreePaymentId := Some "pay_1" |}.

Definition scenario_materialized : Db :=
  {| orders := [scenario_order];
     products := [inc_stock (- 1) frame; inc_stock (- 2) motor];
     redis := ∅ |}.

(** The order shipped, and the order cancelled. *)
Definition scenario_shipped : Db :=
  set_orders [set_status "shipped" (Some "pay_1") scenario_order]
    scenario_materialized.

Definition scenario_cancelled : Db :=
  set_orders [set_status "cancelled" (Some "pay_1") scenario_order]
    scenario_materialized.

(** The session open, but only one motor is left when the payment is
    confirmed. *)
Definition scenario_sold_out : Db :=
  set_products [frame; inc_stock (- 3) motor] scenario_reserved.

(** The session open, and another worker has written the order and has not
    yet deleted the pending order. *)
Definition scenario_racing : Db :=
  set_orders [scenario_order] scenario_reserved.

(** A second worker: an ObjectId of its own. *)
Definition second_env : Env :=
  {| io_rejects := io_rejects scenario_env;
     Date_now := Date_now scenario_env;
     Math_random_id := Math_random_id scenario_env;
     new_ObjectId := "65f0000000000000000000ab";
     return_url := return_url scenario_env;
     notify_url := notify_url scenario_env;
     CASHFREE_SECRET_KEY := CASHFREE_SECRET_KEY scenario_env;
     PGCreateOrder := PGCreateOrder scenario_env;
     PGOrderFetchPayments := PGOrderFetchPayments scenario_env |}.

(** The gateway lists a later, failed attempt before the successful one. *)
Definition retry_env : Env :=
  {| io_rejects := io_rejects scenario_env;
     Date_now := Date_now scenario_env;
     Math_random_id := Math_random_id scenario_env;
     new_ObjectId := "65f0000000000000000000ab";
     return_url := return_url scenario_env;
     notify_url := notify_url scenario_env;
     CASHFREE_SECRET_KEY := CASHFREE_SECRET_KEY scenario_env;
     PGCreateOrder := PGCreateOrder scenario_env;
     PGOrderFetchPayments := fun _ =>
       inr (Some [ {| payment_status := "FAILED"; cf_payment_id := Some "pay_2" |};
                   success_payment ]) |}.

(** The gateway times out on the session request. *)
Definition gateway_down_env : Env :=
  {| io_rejects := io_rejects scenario_env;
     Date_now := Date_now scenario_env;
     Math_random_id := Math_random_id scenario_env;
     new_ObjectId := new_ObjectId scenario_env;
     return_url := return_url scenario_env;
     notify_url := notify_url scenario_env;
     CASHFREE_SECRET_KEY := CASHFREE_SECRET_KEY scenario_env;
     PGCreateOrder := fun _ => inl (Throw "AxiosError" "timeout of 10000ms exceeded");
     PGOrderFetchPayments := PGOrderFetchPayments scenario_env |}.

(** A stand-in for the digest in the scenarios. *)
Definition scenario_digest (key payload : string) : string :=
  "sha256:" +:+ key +:+ ":" +:+ payload.

Definition webhook_payload (event : string) : WebhookBody :=
  {| type := event;
     data := Some {| wd_order := Some (Some scenario_order_id);
                     wd_payment := Some (Some "pay_1") |} |}.

(** A webhook with a valid signature over its raw body. *)
Definition signed_webhook (event : string) : WebhookRequest :=
  {| x_webhook_timestamp := Some "1700000000";
     x_webhook_signature := Some (scenario_digest "secret" ("1700000000" +:+ "{A}"));
     rawBody := Some "{A}";
     wr_body := Some (webhook_payload event) |}.

(** The same headers over a raw body that was tampered with. *)
Definition tampered_webhook (event : string) : WebhookRequest :=
  {| x_webhook_timestamp := Some "1700000000";
     x_webhook_signature := Some (scenario_digest "secret" ("1700000000" +:+ "{A}"));
     rawBody := Some "{B}";
     wr_body := Some (webhook_payload event) |}.

(** A webhook without the signature header. *)
Definition unsigned_webhook (event : string) : WebhookRequest :=
  {| x_webhook_timestamp := Some "1700000000";
     x_webhook_signature := None;
     rawBody := Some "{A}";
     wr_body := Some (webhook_payload event) |}.

(** The gateway answers the session request with a response that has no
    [data]. *)
Definition no_data_env : Env :=
  {| io_rejects := io_rejects scenario_env;
     Date_now := Date_now scenario_env;
     Math_random_id := Math_random_id scenario_env;
     new_ObjectId := new_ObjectId scenario_env;
     return_url := return_url scenario_env;
     notify_url := notify_url scenario_env;
     CASHFREE_SECRET_KEY := CASHFREE_SECRET_KEY scenario_env;
     PGCreateOrder := fun _ => inr None;
     PGOrderFetchPayments := PGOrderFetchPayments scenario_env |}.

(** The mail transport and the shipping collaborator are both down: for the
    two-line pending order of the scenario, the calls awaited sixth and
    seventh after the first reject. *)
Definition mailer_down_env : Env :=
  {| io_rejects := fun k => (k =? 6)%nat || (k =? 7)%nat;
     Date_now := Date_now scenario_env;
     Math_random_id := Math_random_id scenario_env;
     new_ObjectId := new_ObjectId scenario_env;
     return_url := return_url scenario_env;
     notify_url := notify_url scenario_env;
     CASHFREE_SECRET_KEY := CASHFREE_SECRET_KEY scenario_env;
     PGCreateOrder := PGCreateOrder scenario_env;
     PGOrderFetchPayments := PGOrderFetchPayments scenario_env |}.

(** The database fails on the stock update of the second line (the call
    awaited fifth after the first). *)
Definition database_down_env : Env :=
  {| io_rejects := fun k => (k =? 5)%nat;
     Date_now := Date_now scenario_env;
     Math_random_id := Math_random_id scenario_env;
     new_ObjectId := new_ObjectId scenario_env;
     return_url := return_url scenario_env;
     notify_url := notify_url scenario_env;
     CASHFREE_SECRET_KEY := CASHFREE_SECRET_KEY scenario_env;
     PGCreateOrder := PGCreateOrder scenario_env;
     PGOrderFetchPayments := PGOrderFetchPayments scenario_env |}.

(** No secret is configured. *)
Definition no_secret_env : Env :=
  {| io_rejects := io_rejects scenario_env;
     Date_now := Date_now scenario_env;
     Math_random_id := Math_random_id scenario_env;
     new_ObjectId := new_ObjectId scenario_env;
     return_url := return_url scenario_env;
     notify_url := notify_url scenario_env;
     CASHFREE_SECRET_KEY := None;
     PGCreateOrder := PGCreateOrder scenario_env;
     PGOrderFetchPayments := PGOrderFetchPayments scenario_env |}.

(** A cart with a line whose product id is not in the catalogue, and a cart
    that asks for more motors than there are. *)
Definition unknown_product_request : SessionRequest :=
  {| sr_user := Some "user_1";
     sr_body := Some
       {| sb_customerDetails := Some scenario_customer;
          sb_shippingAddress := Some (address "{}");
          sb_products := Some
            [ {| productId := p_id frame; quantity := 1 |};
              {| productId := "65f0000000000000000000ff"; quantity := 1 |};
              {| productId := p_id motor; quantity := 2 |} ] |} |}.

Definition greedy_request : SessionRequest :=
  {| sr_user := Some "user_1";
     sr_body := Some
       {| sb_customerDetails := Some scenario_customer;
          sb_shippingAddress := Some (address "{}");
          sb_products := Some
            [ {| productId := p_id frame; quantity := 1 |};
              {| productId := p_id motor; quantity := 9 |} ] |} |}.

(** A webhook whose signature header is shorter than a digest. *)
Definition short_signature_webhook (event : string) : WebhookRequest :=
  {| x_webhook_timestamp := Some "1700000000";
     x_webhook_signature := Some "forged";
     rawBody := Some "{A}";
     wr_body := Some (webhook_payload event) |}.

(** The session open, and the price of the frame has been raised since. *)
Definition scenario_repriced : Db :=
  set_products
    [ {| p_id := p_id frame; p_name := "Frame"; p_price := 1500; stock := 5;
         images := ["frame.png"] |};
      motor ]
    scenario_reserved.

(** A catalogue with one airframe priced beyond 2^51, and a cart for it. *)
Definition airframe : Product :=
  {| p_id := "65f000000000000000000003"; p_name := "Airframe";
     p_price := 2251799813685251; stock := 1; images := [] |}.

Definition airframe_db : Db :=
  {| orders := []; products := [airframe]; redis := ∅ |}.

Definition airframe_request : SessionRequest :=
  {| sr_user := Some "user_1";
     sr_body := Some
       {| sb_customerDetails := Some scenario_customer;
          sb_shippingAddress := Some (address "{}");
          sb_products := Some
            [ {| productId := p_id airframe; quantity := 1 |} ] |} |}.

(** The stores that a confirmation leaves behind when the database fails on
    the stock update of the second line: the order is stored, the first line
    is taken, and the pending order is still there. *)
Definition scenario_interrupted : Db :=
  {| orders := [scenario_order];
     products := [inc_stock (- 1) frame; motor];
     redis := {[ PENDING_KEY scenario_order_id
                 := (scenario_pending, PENDING_ORDER_TTL) ]} |}.

(* ================================================================= *)
(** * Properties *)

(** ** The monad *)

Section TripleRules.

Context {A B : Type} (env : Env).

Lemma triple_ret (P : Db -> Prop) (a : A) (Q : A -> Db -> Prop) E :
  (forall d, P d -> Q a d) -> triple P (mret a) Q E.
Proof. intros H w Hw. cbn. auto. Qed.

Lemma triple_throw (P : Db -> Prop) (e : Exn) (Q : A -> Db -> Prop) (E : Db -> Prop) :
  (forall d, P d -> E d) -> triple P (throw e) Q E.
Proof. intros H w Hw. cbn. auto. Qed.

Lemma triple_bind (P : Db -> Prop) (m : M A) (f : A -> M B)
    (R : A -> Db -> Prop) (Q : B -> Db -> Prop) (E : Db -> Prop) :
  triple P m R E -> (forall a, triple (R a) (f a) Q E) ->
  triple P (m ≫= f) Q E.
Proof.
  intros Hm Hf w Hw. specialize (Hm w Hw).
  unfold mbind, M_bind. destruct (m w) as [w' [e|a]]; [exact Hm|].
  apply Hf, Hm.
Qed.

Lemma triple_try_catch (P : Db -> Prop) (m : M A) (h : Exn -> M A)
    (Q : A -> Db -> Prop) (E' E : Db -> Prop) :
  triple P m Q E' -> (forall e, triple E' (h e) Q E) ->
  triple P (try_catch m h) Q E.
Proof.
  intros Hm Hh w Hw. specialize (Hm w Hw).
  unfold try_catch. destruct (m w) as [w' [e|a]]; [|exact Hm].
  apply Hh, Hm.
Qed.

Lemma triple_await (P : Db -> Prop) (op : Db -> Db * (Exn + A))
    (Q : A -> Db -> Prop) (E : Db -> Prop) :
  (forall d, P d -> E d) ->
  (forall d, P d ->
     match op d with
     | (d', inr a) => Q a d'
     | (d', inl _) => E d'
     end) ->
  triple P (await env op) Q E.
Proof.
  intros HE Hop w Hw. unfold await.
  destruct (io_rejects env (tick w)); cbn; [auto|].
  specialize (Hop _ Hw). destruct (op (db w)) as [d' [e|a]]; exact Hop.
Qed.

Lemma triple_conseq (P P' : Db -> Prop) (m : M A) (Q Q' : A -> Db -> Prop)
    (E E' : Db -> Prop) :
  triple P' m Q' E' ->
  (forall d, P d -> P' d) -> (forall a d, Q' a d -> Q a d) ->
  (forall d, E' d -> E d) ->
  triple P m Q E.
Proof.
  intros Hm HP HQ HE w Hw. specialize (Hm w (HP _ Hw)).
  destruct (m w) as [w' [e|a]]; auto.
Qed.

End TripleRules.

Lemma triple_await_read {A : Type} env (P : Db -> Prop) (q : Db -> A)
    (Q : A -> Db -> Prop) (E : Db -> Prop) :
  (forall d, P d -> E d) -> (forall d, P d -> Q (q d) d) ->
  triple P (await_read env q) Q E.
Proof. intros HE HQ. apply triple_await; auto. Qed.

Lemma triple_await_call {A : Type} env (P : Db -> Prop) (r : Exn + A)
    (Q : A -> Db -> Prop) (E : Db -> Prop) :
  (forall d, P d -> E d) ->
  (forall a d, r = inr a -> P d -> Q a d) ->
  triple P (await_call env r) Q E.
Proof.
  intros HE HQ. apply triple_await; [auto|].
  intros d Hd. destruct r as [e|a]; auto.
Qed.

Lemma triple_pure {A : Type} (phi : Prop) (P : Db -> Prop) (m : M A) Q E :
  (phi -> triple P m Q E) -> triple (fun d => phi /\ P d) m Q E.
Proof. intros H w [Hphi Hw]. exact (H Hphi w Hw). Qed.

Lemma triple_conj {A : Type} (P1 P2 : Db -> Prop) (m : M A)
    (Q1 Q2 : A -> Db -> Prop) (E1 E2 : Db -> Prop) :
  triple P1 m Q1 E1 -> triple P2 m Q2 E2 ->
  triple (fun d => P1 d /\ P2 d) m (fun a d => Q1 a d /\ Q2 a d)
    (fun d => E1 d /\ E2 d).
Proof.
  intros H1 H2 w [Hw1 Hw2]. specialize (H1 w Hw1). specialize (H2 w Hw2).
  destruct (m w) as [w' [e|a]]; auto.
Qed.

Lemma triple_bind_inv {A B : Type} (I : Db -> Prop) (m : M A) (f : A -> M B) Q E :
  triple I m (fun _ => I) E -> (forall a, triple I (f a) Q E) ->
  triple I (m ≫= f) Q E.
Proof. intros Hm Hf. eapply triple_bind; [exact Hm|exact Hf]. Qed.

Lemma triple_await_inv {A : Type} env (I : Db -> Prop) (op : Db -> Db * (Exn + A))
    (E : Db -> Prop) :
  (forall d, I d -> E d) -> (forall d, I d -> I (op d).1) ->
  (forall d, I d -> E (op d).1) ->
  triple I (await env op) (fun _ => I) E.
Proof.
  intros HE HI HE'. apply triple_await; [exact HE|].
  intros d Hd. specialize (HI d Hd). specialize (HE' d Hd).
  destruct (op d) as [d' [e|a]]; assumption.
Qed.

(** What a specification of the body says about the handler. *)
Lemma handler_triple (P : Db -> Prop) (body : M Response)
    (on_error : Exn -> Response) (Q : Response -> Db -> Prop) (E : Db -> Prop) d :
  triple P body Q E -> P d ->
  Q (handler body on_error d).2 (handler body on_error d).1
  \/ (E (handler body on_error d).1
      /\ exists e, (handler body on_error d).2 = on_error e).
Proof.
  intros Hb Hd. unfold handler.
  specialize (Hb {| db := d; tick := 0 |} Hd).
  destruct (body _) as [w' [e|r]]; cbn; eauto.
Qed.

Lemma handler_db body on_error d :
  (handler body on_error d).1 = db (body {| db := d; tick := 0 |}).1.
Proof. unfold handler. destruct (body _) as [w [e|r]]; reflexivity. Qed.

(** Without rejections an awaited call is the call. *)
Lemma await_no_rejection {A : Type} env (op : Db -> Db * (Exn + A)) w :
  no_rejection env ->
  await env op w = let '(d, r) := op (db w) in (next d w, r).
Proof. intros H. unfold await. now rewrite H. Qed.

(** *** Invariants of the stores *)

(** [preserves I m]: the body [m] keeps the invariant [I], whether it returns
    or throws. *)
Abbreviation preserves I m := (triple I%function m (fun _ => I%function) I%function).

Lemma preserves_await {A : Type} env (I : Db -> Prop) (op : Db -> Db * (Exn + A)) :
  (forall d, I d -> I (op d).1) -> preserves I (await env op).
Proof.
  intros H. apply triple_await; [auto|].
  intros d Hd. specialize (H d Hd). destruct (op d) as [d' [e|a]]; exact H.
Qed.

Lemma preserves_bind {A B : Type} (I : Db -> Prop) (m : M A) (f : A -> M B) :
  preserves I m -> (forall a, preserves I (f a)) -> preserves I (m ≫= f).
Proof. intros Hm Hf. eapply triple_bind; [exact Hm|exact Hf]. Qed.

Lemma preserves_try_catch {A : Type} (I : Db -> Prop) (m : M A) (h : Exn -> M A) :
  preserves I m -> (forall e, preserves I (h e)) -> preserves I (try_catch m h).
Proof. intros Hm Hh. eapply triple_try_catch; [exact Hm|exact Hh]. Qed.

Lemma preserves_handler (I : Db -> Prop) body on_error d :
  preserves I body -> I d -> I (handler body on_error d).1.
Proof.
  intros Hb Hd. destruct (handler_triple I body on_error _ _ d Hb Hd) as [H|[H _]];
    exact H.
Qed.

Lemma triple_try_swallow {A : Type} (I : Db -> Prop) (m : M A) (a : A) E :
  preserves I m -> triple I (try_catch m (fun _ => mret a)) (fun _ => I) E.
Proof.
  intros Hm. eapply triple_try_catch; [exact Hm|].
  intros e. apply triple_ret. auto.
Qed.

(** One step of a proof that a body keeps an invariant: follow the shape of
    the body, and leave the awaited store operations to [tac]. *)
Ltac preserves_step tac :=
  lazymatch goal with
  | |- triple _ (mret _) _ _ => apply triple_ret; intros; assumption
  | |- triple _ (throw _) _ _ => apply triple_throw; intros; assumption
  | |- triple _ (mbind _ _) _ _ => apply preserves_bind; [|intros ?]
  | |- triple _ (try_catch _ _) _ _ => apply preserves_try_catch; [|intros ?]
  | |- triple _ (await_read _ _) _ _ =>
      apply preserves_await; intros; assumption
  | |- triple _ (await_call _ _) _ _ =>
      apply preserves_await; intros; assumption
  | |- triple _ (sendMail _ _ _ _) _ _ =>
      apply preserves_await; intros; assumption
  | |- triple _ (createShipmentForOrder _ _) _ _ =>
      apply preserves_await; intros; assumption
  | |- triple _ (await _ _) _ _ => apply preserves_await; intros; tac
  | |- triple _ (match ?x with _ => _ end) _ _ => destruct x
  end.

Ltac preserves_body tac := repeat preserves_step tac.

(** One step of a proof about a body whose precondition [I] is kept up to the
    point of interest and whose exceptional postcondition is trivial. *)
Ltac frame_step tac :=
  lazymatch goal with
  | |- triple _ (mret _) _ _ => apply triple_ret; intros; try assumption
  | |- triple _ (throw _) _ _ => apply triple_throw; intros; exact I
  | |- triple _ (mbind (fun _ => _) (try_catch _ _)) _ _ =>
      apply triple_bind_inv;
      [apply triple_try_swallow;
       unfold sendMail, createShipmentForOrder, await_call;
       apply preserves_await; intros; assumption
      |intros ?]
  | |- triple _ (mbind _ _) _ _ => apply triple_bind_inv; [|intros ?]
  | |- triple _ (await _ _) _ _ =>
      apply triple_await_inv; intros; [exact I|tac|exact I]
  | |- triple _ (await_read _ _) _ _ =>
      unfold await_read;
      apply triple_await_inv; intros; [exact I|assumption|exact I]
  | |- triple _ (await_call _ _) _ _ =>
      unfold await_call;
      apply triple_await_inv; intros; [exact I|assumption|exact I]
  | |- triple _ (match ?x with _ => _ end) _ _ => destruct x eqn:?
  end.

Ltac not_created :=
  match goal with
  | H : _ = order_created _ |- _ => discriminate H
  end.

(** *** Running a body on known stores *)

Section Execution.

Context {A B : Type} (env : Env) (d : Db) (E : Db -> Prop).

Lemma triple_read_bind (q : Db -> A) (f : A -> M B) Q :
  E d -> triple (eq d) (f (q d)) Q E ->
  triple (eq d) (await_read env q ≫= f) Q E.
Proof.
  intros HE H.
  eapply triple_bind with (R := fun a d0 => a = q d /\ d = d0).
  - apply triple_await_read; [intros d0 <-; exact HE|]. intros d0 <-. auto.
  - intros a. apply triple_pure. intros ->. exact H.
Qed.

Lemma triple_get_bind key (f : option PendingOrder -> M B) Q :
  E d -> triple (eq d) (f (fst <$> redis d !! key)) Q E ->
  triple (eq d) (await env (redis_get key) ≫= f) Q E.
Proof.
  intros HE H.
  eapply triple_bind with
    (R := fun a d0 => a = (fst <$> redis d !! key) /\ d = d0).
  - apply triple_await; [intros d0 <-; exact HE|]. intros d0 <-. cbn. auto.
  - intros a. apply triple_pure. intros ->. exact H.
Qed.

Lemma triple_call_bind (r : Exn + A) (f : A -> M B) Q :
  E d -> (forall a, r = inr a -> triple (eq d) (f a) Q E) ->
  triple (eq d) (await_call env r ≫= f) Q E.
Proof.
  intros HE H.
  eapply triple_bind with (R := fun a d0 => r = inr a /\ d = d0).
  - apply triple_await_call; [intros d0 <-; exact HE|].
    intros a d0 -> <-. auto.
  - intros a. apply triple_pure. intros Hr. exact (H a Hr).
Qed.

End Execution.

(** ** The store operations *)

(** *** The conditional stock update *)

Lemma findOneAndUpdate_stock_spec id qty ps :
  match findOneAndUpdate_stock id qty ps with
  | (Some p', ps') =>
      exists l1 p l2, ps = l1 ++ p :: l2 /\ ps' = l1 ++ p' :: l2 /\
        p_id p = id /\ qty <= stock p /\ p' = inc_stock (- qty) p
  | (None, ps') =>
      ps' = ps /\ forall p, In p ps -> p_id p = id -> stock p < qty
  end.
Proof.
  induction ps as [|p rest IH]; cbn.
  - split; [reflexivity|]. intros p [].
  - destruct (String.eqb (p_id p) id && (qty <=? stock p)) eqn:Hc.
    + apply andb_true_iff in Hc as [Hid Hq].
      apply String.eqb_eq in Hid. apply Z.leb_le in Hq.
      exists [], p, rest. auto.
    + destruct (findOneAndUpdate_stock id qty rest) as [[p'|] rest'].
      * destruct IH as (l1 & p0 & l2 & -> & -> & ? & ? & ?).
        exists (p :: l1), p0, l2. auto.
      * destruct IH as [-> IH]. split; [reflexivity|].
        intros p0 [<-|Hin] Hid; [|auto].
        apply andb_false_iff in Hc as [Hc|Hc].
        -- apply String.eqb_neq in Hc. contradiction.
        -- apply Z.leb_gt in Hc. exact Hc.
Qed.

Lemma sumZ_app l1 l2 : sumZ (l1 ++ l2) = sumZ l1 + sumZ l2.
Proof. unfold sumZ. induction l1 as [|x l1 IH]; cbn; lia. Qed.

Lemma findOneAndUpdate_stock_total id qty ps p' ps' :
  findOneAndUpdate_stock id qty ps = (Some p', ps') ->
  sumZ (map stock ps') = sumZ (map stock ps) - qty.
Proof.
  intros H. pose proof (findOneAndUpdate_stock_spec id qty ps) as S.
  rewrite H in S. destruct S as (l1 & p & l2 & -> & -> & _ & _ & ->).
  rewrite !List.map_app, !sumZ_app. unfold sumZ. cbn. lia.
Qed.

Lemma findOneAndUpdate_stock_nonneg id qty ps :
  Forall (fun p => 0 <= stock p) ps ->
  Forall (fun p => 0 <= stock p) (findOneAndUpdate_stock id qty ps).2.
Proof.
  intros H. pose proof (findOneAndUpdate_stock_spec id qty ps) as S.
  destruct (findOneAndUpdate_stock id qty ps) as [[p'|] ps']; cbn.
  - destruct S as (l1 & p & l2 & -> & -> & _ & Hq & ->).
    apply Forall_app in H as [H1 H2]. apply Forall_app. split; [exact H1|].
    inversion H2; subst. constructor; [cbn; lia|assumption].
  - destruct S as [-> _]. exact H.
Qed.

Lemma Product_findOneAndUpdate_nonneg id qty d :
  stock_nonneg d -> stock_nonneg (Product_findOneAndUpdate id qty d).1.
Proof.
  unfold stock_nonneg, Product_findOneAndUpdate. intros H.
  pose proof (findOneAndUpdate_stock_nonneg id qty _ H) as H'.
  destruct (findOneAndUpdate_stock id qty (products d)); exact H'.
Qed.

Lemma decremented_from_step ps0 id qty d :
  decremented_from ps0 d ->
  decremented_from ps0 (Product_findOneAndUpdate id qty d).1.
Proof.
  intros [items H].
  exists (items ++ [{| op_productId := id; op_name := ""; op_price := 0;
                       op_quantity := qty; op_image := "" |}]).
  unfold conditional_decrements in *. rewrite fold_left_app. cbn.
  rewrite <- H. unfold Product_findOneAndUpdate.
  destruct (findOneAndUpdate_stock id qty (products d)); reflexivity.
Qed.

Ltac products_unchanged :=
  unfold Order_create, Order_findByIdAndDelete, Order_save, redis_set,
    redis_get, redis_del; cbn;
  repeat case_match; cbn; auto.

Ltac orders_unchanged :=
  unfold Product_findOneAndUpdate, redis_set, redis_get, redis_del; cbn;
  repeat case_match; cbn; auto.

(** *** The orders and their unique indexes *)

Lemma Order_findOne_In id d o :
  Order_findOne id d = Some o -> In o (orders d) /\ cashfreeOrderId o = id.
Proof.
  unfold Order_findOne. intros H. apply find_some in H as [Hin Heq].
  apply String.eqb_eq in Heq. auto.
Qed.

Lemma has_order_id_In o os : In o os -> has_order_id (o_id o) os = true.
Proof.
  intros H. unfold has_order_id. apply existsb_exists.
  exists o. split; [exact H|apply String.eqb_refl].
Qed.

Lemma has_order_id_false id os :
  has_order_id id os = false -> ~ In id (map o_id os).
Proof.
  unfold has_order_id. intros H Hin. apply in_map_iff in Hin as (o & <- & Hin).
  assert (existsb (fun o0 => String.eqb (o_id o0) (o_id o)) os = true) as H'.
  { apply existsb_exists. exists o. split; [exact Hin|apply String.eqb_refl]. }
  congruence.
Qed.

Lemma has_cashfreeOrderId_false id os :
  has_cashfreeOrderId id os = false -> ~ In id (map cashfreeOrderId os).
Proof.
  unfold has_cashfreeOrderId. intros H Hin.
  apply in_map_iff in Hin as (o & <- & Hin).
  assert (existsb (fun o0 => String.eqb (cashfreeOrderId o0) (cashfreeOrderId o)) os
          = true) as H'.
  { apply existsb_exists. exists o. split; [exact Hin|apply String.eqb_refl]. }
  congruence.
Qed.

Lemma NoDup_snoc {A : Type} (l : list A) (x : A) :
  List.NoDup l -> ~ In x l -> List.NoDup (l ++ [x]).
Proof.
  intros Hl Hx. apply List.NoDup_app; [exact Hl|repeat constructor; intros []|].
  intros a Ha [<-|[]]. exact (Hx Ha).
Qed.

Lemma NoDup_map_In_eq {A B : Type} (f : A -> B) (l : list A) x y :
  List.NoDup (map f l) -> In x l -> In y l -> f x = f y -> x = y.
Proof.
  induction l as [|a l IH]; cbn; [intros _ []|].
  intros H Hx Hy Hf. apply List.NoDup_cons_iff in H as [Hnotin Hnd].
  destruct Hx as [->|Hx], Hy as [->|Hy]; auto.
  - exfalso. apply Hnotin. rewrite Hf. apply in_map, Hy.
  - exfalso. apply Hnotin. rewrite <- Hf. apply in_map, Hx.
Qed.

Lemma NoDup_map_delete_by_id {A : Type} (f : Order -> A) id os :
  List.NoDup (map f os) -> List.NoDup (map f (delete_by_id id os)).
Proof.
  induction os as [|o rest IH]; cbn; [auto|].
  intros H. apply List.NoDup_cons_iff in H as [Hnotin Hnd].
  destruct (String.eqb (o_id o) id); [exact Hnd|]. cbn.
  constructor; [|apply IH, Hnd].
  intros Hin. apply Hnotin. apply in_map_iff in Hin as (x & <- & Hx).
  apply in_map. clear -Hx. induction rest as [|y rest IH]; cbn in *; [exact Hx|].
  destruct (String.eqb (o_id y) id); [right; exact Hx|].
  destruct Hx as [->|Hx]; [left; reflexivity|right; apply IH, Hx].
Qed.

Lemma saved_fresh doc os : ~ In (o_id doc) (map o_id os) -> saved doc os = os.
Proof.
  unfold saved. induction os as [|o rest IH]; cbn; [reflexivity|].
  intros H. destruct (String.eqb (o_id o) (o_id doc)) eqn:He.
  - apply String.eqb_eq in He. exfalso. apply H. left. exact He.
  - rewrite IH; [reflexivity|]. intros Hin. apply H. right. exact Hin.
Qed.

Lemma replace_by_id_saved doc os :
  List.NoDup (map o_id os) -> has_order_id (o_id doc) os = true ->
  replace_by_id doc os = Some (saved doc os).
Proof.
  induction os as [|o rest IH]; [discriminate|].
  intros Hnd Hhas. apply List.NoDup_cons_iff in Hnd as [Hnotin Hnd].
  change (saved doc (o :: rest))
    with ((if String.eqb (o_id o) (o_id doc) then doc else o) :: saved doc rest).
  cbn [replace_by_id]. cbn [has_order_id existsb] in Hhas.
  destruct (String.eqb (o_id o) (o_id doc)) eqn:He.
  - apply String.eqb_eq in He. rewrite saved_fresh; [reflexivity|].
    rewrite <- He. exact Hnotin.
  - cbn [orb] in Hhas. rewrite (IH Hnd Hhas). reflexivity.
Qed.

Lemma replace_by_id_ids doc os os' :
  replace_by_id doc os = Some os' -> map o_id os' = map o_id os.
Proof.
  revert os'. induction os as [|o rest IH]; cbn; [discriminate|].
  intros os'. destruct (String.eqb (o_id o) (o_id doc)) eqn:He.
  - intros [= <-]. cbn. apply String.eqb_eq in He. now rewrite He.
  - destruct (replace_by_id doc rest) as [rest'|]; [|discriminate].
    intros [= <-]. cbn. now rewrite (IH rest' eq_refl).
Qed.

Lemma saved_set_status_ids s p o os :
  List.NoDup (map o_id os) -> In o os ->
  map o_id (saved (set_status s p o) os) = map o_id os
  /\ map cashfreeOrderId (saved (set_status s p o) os) = map cashfreeOrderId os.
Proof.
  intros Hnd Hin. unfold saved. rewrite !List.map_map.
  split; apply map_ext_in; intros x Hx; cbn;
    destruct (String.eqb (o_id x) (o_id o)) eqn:He; try reflexivity.
  - apply String.eqb_eq in He. cbn. congruence.
  - apply String.eqb_eq in He. cbn.
    now rewrite (NoDup_map_In_eq o_id os x o Hnd Hx Hin He).
Qed.

Lemma Order_create_unique doc d :
  unique_orders d -> unique_orders (Order_create doc d).1.
Proof.
  intros [Hid Hcf]. unfold Order_create.
  destruct (has_order_id _ _) eqn:H1; cbn; [split; assumption|].
  destruct (has_cashfreeOrderId _ _) eqn:H2; cbn; [split; assumption|].
  unfold unique_orders. cbn. rewrite !List.map_app. cbn.
  split; apply NoDup_snoc; auto using has_order_id_false, has_cashfreeOrderId_false.
Qed.

Lemma Order_findByIdAndDelete_unique id d :
  unique_orders d -> unique_orders (Order_findByIdAndDelete id d).1.
Proof.
  intros [Hid Hcf]. split; cbn; apply NoDup_map_delete_by_id; assumption.
Qed.

Lemma Order_save_unique s p o d :
  unique_orders d -> In o (orders d) ->
  unique_orders (Order_save (set_status s p o) d).1.
Proof.
  intros [Hid Hcf] Hin. unfold Order_save.
  rewrite replace_by_id_saved;
    [|exact Hid|exact (has_order_id_In o _ Hin)].
  destruct (saved_set_status_ids s p o (orders d) Hid Hin) as [E1 E2].
  split; cbn; [rewrite E1|rewrite E2]; assumption.
Qed.

(** ** Opening a session: [createCheckoutSession] *)

Lemma fetch_products_preserves env (I : Db -> Prop) items acc :
  triple I (fetch_products env items acc) (fun _ => I) I.
Proof.
  revert acc. induction items as [|item rest IH]; intros acc; cbn.
  - preserves_body idtac.
  - preserves_body idtac. apply IH.
Qed.

Lemma fetch_products_found env d items acc :
  triple (eq d) (fetch_products env items acc)
    (fun fetched d0 =>
       match fetched with
       | inl response => status response = 400
       | inr dbProducts =>
           exists found, dbProducts = acc ++ found /\
             Forall2 (fun item p => Product_findById (productId item) d = Some p)
               items found
       end /\ d = d0)
    (eq d).
Proof.
  revert acc. induction items as [|item rest IH]; intros acc; cbn.
  - apply triple_ret. intros d0 <-. split; [|reflexivity].
    exists []. rewrite app_nil_r. split; [reflexivity|constructor].
  - destruct (isValidObjectId (productId item)).
    + apply triple_read_bind; [reflexivity|].
      destruct (Product_findById (productId item) d) as [p|] eqn:Hp.
      * eapply triple_conseq; [apply (IH (acc ++ [p]))|auto| |auto].
        intros [response|dbProducts] d0 [H <-]; (split; [|reflexivity]); [exact H|].
        destruct H as (found & -> & Hfound).
        exists (p :: found). rewrite <- app_assoc. split; [reflexivity|].
        constructor; assumption.
      * apply triple_ret. intros d0 <-. split; reflexivity.
    + eapply triple_bind with (R := fun a d0 => a = None /\ d = d0).
      * apply triple_ret. auto.
      * intros a. apply triple_pure. intros ->.
        apply triple_ret. intros d0 <-. split; reflexivity.
Qed.

(** The pricing loop from a subtotal [s] on: the fold of [lines_subtotal]
    over the order lines, and the lines themselves. *)
Lemma price_lines_from items dbProducts s acc :
  price_lines items dbProducts s acc
  = (fold_left
       (fun subtotal line =>
          (subtotal
           + Number_of_Z (op_price line) * Number_of_Z (op_quantity line))
          %float)
       (zip_with order_line items dbProducts) s,
     acc ++ zip_with order_line items dbProducts).
Proof.
  revert dbProducts s acc.
  induction items as [|item rest IH]; intros [|p ps] s acc;
    cbn [price_lines zip_with fold_left];
    try (rewrite app_nil_r; reflexivity).
  rewrite IH, <- app_assoc. reflexivity.
Qed.

Lemma price_lines_spec items dbProducts :
  price_lines items dbProducts 0%float []
  = (lines_subtotal (zip_with order_line items dbProducts),
     zip_with order_line items dbProducts).
Proof. apply price_lines_from. Qed.

Lemma createCheckoutSession_products env req d :
  products (createCheckoutSession env req d).1 = products d.
Proof.
  unfold createCheckoutSession.
  refine (preserves_handler (fun d0 => products d0 = products d) _ _ d _ _);
    [|reflexivity].
  unfold createCheckoutSession_body.
  preserves_body products_unchanged.
  - apply fetch_products_preserves.
  - unfold open_session. preserves_body products_unchanged.
Qed.

Lemma createCheckoutSession_unique env req d :
  unique_orders d -> unique_orders (createCheckoutSession env req d).1.
Proof.
  apply preserves_handler. unfold createCheckoutSession_body.
  preserves_body orders_unchanged.
  - apply fetch_products_preserves.
  - unfold open_session. preserves_body orders_unchanged.
Qed.

(** *** Pricing *)

(** The pricing is computed on binary64 numbers.  The lemmas below follow
    the operations of [SpecFloat], which [FloatAxioms] gives as the
    specification of the primitive floats: the sums, products and differences
    of non-negative integers are exact as long as they stay below 2^53, and
    [Math.round(S / 1.05)] is the exact rounding for every integer [S] from 0
    to 2^47. *)

(** **** Bits and shifts *)

Lemma digits2_pos_bounds p :
  2 ^ (Z.pos (digits2_pos p) - 1) <= Z.pos p < 2 ^ Z.pos (digits2_pos p).
Proof.
  induction p as [p IH|p IH|]; cbn [digits2_pos].
  - rewrite Pos2Z.inj_succ.
    replace (Z.succ (Z.pos (digits2_pos p)) - 1)
      with (Z.succ (Z.pos (digits2_pos p) - 1)) by lia.
    rewrite !Z.pow_succ_r by lia. lia.
  - rewrite Pos2Z.inj_succ.
    replace (Z.succ (Z.pos (digits2_pos p)) - 1)
      with (Z.succ (Z.pos (digits2_pos p) - 1)) by lia.
    rewrite !Z.pow_succ_r by lia. lia.
  - cbn. lia.
Qed.

Lemma digits2_pos_unique p k :
  2 ^ (k - 1) <= Z.pos p < 2 ^ k -> Z.pos (digits2_pos p) = k.
Proof.
  intros [Hlo Hhi]. pose proof (digits2_pos_bounds p) as [Hlo' Hhi'].
  assert (0 < k).
  { destruct (Z_lt_le_dec 0 k) as [|Hk]; [assumption|].
    destruct (Z.eq_dec k 0) as [->|]; [cbn in Hhi; lia|].
    rewrite Z.pow_neg_r in Hhi by lia. lia. }
  destruct (Z.lt_trichotomy (Z.pos (digits2_pos p)) k) as [Hlt|[Heq|Hgt]];
    [|exact Heq|].
  - assert (2 ^ Z.pos (digits2_pos p) <= 2 ^ (k - 1))
      by (apply Z.pow_le_mono_r; lia). lia.
  - assert (2 ^ k <= 2 ^ (Z.pos (digits2_pos p) - 1))
      by (apply Z.pow_le_mono_r; lia). lia.
Qed.

Lemma digits2_pos_shift p n q :
  0 <= n -> Z.pos q = Z.pos p * 2 ^ n ->
  Z.pos (digits2_pos q) = Z.pos (digits2_pos p) + n.
Proof.
  intros Hn Hq. apply digits2_pos_unique. rewrite Hq.
  pose proof (digits2_pos_bounds p) as [Hlo Hhi].
  replace (Z.pos (digits2_pos p) + n - 1) with (Z.pos (digits2_pos p) - 1 + n)
    by lia.
  rewrite !Z.pow_add_r by lia.
  assert (0 < 2 ^ n) by (apply Z.pow_pos_nonneg; lia). nia.
Qed.

Lemma iter_pos_nat {A : Type} (f : A -> A) p x :
  SpecFloat.iter_pos f p x = Nat.iter (Pos.to_nat p) f x.
Proof.
  revert x. induction p as [p IH|p IH|]; intros x; cbn [SpecFloat.iter_pos].
  - rewrite !IH, Pos2Nat.inj_xI.
    replace (S (2 * Pos.to_nat p)) with (Pos.to_nat p + (Pos.to_nat p + 1))%nat
      by lia.
    rewrite !Nat.iter_add. reflexivity.
  - rewrite !IH, Pos2Nat.inj_xO.
    replace (2 * Pos.to_nat p)%nat with (Pos.to_nat p + Pos.to_nat p)%nat by lia.
    rewrite Nat.iter_add. reflexivity.
  - reflexivity.
Qed.

Lemma shr_1_double k :
  0 <= k ->
  shr_1 {| shr_m := 2 * k; shr_r := false; shr_s := false |}
  = {| shr_m := k; shr_r := false; shr_s := false |}.
Proof. intros Hk. destruct k as [|p|p]; [reflexivity|reflexivity|lia]. Qed.

Lemma shr_exact n M :
  0 <= M ->
  Nat.iter n shr_1
    {| shr_m := M * 2 ^ Z.of_nat n; shr_r := false; shr_s := false |}
  = {| shr_m := M; shr_r := false; shr_s := false |}.
Proof.
  intros HM. induction n as [|n IH].
  - cbn. now rewrite Z.mul_1_r.
  - rewrite Nat.iter_succ_r, Nat2Z.inj_succ, Z.pow_succ_r by lia.
    replace (M * (2 * 2 ^ Z.of_nat n)) with (2 * (M * 2 ^ Z.of_nat n)) by lia.
    rewrite shr_1_double; [exact IH|].
    assert (0 <= 2 ^ Z.of_nat n) by (apply Z.pow_nonneg; lia). nia.
Qed.

Lemma shr_m_shr_1 mrs : 0 <= shr_m mrs -> shr_m (shr_1 mrs) = shr_m mrs / 2.
Proof.
  destruct mrs as [m r s]. cbn [shr_m]. intros Hm.
  destruct m as [|[p|p|]|p]; cbn [shr_1 shr_m]; try reflexivity; try lia.
  - rewrite Pos2Z.inj_xI. apply Z.div_unique with 1; lia.
  - rewrite Pos2Z.inj_xO. apply Z.div_unique with 0; lia.
Qed.

Lemma shr_m_iter n mrs :
  0 <= shr_m mrs ->
  shr_m (Nat.iter n shr_1 mrs) = shr_m mrs / 2 ^ Z.of_nat n.
Proof.
  intros Hm. induction n as [|n IH].
  - cbn. now rewrite Z.div_1_r.
  - rewrite Nat.iter_succ, shr_m_shr_1.
    + rewrite IH, Nat2Z.inj_succ, Z.pow_succ_r by lia.
      rewrite Z.div_div by (try apply Z.pow_pos_nonneg; lia).
      f_equal. lia.
    + rewrite IH. apply Z.div_pos; [exact Hm|apply Z.pow_pos_nonneg; lia].
Qed.

Lemma Pos_iter_xO m d : Z.pos (Pos.iter xO m d) = Z.pos m * 2 ^ Z.pos d.
Proof.
  induction d as [|d IH] using Pos.peano_ind.
  - cbn. lia.
  - rewrite Pos.iter_succ, Pos2Z.inj_xO, IH, Pos2Z.inj_succ, Z.pow_succ_r by lia.
    lia.
Qed.

(** **** Rounding *)

Lemma shr_exact_Z M n e :
  0 <= M -> 0 <= n ->
  shr {| shr_m := M * 2 ^ n; shr_r := false; shr_s := false |} e n
  = ({| shr_m := M; shr_r := false; shr_s := false |}, e + n).
Proof.
  intros HM Hn. destruct n as [|p|p]; [| |lia].
  - cbn. now rewrite Z.mul_1_r, Z.add_0_r.
  - unfold shr. rewrite iter_pos_nat, <- (positive_nat_Z p), shr_exact by exact HM.
    reflexivity.
Qed.

Lemma fexp_normal e : -1021 <= e -> fexp prec emax e = e - 53.
Proof. intros He. unfold fexp, SpecFloat.emin, prec, emax. lia. Qed.

Lemma shr_fexp_exact M n E :
  Z.pos (digits2_pos M) = 53 -> 0 <= n -> -1074 <= E ->
  shr_fexp prec emax (Z.pos M * 2 ^ n) (E - n) loc_Exact
  = ({| shr_m := Z.pos M; shr_r := false; shr_s := false |}, E).
Proof.
  intros HM Hn HE. unfold shr_fexp.
  assert (Hpos : 0 < Z.pos M * 2 ^ n).
  { assert (0 < 2 ^ n) by (apply Z.pow_pos_nonneg; lia). nia. }
  destruct (Z.pos M * 2 ^ n) as [|m|m] eqn:Hm; try lia.
  cbn [Zdigits2 shr_record_of_loc].
  rewrite (digits2_pos_shift M n m) by (auto; lia). rewrite HM.
  replace (fexp prec emax (53 + n + (E - n)) - (E - n)) with n
    by (unfold fexp, SpecFloat.emin, prec, emax; lia).
  rewrite <- Hm, shr_exact_Z by lia. f_equal. lia.
Qed.

(** A mantissa of 53 bits followed by [n] zero bits rounds to itself. *)
Lemma binary_round_aux_exact s M n E :
  Z.pos (digits2_pos M) = 53 -> 0 <= n -> -1074 <= E <= 971 ->
  binary_round_aux prec emax s (Z.pos M * 2 ^ n) (E - n) loc_Exact
  = S754_finite s M E.
Proof.
  intros HM Hn HE. unfold binary_round_aux.
  rewrite shr_fexp_exact by (auto; lia).
  cbn [shr_m loc_of_shr_record round_nearest_even].
  pose proof (shr_fexp_exact M 0 E HM (Z.le_refl 0) (proj1 HE)) as H0.
  rewrite Z.pow_0_r, Z.mul_1_r, Z.sub_0_r in H0. rewrite H0. cbn [shr_m].
  destruct (Z.leb_spec E (emax - prec)) as [_|Hgt]; [reflexivity|].
  unfold emax, prec in Hgt. lia.
Qed.

(** Rounding a value that has more digits than fit: the result is one of the
    two neighbours. *)
Lemma round_nearest_even_cases x l :
  round_nearest_even x l = x \/ round_nearest_even x l = x + 1.
Proof.
  destruct l as [|[| |]]; cbn; auto. destruct (Z.even x); auto.
Qed.

Lemma shr_fexp_inexact q n e l :
  2 ^ (52 + n) <= q < 2 ^ (53 + n) -> 0 <= n -> -1074 <= e + n ->
  exists r s,
    shr_fexp prec emax q e l
    = ({| shr_m := q / 2 ^ n; shr_r := r; shr_s := s |}, e + n).
Proof.
  intros Hq Hn He. unfold shr_fexp.
  assert (0 < 2 ^ (52 + n)) by (apply Z.pow_pos_nonneg; lia).
  destruct q as [|m|m]; try lia.
  cbn [Zdigits2].
  rewrite (digits2_pos_unique m (53 + n))
    by (replace (53 + n - 1) with (52 + n) by lia; exact Hq).
  replace (fexp prec emax (53 + n + e) - e) with n
    by (unfold fexp, SpecFloat.emin, prec, emax; lia).
  destruct n as [|p|p]; [| |lia].
  - cbn [shr]. rewrite Z.pow_0_r, Z.div_1_r, Z.add_0_r.
    destruct l as [|[| |]]; cbn; eauto.
  - unfold shr. rewrite iter_pos_nat.
    set (r0 := shr_record_of_loc (Z.pos m) l).
    assert (Hr0 : shr_m r0 = Z.pos m) by (destruct l as [|[| |]]; reflexivity).
    pose proof (shr_m_iter (Pos.to_nat p) r0) as Hm.
    rewrite Hr0, positive_nat_Z in Hm. specialize (Hm ltac:(lia)).
    destruct (Nat.iter (Pos.to_nat p) shr_1 r0) as [m' r' s'].
    cbn [shr_m] in Hm. subst m'. eauto.
Qed.

Lemma binary_round_aux_inexact s q n e l :
  2 ^ (52 + n) <= q < 2 ^ (53 + n) -> 0 <= n -> -1074 <= e + n <= 969 ->
  exists M E,
    binary_round_aux prec emax s q e l = S754_finite s M E
    /\ e + n <= E <= e + n + 1
    /\ (Z.pos M * 2 ^ (E - (e + n)) = q / 2 ^ n
        \/ Z.pos M * 2 ^ (E - (e + n)) = q / 2 ^ n + 1).
Proof.
  intros Hq Hn He. unfold binary_round_aux.
  destruct (shr_fexp_inexact q n e l Hq Hn (proj1 He)) as (r & s0 & ->).
  cbn [shr_m].
  set (x := q / 2 ^ n).
  assert (Hx : 2 ^ 52 <= x < 2 ^ 53).
  { subst x. rewrite !Z.pow_add_r in Hq by lia.
    assert (0 < 2 ^ n) by (apply Z.pow_pos_nonneg; lia).
    split.
    - apply Z.div_le_lower_bound; lia.
    - apply Z.div_lt_upper_bound; lia. }
  set (y := round_nearest_even x _).
  assert (Hy : y = x \/ y = x + 1) by apply round_nearest_even_cases.
  clearbody y.
  destruct (Z_lt_le_dec y (2 ^ 53)) as [Hlt|Hge].
  - assert (Hy' : 2 ^ (52 + 0) <= y < 2 ^ (53 + 0))
      by (rewrite !Z.add_0_r; lia).
    destruct (shr_fexp_inexact y 0 (e + n) loc_Exact Hy' (Z.le_refl 0)
                ltac:(lia)) as (r1 & s1 & ->).
    cbn [shr_m]. rewrite Z.pow_0_r, Z.div_1_r, Z.add_0_r.
    destruct y as [|M|M]; try lia.
    destruct (Z.leb_spec (e + n) (emax - prec)) as [_|Hgt];
      [|unfold emax, prec in Hgt; lia].
    exists M, (e + n). split; [reflexivity|]. split; [lia|].
    rewrite Z.sub_diag, Z.pow_0_r, Z.mul_1_r. exact Hy.
  - assert (Hy2 : y = 2 ^ 53) by lia.
    assert (Hy' : 2 ^ (52 + 1) <= y < 2 ^ (53 + 1))
      by (rewrite Hy2; split; [reflexivity|reflexivity]).
    destruct (shr_fexp_inexact y 1 (e + n) loc_Exact Hy' ltac:(lia)
                ltac:(lia)) as (r1 & s1 & ->).
    cbn [shr_m]. rewrite Hy2.
    change (2 ^ 53 / 2 ^ 1) with (Z.pos (2 ^ 52)).
    destruct (Z.leb_spec (e + n + 1) (emax - prec)) as [_|Hgt];
      [|unfold emax, prec in Hgt; lia].
    exists (2 ^ 52)%positive, (e + n + 1). split; [reflexivity|].
    split; [lia|]. right.
    replace (e + n + 1 - (e + n)) with 1 by lia.
    change (Z.pos (2 ^ 52) * 2 ^ 1) with (2 ^ 53). lia.
Qed.

(** **** The integers below 2^53 *)

Lemma pow2_pos n : 0 <= n -> 0 < 2 ^ n.
Proof. intros. apply Z.pow_pos_nonneg; lia. Qed.

Lemma pow2_split N i j :
  0 <= i -> 0 <= j -> N * 2 ^ (i + j) = N * 2 ^ i * 2 ^ j.
Proof. intros. rewrite Z.pow_add_r by lia. ring. Qed.

Lemma SFsafe_normal_form N :
  0 < N < 2 ^ 53 ->
  exists K E, SFsafe N = S754_finite false K E /\ normal_form N K E.
Proof.
  intros HN. destruct N as [|p|p]; try lia.
  pose proof (digits2_pos_bounds p) as Hd.
  set (d := Z.pos (digits2_pos p)) in *.
  assert (Hd53 : 1 <= d <= 53).
  { split; [subst d; lia|].
    destruct (Z_le_gt_dec d 53) as [|Hgt]; [assumption|].
    assert (2 ^ 53 <= 2 ^ (d - 1)) by (apply Z.pow_le_mono_r; lia). lia. }
  assert (Hpos : 0 < Z.pos p * 2 ^ (53 - d))
    by (pose proof (pow2_pos (53 - d)); nia).
  exists (Z.to_pos (Z.pos p * 2 ^ (53 - d))), (d - 53).
  split; [reflexivity|]. split; [|split; [lia|]].
  - rewrite (digits2_pos_shift p (53 - d)); [subst d; lia|lia|].
    rewrite Z2Pos.id; [reflexivity|exact Hpos].
  - rewrite Z2Pos.id by exact Hpos. f_equal. f_equal. lia.
Qed.

Lemma normal_form_pos N K E : normal_form N K E -> 0 < N < 2 ^ 53.
Proof.
  intros (HK & HE & HN).
  pose proof (digits2_pos_bounds K) as Hb. rewrite HK in Hb.
  pose proof (pow2_pos (- E)).
  assert (1 <= 2 ^ (- E)) by lia.
  split; [nia|]. change (2 ^ 53) with (2 ^ (53 - 1) * 2) in *. nia.
Qed.

Lemma shl_align_fst K E ez :
  ez <= E -> Z.pos (shl_align K E ez).1 = Z.pos K * 2 ^ (E - ez).
Proof.
  intros Hle. unfold shl_align.
  destruct (ez - E) as [|dd|dd] eqn:Hd; cbn [fst]; try lia.
  - replace (E - ez) with 0 by lia. now rewrite Z.pow_0_r, Z.mul_1_r.
  - rewrite Pos_iter_xO. f_equal. f_equal. lia.
Qed.

(** Rounding [X * 2^e] when it is the integer [N]: the normal form of [N]. *)
Lemma binary_round_integer s X e N K E :
  normal_form N K E -> e <= 0 -> Z.pos X = N * 2 ^ (- e) ->
  binary_round prec emax s X e = S754_finite s K E.
Proof.
  intros HNF He HX. pose proof (normal_form_pos N K E HNF) as HN.
  destruct HNF as (HK & HE & HKN).
  destruct N as [|n|n]; try lia.
  pose proof (digits2_pos_shift n (- E) K ltac:(lia) HKN) as H1.
  pose proof (digits2_pos_shift n (- e) X ltac:(lia) HX) as H2.
  unfold binary_round.
  replace (Z.pos (digits2_pos X) + e) with (53 + E) by lia.
  rewrite fexp_normal by lia. replace (53 + E - 53) with E by lia.
  destruct (Z_le_gt_dec e E) as [Hle|Hgt].
  - assert (Hal : shl_align X e E = (X, e)).
    { unfold shl_align. destruct (E - e) eqn:Hd; try reflexivity. lia. }
    rewrite Hal.
    assert (HXK : Z.pos X = Z.pos K * 2 ^ (E - e)).
    { rewrite HX, HKN, <- Z.mul_assoc, <- Z.pow_add_r by lia.
      f_equal. f_equal. lia. }
    rewrite HXK. replace e with (E - (E - e)) at 2 by lia.
    apply binary_round_aux_exact; [exact HK|lia|lia].
  - assert (Hal : shl_align X e E = (K, E)).
    { unfold shl_align. destruct (E - e) as [|dd|dd] eqn:Hd; try lia.
      f_equal. apply Pos2Z.inj. rewrite Pos_iter_xO, HX, HKN.
      rewrite <- Z.mul_assoc, <- Z.pow_add_r by lia.
      f_equal. f_equal. lia. }
    rewrite Hal.
    pose proof (binary_round_aux_exact s K 0 E HK (Z.le_refl 0)) as H.
    rewrite Z.pow_0_r, Z.mul_1_r, Z.sub_0_r in H. apply H. lia.
Qed.

Lemma binary_normalize_integer X e N :
  0 <= N < 2 ^ 53 -> e <= 0 -> X = N * 2 ^ (- e) ->
  binary_normalize prec emax X e false = SFsafe N.
Proof.
  intros HN He HX. pose proof (pow2_pos (- e) ltac:(lia)).
  destruct (Z.eq_dec N 0) as [->|Hnz].
  - subst X. reflexivity.
  - destruct (SFsafe_normal_form N ltac:(lia)) as (K & E & -> & HNF).
    destruct X as [|x|x]; try nia.
    cbn [binary_normalize]. eapply binary_round_integer; eauto.
Qed.

Lemma SFsafe_valid N :
  0 <= N < 2 ^ 53 -> valid_binary (SFsafe N) = true.
Proof.
  intros HN. destruct (Z.eq_dec N 0) as [->|Hnz]; [reflexivity|].
  destruct (SFsafe_normal_form N ltac:(lia)) as (K & E & -> & HK & HE & _).
  cbn [SpecFloat.valid_binary]. unfold bounded, canonical_mantissa.
  rewrite HK, fexp_normal by lia.
  apply andb_true_iff. split; [apply Z.eqb_eq; lia|].
  apply Z.leb_le. unfold emax, prec. lia.
Qed.

(** The number of an integer below 2^53 holds it exactly. *)
Lemma Prim2SF_Number_of_Z N :
  0 <= N < 2 ^ 53 -> Prim2SF (Number_of_Z N) = SFsafe N.
Proof.
  intros HN. unfold Number_of_Z.
  rewrite (binary_normalize_integer N 0 N HN (Z.le_refl 0))
    by (cbn; lia).
  apply Prim2SF_SF2Prim, SFsafe_valid, HN.
Qed.

Lemma Number_of_Z_intro x N :
  0 <= N < 2 ^ 53 -> Prim2SF x = SFsafe N -> x = Number_of_Z N.
Proof.
  intros HN Hx. apply Prim2SF_inj. now rewrite Prim2SF_Number_of_Z.
Qed.

Lemma Z_of_Number_of_Z N :
  0 <= N < 2 ^ 53 -> Z_of_Number (Number_of_Z N) = N.
Proof.
  intros HN. unfold Z_of_Number. rewrite Prim2SF_Number_of_Z by exact HN.
  destruct (Z.eq_dec N 0) as [->|Hnz]; [reflexivity|].
  destruct (SFsafe_normal_form N ltac:(lia)) as (K & E & -> & HK & HE & HKN).
  rewrite Z.shiftl_div_pow2 by lia. rewrite HKN.
  apply Z.div_mul. pose proof (pow2_pos (- E)). lia.
Qed.

(** **** Arithmetic on the integers below 2^53 *)

(** The product, the sum, the difference and the comparison of numbers that
    hold integers are those of the integers, below 2^53. *)
Lemma Number_mul a b :
  0 <= a < 2 ^ 53 -> 0 <= b < 2 ^ 53 -> a * b < 2 ^ 53 ->
  (Number_of_Z a * Number_of_Z b)%float = Number_of_Z (a * b).
Proof.
  intros Ha Hb Hab.
  apply Number_of_Z_intro; [nia|]. rewrite FloatAxioms.mul_spec.
  rewrite !Prim2SF_Number_of_Z by lia.
  destruct (Z.eq_dec a 0) as [->|Hza].
  { destruct (Z.eq_dec b 0) as [->|Hzb]; [reflexivity|].
    destruct (SFsafe_normal_form b ltac:(lia)) as (K & E & -> & _).
    reflexivity. }
  destruct (Z.eq_dec b 0) as [->|Hzb].
  { rewrite Z.mul_0_r.
    destruct (SFsafe_normal_form a ltac:(lia)) as (K & E & -> & _).
    reflexivity. }
  destruct (SFsafe_normal_form a ltac:(lia)) as (Ka & Ea & -> & HKa & HEa & HNa).
  destruct (SFsafe_normal_form b ltac:(lia)) as (Kb & Eb & -> & HKb & HEb & HNb).
  destruct (SFsafe_normal_form (a * b) ltac:(nia)) as (K & E & -> & HK & HE & HN).
  unfold SF64mul, SFmul. cbn [xorb].
  pose proof (digits2_pos_bounds Ka) as Ba. rewrite HKa in Ba.
  pose proof (digits2_pos_bounds Kb) as Bb. rewrite HKb in Bb.
  pose proof (digits2_pos_bounds K) as B. rewrite HK in B.
  assert (Hprod : Z.pos (Ka * Kb) = a * b * 2 ^ (- Ea - Eb)).
  { rewrite Pos2Z.inj_mul, HNa, HNb.
    replace (- Ea - Eb) with (- Ea + - Eb) by lia.
    rewrite Z.pow_add_r by lia. ring. }
  assert (Hn : Ea + Eb <= E).
  { destruct (Z_le_gt_dec (Ea + Eb) E) as [|Hgt]; [assumption|exfalso].
    assert (HKK : Z.pos K = Z.pos (Ka * Kb) * 2 ^ (Ea + Eb - E)).
    { rewrite Hprod, HN.
      replace (- E) with (- Ea - Eb + (Ea + Eb - E)) by lia.
      apply pow2_split; lia. }
    pose proof (pow2_pos (Ea + Eb - E) ltac:(lia)).
    rewrite Pos2Z.inj_mul in HKK.
    change (2 ^ (53 - 1)) with 4503599627370496 in *.
    change (2 ^ 53) with 9007199254740992 in *. nia. }
  assert (HKn : Z.pos (Ka * Kb) = Z.pos K * 2 ^ (E - (Ea + Eb))).
  { rewrite Hprod, HN.
    replace (- Ea - Eb) with (- E + (E - (Ea + Eb))) by lia.
    apply pow2_split; lia. }
  rewrite HKn. replace (Ea + Eb) with (E - (E - (Ea + Eb))) at 2 by lia.
  apply binary_round_aux_exact; [exact HK|lia|lia].
Qed.

Lemma aligned_sum a b Ka Ea Kb Eb :
  normal_form a Ka Ea -> normal_form b Kb Eb ->
  Z.pos (shl_align Ka Ea (Z.min Ea Eb)).1 = a * 2 ^ (- Z.min Ea Eb)
  /\ Z.pos (shl_align Kb Eb (Z.min Ea Eb)).1 = b * 2 ^ (- Z.min Ea Eb).
Proof.
  intros (_ & HEa & HNa) (_ & HEb & HNb).
  rewrite !shl_align_fst by lia. rewrite HNa, HNb. split.
  - replace (- Z.min Ea Eb) with (- Ea + (Ea - Z.min Ea Eb)) by lia.
    symmetry. apply pow2_split; lia.
  - replace (- Z.min Ea Eb) with (- Eb + (Eb - Z.min Ea Eb)) by lia.
    symmetry. apply pow2_split; lia.
Qed.

Lemma Number_add a b :
  0 <= a -> 0 <= b -> a + b < 2 ^ 53 ->
  (Number_of_Z a + Number_of_Z b)%float = Number_of_Z (a + b).
Proof.
  intros Ha Hb Hab.
  apply Number_of_Z_intro; [lia|]. rewrite FloatAxioms.add_spec.
  rewrite !Prim2SF_Number_of_Z by lia.
  destruct (Z.eq_dec a 0) as [->|Hza].
  { destruct (Z.eq_dec b 0) as [->|Hzb]; [reflexivity|].
    destruct (SFsafe_normal_form b ltac:(lia)) as (K & E & Hs & _).
    rewrite Z.add_0_l, Hs. reflexivity. }
  destruct (Z.eq_dec b 0) as [->|Hzb].
  { rewrite Z.add_0_r.
    destruct (SFsafe_normal_form a ltac:(lia)) as (K & E & -> & _).
    reflexivity. }
  destruct (SFsafe_normal_form a ltac:(lia)) as (Ka & Ea & -> & HNa).
  destruct (SFsafe_normal_form b ltac:(lia)) as (Kb & Eb & -> & HNb).
  unfold SF64add, SFadd. cbn [cond_Zopp].
  destruct (aligned_sum a b Ka Ea Kb Eb HNa HNb) as [-> ->].
  destruct HNa as (_ & HEa & _), HNb as (_ & HEb & _).
  apply binary_normalize_integer; [lia|lia|ring].
Qed.

Lemma Number_sub a b :
  0 <= b <= a -> a < 2 ^ 53 ->
  (Number_of_Z a - Number_of_Z b)%float = Number_of_Z (a - b).
Proof.
  intros Hb Ha.
  apply Number_of_Z_intro; [lia|]. rewrite FloatAxioms.sub_spec.
  rewrite !Prim2SF_Number_of_Z by lia.
  destruct (Z.eq_dec b 0) as [->|Hzb].
  { rewrite Z.sub_0_r. destruct (Z.eq_dec a 0) as [->|Hza]; [reflexivity|].
    destruct (SFsafe_normal_form a ltac:(lia)) as (K & E & -> & _).
    reflexivity. }
  destruct (SFsafe_normal_form a ltac:(lia)) as (Ka & Ea & -> & HNa).
  destruct (SFsafe_normal_form b ltac:(lia)) as (Kb & Eb & -> & HNb).
  unfold SF64sub, SFsub. cbn [cond_Zopp].
  destruct (aligned_sum a b Ka Ea Kb Eb HNa HNb) as [-> ->].
  destruct HNa as (_ & HEa & _), HNb as (_ & HEb & _).
  apply binary_normalize_integer; [lia|lia|ring].
Qed.

Lemma normal_form_scaled N K E :
  normal_form N K E -> N * 2 ^ 52 = Z.pos K * 2 ^ (52 + E).
Proof.
  intros (_ & HE & HN). rewrite HN.
  replace 52 with (- E + (52 + E)) at 1 by lia. apply pow2_split; lia.
Qed.

Lemma Number_ltb a b :
  0 <= a < 2 ^ 53 -> 0 <= b < 2 ^ 53 ->
  (Number_of_Z a <? Number_of_Z b)%float = (a <? b).
Proof.
  intros Ha Hb. rewrite FloatAxioms.ltb_spec, !Prim2SF_Number_of_Z by lia.
  destruct (Z.eq_dec a 0) as [->|Hza].
  { destruct (Z.eq_dec b 0) as [->|Hzb]; [reflexivity|].
    destruct (SFsafe_normal_form b ltac:(lia)) as (K & E & -> & _).
    symmetry. apply Z.ltb_lt. lia. }
  destruct (SFsafe_normal_form a ltac:(lia)) as (Ka & Ea & -> & HNa).
  destruct (Z.eq_dec b 0) as [->|Hzb].
  { symmetry. apply Z.ltb_ge. lia. }
  destruct (SFsafe_normal_form b ltac:(lia)) as (Kb & Eb & -> & HNb).
  pose proof (normal_form_scaled a Ka Ea HNa) as Sa.
  pose proof (normal_form_scaled b Kb Eb HNb) as Sb.
  destruct HNa as (HKa & HEa & _), HNb as (HKb & HEb & _).
  pose proof (digits2_pos_bounds Ka) as Ba. rewrite HKa in Ba.
  pose proof (digits2_pos_bounds Kb) as Bb. rewrite HKb in Bb.
  change (2 ^ (53 - 1)) with 4503599627370496 in *.
  change (2 ^ 53) with 9007199254740992 in *.
  change (2 ^ 52) with 4503599627370496 in *.
  unfold SFltb, SFcompare.
  destruct (Z.compare_spec Ea Eb) as [->|Hlt|Hgt].
  - rewrite Pos.compare_cont_spec. cbn [Pos.switch_Eq].
    pose proof (pow2_pos (52 + Eb) ltac:(lia)).
    destruct (Pos.compare_spec Ka Kb) as [->|Hc|Hc]; symmetry.
    + apply Z.ltb_ge. lia.
    + apply Z.ltb_lt. apply Pos2Z.pos_lt_pos in Hc. nia.
    + apply Z.ltb_ge. apply Pos2Z.pos_lt_pos in Hc. nia.
  - symmetry. apply Z.ltb_lt.
    pose proof (pow2_pos (52 + Ea) ltac:(lia)).
    assert (Hp : 2 ^ (52 + Eb) = 2 ^ (52 + Ea) * 2 ^ (Eb - Ea)).
    { rewrite <- Z.pow_add_r by lia. f_equal. lia. }
    assert (2 <= 2 ^ (Eb - Ea)).
    { change 2 with (2 ^ 1) at 1. apply Z.pow_le_mono_r; lia. }
    rewrite Hp in Sb. nia.
  - symmetry. apply Z.ltb_ge.
    pose proof (pow2_pos (52 + Eb) ltac:(lia)).
    assert (Hp : 2 ^ (52 + Ea) = 2 ^ (52 + Eb) * 2 ^ (Ea - Eb)).
    { rewrite <- Z.pow_add_r by lia. f_equal. lia. }
    assert (2 <= 2 ^ (Ea - Eb)).
    { change 2 with (2 ^ 1) at 1. apply Z.pow_le_mono_r; lia. }
    rewrite Hp in Sa. nia.
Qed.

(** **** The division by 1.05 and [Math.round] *)

(** The value [M * 2^(j - k)] as a fraction. *)
Lemma Q_scaled M j k :
  0 <= j -> 0 <= k ->
  (inject_Z M * Qpower 2 (j - k) == (M * 2 ^ j) # Z.to_pos (2 ^ k))%Q.
Proof.
  intros Hj Hk.
  change 2%Q with (inject_Z 2).
  rewrite Qpower_minus by discriminate.
  rewrite <- !Zpower_Qpower by assumption.
  pose proof (pow2_pos k Hk) as Hp.
  destruct (2 ^ k) as [|p|p] eqn:Hpk; try lia.
  unfold Qeq, Qdiv, Qmult, Qinv, inject_Z. cbn [Qnum Qden Z.to_pos].
  lia.
Qed.

Lemma Math_round_comp x y : (x == y)%Q -> Math_round x = Math_round y.
Proof. intros H. unfold Math_round. now rewrite H. Qed.

Lemma Math_round_scaled W D N :
  (2 * N - 1) * Z.pos D <= 2 * W < (2 * N + 1) * Z.pos D ->
  Math_round (W # D) = N.
Proof.
  intros H. unfold Math_round, Qplus, Qfloor. cbn [Qnum Qden].
  symmetry. apply Z.div_unique with (W * 10 + 5 * Z.pos D - Z.pos (D * 10) * N);
    rewrite ?Pos2Z.inj_mul; lia.
Qed.

(** The arithmetic of the rounding.  [N] is the integer nearest to
    [S / 1.05], which is at least 1/42 away from the next half-integer; [q]
    is the quotient of [S * D * 2^52] by the mantissa of 1.05, with [D] the
    power of two that makes [S * D] a number of 54 bits; [W] is within a few
    units of [q], as the rounded quotient is.  Then [W / D] rounds to [N]:
    with [D >= 128] the error of the division and that of the literal are
    too small to cross a half-integer. *)
Lemma round_div_105_bound S N D q W :
  42 * N + 1 <= 40 * S + 21 <= 42 * N + 41 ->
  128 <= D -> 2 ^ 53 <= S * D < 2 ^ 54 ->
  Z.pos mantissa_105 * q <= S * D * 2 ^ 52
  < Z.pos mantissa_105 * q + Z.pos mantissa_105 ->
  q - 1 <= W <= q + 2 ->
  (2 * N - 1) * D <= 2 * W < (2 * N + 1) * D.
Proof.
  intros HN HD HSD Hq HW.
  assert (H1 : 42 * (N * D) + D <= 40 * (S * D) + 21 * D) by nia.
  assert (H2 : 40 * (S * D) + 21 * D <= 42 * (N * D) + 41 * D) by nia.
  replace ((2 * N - 1) * D) with (2 * (N * D) - D) by ring.
  replace ((2 * N + 1) * D) with (2 * (N * D) + D) by ring.
  unfold mantissa_105 in Hq.
  change (2 ^ 52) with 4503599627370496 in Hq.
  change (2 ^ 53) with 9007199254740992 in HSD.
  change (2 ^ 54) with 18014398509481984 in HSD.
  generalize dependent (N * D). generalize dependent (S * D).
  intros SD HSD Hq ND H1 H2. lia.
Qed.

(** The division of a mantissa of 53 bits by that of 1.05: the dividend is
    shifted by 53 bits, and the quotient has 53 or 54 bits. *)
Lemma SFdiv_core_105 K E :
  Z.pos (digits2_pos K) = 53 -> -52 <= E <= 0 ->
  SFdiv_core_binary prec emax (Z.pos K) E (Z.pos mantissa_105) (-52)
  = (Z.pos K * 2 ^ 53 / Z.pos mantissa_105, E - 1,
     new_location (Z.pos mantissa_105)
       (Z.pos K * 2 ^ 53 mod Z.pos mantissa_105)).
Proof.
  intros HK HE. unfold SFdiv_core_binary. cbn [Zdigits2]. rewrite HK.
  change (Z.pos (digits2_pos mantissa_105)) with 53.
  replace (53 + E - (53 + -52)) with (E + 52) by lia.
  rewrite fexp_normal by lia.
  replace (E - -52) with (E + 52) by lia.
  rewrite Z.min_l by lia.
  replace (E + 52 - (E + 52 - 53)) with 53 by lia.
  rewrite Z.shiftl_mul_pow2 by lia.
  unfold Z.div, Z.modulo.
  destruct (Z.div_eucl (Z.pos K * 2 ^ 53) (Z.pos mantissa_105)) as [q r].
  f_equal. f_equal. lia.
Qed.

Lemma Math_round_Number_finite x M E :
  Prim2SF x = S754_finite false M E ->
  Math_round_Number x
  = Number_of_Z (Math_round (inject_Z (Z.pos M) * Qpower 2 E)%Q).
Proof. intros H. unfold Math_round_Number, Q_of_Number. now rewrite H. Qed.

(** [Math.round(S / 1.05)] on numbers is the exact rounding, for every
    integer [S] from 0 to 2^47. *)
Lemma Number_round_div_105 S :
  0 <= S < 2 ^ 47 ->
  Math_round_Number (Number_of_Z S / 0x1.0cccccccccccdp+0)%float
  = Number_of_Z ((40 * S + 21) / 42).
Proof.
  intros HS.
  assert (H53 : 2 ^ 47 < 2 ^ 53) by (apply Z.pow_lt_mono_r; lia).
  pose proof (FloatAxioms.div_spec (Number_of_Z S) 0x1.0cccccccccccdp+0%float)
    as Hdiv.
  rewrite Prim2SF_Number_of_Z in Hdiv by lia.
  change (Prim2SF 0x1.0cccccccccccdp+0%float)
    with (S754_finite false mantissa_105 (-52)) in Hdiv.
  destruct (Z.eq_dec S 0) as [->|Hnz].
  { unfold Math_round_Number, Q_of_Number. rewrite Hdiv. reflexivity. }
  destruct (SFsafe_normal_form S ltac:(lia)) as (K & E & HSF & HNF).
  rewrite HSF in Hdiv. unfold SF64div, SFdiv in Hdiv.
  destruct HNF as (HK & HE & HKS).
  rewrite (SFdiv_core_105 K E HK HE) in Hdiv. cbn [xorb] in Hdiv.
  pose proof (digits2_pos_bounds K) as BK. rewrite HK in BK.
  set (q := Z.pos K * 2 ^ 53 / Z.pos mantissa_105) in *.
  set (r := Z.pos K * 2 ^ 53 mod Z.pos mantissa_105) in *.
  assert (Hqr : Z.pos K * 2 ^ 53 = Z.pos mantissa_105 * q + r
                /\ 0 <= r < Z.pos mantissa_105).
  { split; [apply Z.div_mod; lia|apply Z.mod_pos_bound; lia]. }
  clearbody q r.
  change (2 ^ (53 - 1)) with 4503599627370496 in BK.
  change (2 ^ 53) with 9007199254740992 in *.
  assert (Hq : 2 ^ 52 <= q < 2 ^ 54).
  { change (2 ^ 52) with 4503599627370496.
    change (2 ^ 54) with 18014398509481984.
    unfold mantissa_105 in Hqr. lia. }
  (* the exponent: S < 2^47 *)
  assert (HE6 : E <= -6).
  { destruct (Z_le_gt_dec E (-6)) as [|Hgt]; [assumption|exfalso].
    assert (2 ^ (- E) <= 2 ^ 5) by (apply Z.pow_le_mono_r; lia).
    change (2 ^ 5) with 32 in *. change (2 ^ 47) with 140737488355328 in *.
    nia. }
  set (D := 2 ^ (1 - E)).
  assert (HD : 128 <= D).
  { change 128 with (2 ^ 7). apply Z.pow_le_mono_r; lia. }
  assert (HSD : S * D = 2 * Z.pos K).
  { subst D. replace (1 - E) with (- E + 1) by lia.
    rewrite pow2_split, <- HKS by lia. change (2 ^ 1) with 2. lia. }
  assert (Hround : exists M E' n,
            Prim2SF (Number_of_Z S / 0x1.0cccccccccccdp+0)%float
            = S754_finite false M E'
            /\ 0 <= n /\ E - 1 + n <= E' <= E - 1 + n + 1
            /\ q - 1 <= Z.pos M * 2 ^ (E' - (E - 1 + n)) * 2 ^ n <= q + 2).
  { destruct (Z_lt_le_dec q (2 ^ 53)) as [Hlt|Hge].
    - destruct (binary_round_aux_inexact false q 0 (E - 1)
                  (new_location (Z.pos mantissa_105) r))
        as (M & E' & HM & HE' & HW); [rewrite !Z.add_0_r; lia|lia|lia|].
      rewrite HM in Hdiv. exists M, E', 0. split; [exact Hdiv|].
      split; [lia|]. split; [lia|].
      rewrite Z.pow_0_r, Z.div_1_r in HW. rewrite Z.pow_0_r, Z.mul_1_r. lia.
    - destruct (binary_round_aux_inexact false q 1 (E - 1)
                  (new_location (Z.pos mantissa_105) r))
        as (M & E' & HM & HE' & HW);
        [split; [exact Hge|apply Hq]|lia|lia|].
      rewrite HM in Hdiv. exists M, E', 1. split; [exact Hdiv|].
      split; [lia|]. split; [lia|].
      change (2 ^ 1) with 2 in *.
      pose proof (Z.div_mod q 2 ltac:(lia)) as Hq2.
      pose proof (Z.mod_pos_bound q 2 ltac:(lia)). lia. }
  destruct Hround as (M & E' & n & HM & Hn & HE' & HW).
  rewrite (Math_round_Number_finite _ M E' HM). f_equal.
  replace E' with (E' - (E - 1) - (1 - E)) at 1 by lia.
  rewrite (Math_round_comp _ _ (Q_scaled (Z.pos M) (E' - (E - 1)) (1 - E)
                                   ltac:(lia) ltac:(lia))).
  apply Math_round_scaled.
  rewrite Z2Pos.id by (apply pow2_pos; lia). fold D.
  apply (round_div_105_bound S _ D q).
  - pose proof (Z.div_mod (40 * S + 21) 42 ltac:(lia)).
    pose proof (Z.mod_pos_bound (40 * S + 21) 42 ltac:(lia)). lia.
  - exact HD.
  - rewrite HSD. change (2 ^ 54) with 18014398509481984. lia.
  - rewrite HSD. change (2 ^ 52) with 4503599627370496. lia.
  - replace (E' - (E - 1)) with (E' - (E - 1 + n) + n) by lia.
    rewrite pow2_split by lia. exact HW.
Qed.

(** **** The pricing, in the range where it is exact *)

Lemma Math_round_div_105 S :
  Math_round (inject_Z S / 1.05)%Q = (40 * S + 21) / 42.
Proof.
  unfold Math_round.
  assert (H : (inject_Z S / 1.05 + 0.5 == (40 * S + 21) # 42)%Q).
  { unfold Qeq, Qdiv, Qmult, Qinv, Qplus, inject_Z. cbn [Qnum Qden].
    change (Z.pos (1 * 105)) with 105. change (Z.pos (1 * 105 * 10)) with 1050.
    lia. }
  rewrite H. reflexivity.
Qed.

Lemma Math_round_div_105_nearest S :
  -10 <= 21 * Math_round (inject_Z S / 1.05)%Q - 20 * S <= 10.
Proof. rewrite Math_round_div_105. Z.div_mod_to_equations. lia. Qed.

Lemma Number_literals :
  0%float = Number_of_Z 0 /\ 99%float = Number_of_Z 99
  /\ 5000%float = Number_of_Z 5000.
Proof. repeat split; vm_compute; reflexivity. Qed.

Lemma exact_subtotal_cons line lines :
  exact_subtotal (line :: lines)
  = op_price line * op_quantity line + exact_subtotal lines.
Proof. reflexivity. Qed.

Lemma exact_subtotal_nonneg lines :
  safe_lines lines -> 0 <= exact_subtotal lines.
Proof.
  induction 1 as [|line lines [Hp Hq] _ IH]; [reflexivity|].
  rewrite exact_subtotal_cons. nia.
Qed.

(** On lines of non-negative integers whose exact subtotal is below 2^53,
    the loop makes no rounding error. *)
Lemma lines_subtotal_from_exact lines s :
  safe_lines lines -> 0 <= s -> s + exact_subtotal lines < 2 ^ 53 ->
  fold_left
    (fun subtotal line =>
       (subtotal + Number_of_Z (op_price line) * Number_of_Z (op_quantity line))
       %float)
    lines (Number_of_Z s)
  = Number_of_Z (s + exact_subtotal lines).
Proof.
  intros Hsafe. revert s.
  induction Hsafe as [|line lines [Hp Hq] Hsafe IH]; intros s Hs Hlt.
  - cbn [fold_left]. f_equal. unfold exact_subtotal, sumZ. cbn. lia.
  - pose proof (exact_subtotal_nonneg lines Hsafe) as Hrest.
    rewrite exact_subtotal_cons in Hlt |- *. cbn [fold_left].
    assert (Hpq : 0 <= op_price line * op_quantity line) by nia.
    rewrite Number_mul, Number_add by lia.
    rewrite IH by lia. f_equal. lia.
Qed.

Lemma lines_subtotal_exact lines :
  safe_lines lines -> exact_subtotal lines < 2 ^ 53 ->
  lines_subtotal lines = Number_of_Z (exact_subtotal lines).
Proof.
  intros Hsafe Hlt. unfold lines_subtotal.
  rewrite (proj1 Number_literals).
  now rewrite lines_subtotal_from_exact by (auto; lia).
Qed.

(** The breakdown of a subtotal [S] below 2^47, computed on numbers, is the
    exact one. *)
Lemma pricing_exact S :
  0 <= S < 2 ^ 47 ->
  pricing (Number_of_Z S)
  = {| pr_shipping := if 5000 <? S then 0 else 99;
       pr_baseSubtotal := Math_round (inject_Z S / 1.05)%Q;
       pr_tax := S - Math_round (inject_Z S / 1.05)%Q;
       pr_discount := 0;
       pr_totalAmount := S + (if 5000 <? S then 0 else 99) |}.
Proof.
  intros HS.
  assert (H53 : 2 ^ 47 + 99 < 2 ^ 53) by reflexivity.
  pose proof (Z.div_mod (40 * S + 21) 42 ltac:(lia)) as Hdiv.
  pose proof (Z.mod_pos_bound (40 * S + 21) 42 ltac:(lia)) as Hmod.
  destruct Number_literals as (H0 & H99 & H5000).
  unfold pricing.
  rewrite Number_round_div_105, Math_round_div_105 by exact HS.
  rewrite H5000, Number_ltb by (cbn; lia).
  rewrite Number_sub by lia.
  assert (Hship : (Number_of_Z S
                   + (if (5000 <? S)%Z then 0%float else 99%float))%float
                  = Number_of_Z (S + (if 5000 <? S then 0 else 99))).
  { destruct (5000 <? S); [rewrite H0|rewrite H99];
      apply Number_add; lia. }
  rewrite Hship, !Z_of_Number_of_Z by (destruct (5000 <? S); lia).
  f_equal. destruct (5000 <? S); reflexivity.
Qed.

Lemma open_session_pricing env user customerDetails shippingAddress S lines :
  triple (fun _ => True)
    (open_session env user customerDetails shippingAddress S lines)
    (fun r d' => forall sid oid amount,
       r = respond 200 (JSession sid oid amount) ->
       redis d' !! PENDING_KEY (new_order_id env)
       = Some (pending_order env user customerDetails shippingAddress lines
                 (pricing S), PENDING_ORDER_TTL)
       /\ amount = pr_totalAmount (pricing S))
    (fun _ => True).
Proof.
  unfold open_session.
  eapply triple_bind with (R := fun _ _ => True);
    [apply triple_await_call; auto|].
  intros cashfreeResponse.
  eapply triple_bind with
    (R := fun _ d' =>
       redis d' !! PENDING_KEY (new_order_id env)
       = Some (pending_order env user customerDetails shippingAddress lines
                 (pricing S), PENDING_ORDER_TTL)).
  - apply triple_await; [auto|]. intros d _. cbn. apply lookup_insert_eq.
  - intros _. destruct cashfreeResponse as [data|];
      [|apply triple_throw; auto].
    apply triple_ret. intros d' Hd sid oid amount [= _ _ <-]. auto.
Qed.

(** C6 (amended).  A session that is opened stores, under the pending key of
    its order id, the cart lines at catalogue prices and the price breakdown
    that [pricing] computes, on binary64 numbers, from the subtotal of the
    lines; the total of the breakdown is the amount answered.  When the
    prices and the quantities are non-negative integers below 2^53 and the
    subtotal S of the lines is below 2^47, the arithmetic is exact: the base
    subtotal is round(S / 1.05), the tax is S minus the base subtotal (so the
    two add up to S), shipping is 0 when S exceeds 5000 and 99 otherwise,
    there is no discount, and the total is S plus shipping.  (The loop that
    adds up the lines is exact up to 2^53, the breakdown of a subtotal up to
    2^47.)  The rounding is to the nearest integer: round(S / 1.05) is the
    floor of (40 S + 21) / 42.
    For one frame at 1050 and two motors at 525 the subtotal is 2100, the
    base subtotal 2000, the tax 100, shipping 99 and the total 2199. *)
Theorem session_pricing_exact :
  (forall env req d sid oid amount,
     (createCheckoutSession env req d).2 = respond 200 (JSession sid oid amount) ->
     exists items dbProducts pending,
       sr_body req ≫= sb_products = Some items
       /\ Forall2 (fun item p => Product_findById (productId item) d = Some p)
            items dbProducts
       /\ pd_products pending = zip_with order_line items dbProducts
       /\ redis (createCheckoutSession env req d).1 !! PENDING_KEY (new_order_id env)
          = Some (pending, PENDING_ORDER_TTL)
       /\ {| pr_shipping := shipping pending;
             pr_baseSubtotal := subtotal pending;
             pr_tax := tax pending;
             pr_discount := discount pending;
             pr_totalAmount := totalAmount pending |}
          = pricing (lines_subtotal (pd_products pending))
       /\ amount = totalAmount pending
       /\ (forall S,
             safe_lines (pd_products pending) ->
             S = exact_subtotal (pd_products pending) -> S < 2 ^ 47 ->
             subtotal pending = Math_round (inject_Z S / 1.05)%Q
             /\ tax pending = S - subtotal pending
             /\ subtotal pending + tax pending = S
             /\ shipping pending = (if 5000 <? S then 0 else 99)
             /\ discount pending = 0
             /\ totalAmount pending = S + shipping pending))
  /\ (forall lines,
        safe_lines lines -> exact_subtotal lines < 2 ^ 53 ->
        lines_subtotal lines = Number_of_Z (exact_subtotal lines))
  /\ (forall S,
        0 <= S < 2 ^ 47 ->
        pricing (Number_of_Z S)
        = {| pr_shipping := if 5000 <? S then 0 else 99;
             pr_baseSubtotal := Math_round (inject_Z S / 1.05)%Q;
             pr_tax := S - Math_round (inject_Z S / 1.05)%Q;
             pr_discount := 0;
             pr_totalAmount := S + (if 5000 <? S then 0 else 99) |})
  /\ (forall S, Math_round (inject_Z S / 1.05)%Q = (40 * S + 21) / 42
               /\ -10 <= 21 * Math_round (inject_Z S / 1.05)%Q - 20 * S <= 10)
  /\ (createCheckoutSession scenario_env scenario_session_request scenario_db
      = (scenario_reserved, respond 200 (JSession "session_1" scenario_order_id 2199))
      /\ redis scenario_reserved !! PENDING_KEY scenario_order_id
         = Some (scenario_pending, PENDING_ORDER_TTL)
      /\ exact_subtotal (pd_products scenario_pending) = 2100
      /\ lines_subtotal (pd_products scenario_pending) = Number_of_Z 2100
      /\ subtotal scenario_pending = 2000 /\ tax scenario_pending = 100
      /\ shipping scenario_pending = 99 /\ totalAmount scenario_pending = 2199).
Proof.
  split; [|split; [exact lines_subtotal_exact|split; [exact pricing_exact|split]]].
  - intros env req d sid oid amount Hr.
    assert (H : triple (eq d) (createCheckoutSession_body env req)
      (fun r d' => forall sid oid amount,
         r = respond 200 (JSession sid oid amount) ->
         exists items dbProducts customerDetails shippingAddress,
           sr_body req ≫= sb_products = Some items
           /\ Forall2 (fun item p => Product_findById (productId item) d = Some p)
                items dbProducts
           /\ redis d' !! PENDING_KEY (new_order_id env)
              = Some (pending_order env (sr_user req) customerDetails
                        shippingAddress (zip_with order_line items dbProducts)
                        (pricing (lines_subtotal
                                    (zip_with order_line items dbProducts))),
                      PENDING_ORDER_TTL)
           /\ amount = pr_totalAmount
                         (pricing (lines_subtotal
                                     (zip_with order_line items dbProducts))))
      (fun _ => True)).
    { unfold createCheckoutSession_body.
      destruct (sr_body req) as [body|]; [|apply triple_throw; auto].
      destruct (sb_customerDetails body) as [customerDetails|] eqn:Hcd;
        [|apply triple_ret; intros; discriminate].
      destruct (sb_shippingAddress body) as [shippingAddress|] eqn:Hsa;
        [|apply triple_ret; intros; discriminate].
      destruct (sb_products body) as [[|item items]|] eqn:Hps;
        try solve [apply triple_ret; intros; discriminate].
      eapply triple_bind;
        [eapply triple_conseq;
         [apply (fetch_products_found env d)|auto|intros a d0 H; exact H|auto]|].
      intros [response|dbProducts]; apply triple_pure; intros Hf.
      { apply triple_ret. intros ? _ ? ? ? E. rewrite E in Hf. discriminate Hf. }
      destruct (negb _); [apply triple_ret; intros; discriminate|].
      destruct (check_stock _ _) as [response|] eqn:Hc.
      { apply triple_ret. intros ? _ ? ? ? ->.
        exfalso. clear -Hc. revert Hc. generalize (item :: items). intros l.
        revert dbProducts. induction l as [|i l IH]; intros [|p ps]; cbn;
          try discriminate.
        destruct (stock p <? quantity i); [discriminate|apply IH]. }
      rewrite price_lines_spec.
      destruct Hf as (found & -> & Hfound). cbn [app] in *.
      eapply triple_conseq;
        [apply open_session_pricing|intros; exact I| |intros; exact I].
      intros r d' H sid' oid' amount' Hr'.
      destruct (H _ _ _ Hr') as [H1 H2].
      exists (item :: items), found, customerDetails, shippingAddress.
      cbn. rewrite Hps. auto. }
    unfold createCheckoutSession in *.
    destruct (handler_triple _ _
                (fun error => respond 500
                   (JMessage false
                      (message_or error "Failed to create checkout session")))
                _ _ d H eq_refl) as [HQ|[_ [e He]]];
      [|rewrite He in Hr; discriminate Hr].
    destruct (HQ _ _ _ Hr)
      as (items & dbProducts & customerDetails & shippingAddress
          & Hi & Hfound & Hredis & ->).
    eexists items, dbProducts, _. split; [exact Hi|]. split; [exact Hfound|].
    split; [|split; [exact Hredis|]]; [reflexivity|].
    cbn [pending_order pd_products subtotal shipping tax discount totalAmount].
    split; [reflexivity|]. split; [reflexivity|].
    intros S Hsafe -> Hlt.
    pose proof (exact_subtotal_nonneg _ Hsafe) as Hnn.
    assert (H47 : 2 ^ 47 < 2 ^ 53) by reflexivity.
    rewrite lines_subtotal_exact, pricing_exact by (auto; lia).
    cbn [pr_shipping pr_baseSubtotal pr_tax pr_discount pr_totalAmount].
    repeat split; lia.
  - intros S. split; [apply Math_round_div_105|apply Math_round_div_105_nearest].
  - repeat split; vm_compute; reflexivity.
Qed.

Lemma session_pricing_exact_witness :
  subtotal scenario_pending = Math_round (inject_Z 2100 / 1.05)%Q
  /\ tax scenario_pending = 2100 - subtotal scenario_pending
  /\ subtotal scenario_pending + tax scenario_pending = 2100
  /\ shipping scenario_pending = (if 5000 <? 2100 then 0 else 99)
  /\ discount scenario_pending = 0
  /\ totalAmount scenario_pending = 2100 + shipping scenario_pending.
Proof.
  destruct (proj1 session_pricing_exact scenario_env scenario_session_request
              scenario_db "session_1" scenario_order_id 2199)
    as (items & dbProducts & pending & _ & _ & _ & Hget & _ & _ & Hexact).
  { vm_compute. reflexivity. }
  vm_compute in Hget. injection Hget as <-.
  apply (Hexact 2100).
  - repeat constructor; vm_compute; congruence.
  - vm_compute. reflexivity.
  - reflexivity.
Defined.

(** C6, as stated, fails beyond the range: for a single airframe priced
    2251799813685251 the session is opened and the base subtotal that is
    stored is 2144571251128811, the binary64 value of
    [Math.round(subtotal / 1.05)], where round(S / 1.05) is
    2144571251128810. *)
Lemma pricing_rounds_in_binary64 :
  exists pending,
    (createCheckoutSession scenario_env airframe_request airframe_db).2
    = respond 200 (JSession "session_1" scenario_order_id 2251799813685251)
    /\ redis (createCheckoutSession scenario_env airframe_request airframe_db).1
         !! PENDING_KEY scenario_order_id
       = Some (pending, PENDING_ORDER_TTL)
    /\ exact_subtotal (pd_products pending) = 2251799813685251
    /\ subtotal pending = 2144571251128811
    /\ Math_round (inject_Z 2251799813685251 / 1.05)%Q = 2144571251128810.
Proof.
  eexists. split; [vm_compute; reflexivity|].
  split; [vm_compute; reflexivity|].
  repeat split; vm_compute; reflexivity.
Qed.

(** *** A gateway that fails *)

(** C7.  When the gateway rejects the session request of the checkout (a
    network error, a non-2xx answer or a timeout), creating a session writes
    nothing: the stores, the pending orders among them, are left exactly as
    they were, and the answer is 500, or 400 when the cart was refused before
    the gateway was called. *)
Theorem gateway_failure_writes_no_reservation env req d :
  (forall rq, order_id rq = new_order_id env ->
              exists e, PGCreateOrder env rq = inl e) ->
  (createCheckoutSession env req d).1 = d
  /\ (status (createCheckoutSession env req d).2 = 400
      \/ status (createCheckoutSession env req d).2 = 500).
Proof.
  intros Hgw.
  assert (H : triple (eq d) (createCheckoutSession_body env req)
                (fun r d0 => d = d0 /\ status r = 400) (eq d)).
  { unfold createCheckoutSession_body.
    destruct (sr_body req) as [body|]; [|apply triple_throw; auto].
    destruct (sb_customerDetails body) as [customerDetails|];
      [|apply triple_ret; intros ? <-; auto].
    destruct (sb_shippingAddress body) as [shippingAddress|];
      [|apply triple_ret; intros ? <-; auto].
    destruct (sb_products body) as [[|item items]|];
      try (apply triple_ret; intros ? <-; auto).
    eapply triple_bind; [apply fetch_products_found|].
    intros [response|dbProducts]; apply triple_pure; intros Hf;
      [apply triple_ret; intros ? <-; auto|].
    destruct (negb _); [apply triple_ret; intros ? <-; auto|].
    destruct (check_stock _ _) as [response|] eqn:Hc.
    - apply triple_ret. intros ? <-. split; [reflexivity|].
      clear -Hc. revert Hc. generalize (item :: items). intros l.
      revert dbProducts. induction l as [|i l IH]; intros [|p ps]; cbn;
        try discriminate.
      destruct (stock p <? quantity i); [intros [= <-]; reflexivity|apply IH].
    - destruct (price_lines _ _ _ _) as [subtotal orderProducts].
      unfold open_session. apply triple_call_bind; [reflexivity|].
      intros a Ha.
      destruct (Hgw (order_request env (sr_user req) customerDetails
                       (pr_totalAmount (pricing subtotal)) orderProducts)
                  eq_refl) as [e He].
      congruence. }
  unfold createCheckoutSession.
  destruct (handler_triple _ _
              (fun error => respond 500
                 (JMessage false (message_or error "Failed to create checkout session")))
              _ _ d H eq_refl) as [[Hd Hs]|[Hd [e He]]].
  - split; [symmetry; exact Hd|left; exact Hs].
  - split; [symmetry; exact Hd|right]. rewrite He. reflexivity.
Qed.

Lemma gateway_failure_writes_no_reservation_witness :
  (createCheckoutSession gateway_down_env scenario_session_request scenario_db).1
  = scenario_db
  /\ (status (createCheckoutSession gateway_down_env scenario_session_request
                scenario_db).2 = 400
      \/ status (createCheckoutSession gateway_down_env scenario_session_request
                   scenario_db).2 = 500).
Proof.
  apply (gateway_failure_writes_no_reservation gateway_down_env
           scenario_session_request scenario_db).
  intros rq _. eexists. reflexivity.
Defined.

(** ** Confirmation: [checkoutSuccess] *)

(** *** The stock loop *)

Lemma decrement_stock_nonneg env newOrder orderId items :
  preserves stock_nonneg (decrement_stock env newOrder orderId items).
Proof.
  induction items as [|item rest IH]; cbn.
  - preserves_body idtac.
  - preserves_body ltac:(first [apply Product_findOneAndUpdate_nonneg; assumption
                               | products_unchanged]).
    apply IH.
Qed.

Lemma decrement_stock_total env newOrder orderId items T :
  triple (fun d => total_stock d = T)
    (decrement_stock env newOrder orderId items)
    (fun r d' =>
       match r with
       | None => total_stock d' = T - total_quantity items
       | Some response => status response = 409
       end)
    (fun _ => True).
Proof.
  revert T. induction items as [|item rest IH]; intros T; cbn.
  - apply triple_ret. intros d Hd. unfold total_quantity, sumZ. cbn. lia.
  - eapply triple_bind with
      (R := fun updated d' =>
              updated <> None -> total_stock d' = T - op_quantity item).
    + apply triple_await; [auto|]. intros d Hd.
      unfold Product_findOneAndUpdate, total_stock in *.
      destruct (findOneAndUpdate_stock _ _ _) as [r ps'] eqn:Hf. cbn.
      destruct r as [p'|]; [|congruence]. intros _.
      rewrite (findOneAndUpdate_stock_total _ _ _ _ _ Hf). lia.
    + intros [p'|].
      * eapply triple_conseq; [apply (IH (T - op_quantity item))| | |auto].
        -- intros d Hd. apply Hd. discriminate.
        -- intros [response|] d Hd; [exact Hd|]. rewrite Hd.
           unfold total_quantity, sumZ. cbn. lia.
      * eapply triple_bind with (R := fun _ _ => True);
          [apply triple_await; intros; [|destruct (Order_findByIdAndDelete _ _) as [? [|]]]; exact I|].
        intros _.
        eapply triple_bind with (R := fun _ _ => True);
          [apply triple_await; intros; [|destruct (redis_del _ _) as [? [|]]]; exact I|].
        intros _. apply triple_ret. intros d _. reflexivity.
Qed.

Lemma decrement_stock_frame env newOrder orderId items OS R :
  triple (fun d => orders d = OS /\ redis d = R)
    (decrement_stock env newOrder orderId items)
    (fun r d' => r = None -> orders d' = OS /\ redis d' = R)
    (fun _ => True).
Proof.
  induction items as [|item rest IH]; cbn.
  - apply triple_ret. auto.
  - eapply triple_bind with (R := fun _ d' => orders d' = OS /\ redis d' = R).
    + apply triple_await; [auto|]. intros d Hd.
      unfold Product_findOneAndUpdate.
      destruct (findOneAndUpdate_stock _ _ _). exact Hd.
    + intros [p'|]; [exact IH|].
      eapply triple_bind with (R := fun _ _ => True);
        [apply triple_await; intros; [|destruct (Order_findByIdAndDelete _ _) as [? [|]]]; exact I|].
      intros _.
      eapply triple_bind with (R := fun _ _ => True);
        [apply triple_await; intros; [|destruct (redis_del _ _) as [? [|]]]; exact I|].
      intros _. apply triple_ret. intros d _. discriminate.
Qed.

Lemma decrement_stock_spec env newOrder orderId items T OS R :
  triple (fun d => total_stock d = T /\ (orders d = OS /\ redis d = R))
    (decrement_stock env newOrder orderId items)
    (fun r d' =>
       match r with
       | None => total_stock d' = T - total_quantity items
                 /\ orders d' = OS /\ redis d' = R
       | Some response => status response = 409
       end)
    (fun _ => True).
Proof.
  eapply triple_conseq;
    [apply triple_conj;
     [apply (decrement_stock_total env newOrder orderId items T)
     |apply (decrement_stock_frame env newOrder orderId items OS R)]
    |auto| |intros; exact I].
  intros [response|] d [H1 H2]; [exact H1|]. split; [exact H1|auto].
Qed.

Lemma decrement_stock_decremented env ps0 newOrder orderId items :
  preserves (decremented_from ps0) (decrement_stock env newOrder orderId items).
Proof.
  induction items as [|item rest IH]; cbn.
  - preserves_body idtac.
  - preserves_body ltac:(first [apply decremented_from_step; assumption
                               | products_unchanged]).
    apply IH.
Qed.

Lemma decrement_stock_unique env newOrder orderId items :
  preserves unique_orders (decrement_stock env newOrder orderId items).
Proof.
  induction items as [|item rest IH]; cbn.
  - preserves_body idtac.
  - preserves_body ltac:(first [apply Order_findByIdAndDelete_unique; assumption
                               | orders_unchanged]).
    apply IH.
Qed.

(** *** From [Order.create] on *)

Lemma sumZ_ordered_quantities items :
  sumZ (map ol_quantity
          (map (fun p => {| ol_product := op_productId p;
                            ol_quantity := op_quantity p;
                            ol_price := op_price p |}) items))
  = total_quantity items.
Proof. unfold total_quantity. now rewrite List.map_map. Qed.

Lemma materialize_nonneg env orderId latestPayment orderData :
  preserves stock_nonneg (materialize env orderId latestPayment orderData).
Proof.
  unfold materialize. preserves_body products_unchanged.
  apply decrement_stock_nonneg.
Qed.

Lemma materialize_total env orderId latestPayment orderData T :
  triple (fun d => total_stock d = T)
    (materialize env orderId latestPayment orderData)
    (fun r d' => forall o, r = order_created o ->
       T - total_stock d' = sumZ (map ol_quantity (o_products o)))
    (fun _ => True).
Proof.
  unfold materialize.
  eapply triple_bind with
    (R := fun newOrder d' =>
       o_products newOrder
         = map (fun p => {| ol_product := op_productId p;
                            ol_quantity := op_quantity p;
                            ol_price := op_price p |}) (pd_products orderData)
       /\ total_stock d' = T).
  - apply triple_await; [auto|]. intros d Hd. unfold Order_create.
    destruct (has_order_id _ _ || _); cbn; auto.
  - intros newOrder. apply triple_pure. intros Hlines.
    eapply triple_bind; [apply decrement_stock_total|].
    intros [response|].
    + apply triple_ret. intros d Hd o ->. discriminate Hd.
    + repeat frame_step ltac:(cbn; assumption).
      match goal with H : _ = order_created _ |- _ => inversion H; subst end.
      rewrite Hlines, sumZ_ordered_quantities. lia.
Qed.

Lemma materialize_spec env orderId latestPayment orderData d :
  triple (eq d) (materialize env orderId latestPayment orderData)
    (fun r d' => forall o, r = order_created o ->
       o = order_document env orderId latestPayment orderData
       /\ orders d' = orders d ++ [o]
       /\ redis d' = delete (PENDING_KEY orderId) (redis d)
       /\ total_stock d - total_stock d' = total_quantity (pd_products orderData))
    (fun _ => True).
Proof.
  unfold materialize.
  set (doc := order_document env orderId latestPayment orderData).
  eapply triple_bind with
    (R := fun newOrder d' =>
       newOrder = doc
       /\ (total_stock d' = total_stock d
           /\ (orders d' = orders d ++ [doc] /\ redis d' = redis d))).
  - apply triple_await; [auto|]. intros d0 <-. unfold Order_create.
    destruct (has_order_id _ _ || _); cbn; auto.
  - intros newOrder. apply triple_pure. intros ->.
    eapply triple_bind; [apply decrement_stock_spec|].
    intros [response|].
    + apply triple_ret. intros d' Hd o ->. discriminate Hd.
    + eapply triple_conseq with
        (P' := fun d' =>
           total_stock d' = total_stock d - total_quantity (pd_products orderData)
           /\ orders d' = orders d ++ [doc] /\ redis d' = redis d)
        (Q' := fun r d' => forall o, r = order_created o ->
           o = doc /\ orders d' = orders d ++ [o]
           /\ redis d' = delete (PENDING_KEY orderId) (redis d)
           /\ total_stock d - total_stock d' = total_quantity (pd_products orderData))
        (E' := fun _ => True); [|auto|auto|auto].
      do 2 frame_step idtac.
      eapply triple_bind with
        (R := fun _ d' =>
           total_stock d' = total_stock d - total_quantity (pd_products orderData)
           /\ orders d' = orders d ++ [doc]
           /\ redis d' = delete (PENDING_KEY orderId) (redis d)).
      * apply triple_await; [auto|]. intros d' (H1 & H2 & H3). cbn.
        rewrite H3. auto.
      * intros _. apply triple_ret. intros d' (H1 & H2 & H3) o [= <-].
        repeat split; auto. lia.
Qed.

Lemma materialize_unique env orderId latestPayment orderData :
  preserves unique_orders (materialize env orderId latestPayment orderData).
Proof.
  unfold materialize.
  preserves_body ltac:(first [apply Order_create_unique; assumption
                             | orders_unchanged]).
  apply decrement_stock_unique.
Qed.

Lemma materialize_duplicate env orderId latestPayment orderData w :
  has_cashfreeOrderId orderId (orders (db w)) = true ->
  exists e,
    materialize env orderId latestPayment orderData w = (next (db w) w, inl e).
Proof.
  intros H. unfold materialize, mbind, M_bind, await.
  destruct (io_rejects env (tick w)); [eauto|].
  unfold Order_create. cbn [cashfreeOrderId order_document].
  rewrite H, orb_true_r. eauto.
Qed.

(** *** The handler *)

(** Up to the ownership check the handler only reads: on stores [d] it either
    answers early, on unchanged stores, or reaches [materialize] for the
    pending order stored under the key, with no order there yet and the
    owner, if any, confirming. *)
Lemma checkoutSuccess_reads env req d (Q : Response -> Db -> Prop)
    (E : Db -> Prop) :
  E d ->
  (forall r, (forall o, r <> order_created o) -> Q r d) ->
  (forall orderId latestPayment rest orderData,
     cr_body req = Some (Some orderId) ->
     PGOrderFetchPayments env orderId = inr (Some (latestPayment :: rest)) ->
     payment_status latestPayment = "SUCCESS" ->
     Order_findOne orderId d = None ->
     fst <$> redis d !! PENDING_KEY orderId = Some orderData ->
     truthy (userId orderData)
     && negb (bool_decide (cr_user req = userId orderData)) = false ->
     triple (eq d) (materialize env orderId latestPayment orderData) Q E) ->
  triple (eq d) (checkoutSuccess_body env req) Q E.
Proof.
  intros HE Hearly Hmat. unfold checkoutSuccess_body.
  destruct (cr_body req) as [[orderId|]|] eqn:Hbody;
    try (apply triple_throw; intros ? <-; assumption);
    try (apply triple_ret; intros ? <-; apply Hearly; discriminate).
  change (default "" (Some orderId)) with orderId.
  destruct (negb (truthy (Some orderId)));
    [apply triple_ret; intros ? <-; apply Hearly; discriminate|].
  apply triple_call_bind; [exact HE|]. intros [[|latestPayment rest]|] Hpay;
    try (apply triple_throw; intros ? <-; assumption);
    try (apply triple_ret; intros ? <-; apply Hearly; discriminate).
  destruct (String.eqb (payment_status latestPayment) "SUCCESS") eqn:Hs; cbn [negb];
    [|apply triple_ret; intros ? <-; apply Hearly; discriminate].
  apply String.eqb_eq in Hs.
  apply triple_read_bind; [exact HE|].
  destruct (Order_findOne orderId d) as [existing|] eqn:Hfind;
    [apply triple_ret; intros ? <-; apply Hearly; discriminate|].
  apply triple_get_bind; [exact HE|].
  destruct (fst <$> redis d !! PENDING_KEY orderId) as [orderData|] eqn:Hget;
    [|apply triple_ret; intros ? <-; apply Hearly; discriminate].
  destruct (truthy (userId orderData)
            && negb (bool_decide (cr_user req = userId orderData))) eqn:Hown;
    [apply triple_ret; intros ? <-; apply Hearly; discriminate|].
  eapply Hmat; eauto.
Qed.

Lemma checkoutSuccess_existing env req d orderId existing :
  cr_body req = Some (Some orderId) -> Order_findOne orderId d = Some existing ->
  triple (eq d) (checkoutSuccess_body env req)
    (fun r d0 => d = d0 /\ forall o, r <> order_created o) (eq d).
Proof.
  intros Hbody Hfind. apply checkoutSuccess_reads; [reflexivity|auto|].
  intros orderId' latestPayment rest orderData Hb _ _ Hnone _ _.
  rewrite Hbody in Hb. injection Hb as <-. congruence.
Qed.

Lemma checkoutSuccess_nonneg env req d :
  stock_nonneg d -> stock_nonneg (checkoutSuccess env req d).1.
Proof.
  apply preserves_handler. unfold checkoutSuccess_body.
  preserves_body products_unchanged. apply materialize_nonneg.
Qed.

Lemma checkoutSuccess_total env req d o :
  (checkoutSuccess env req d).2 = order_created o ->
  total_stock d - total_stock (checkoutSuccess env req d).1
  = sumZ (map ol_quantity (o_products o)).
Proof.
  intros Hr. unfold checkoutSuccess in *.
  destruct (handler_triple (fun d0 => total_stock d0 = total_stock d)
              (checkoutSuccess_body env req)
              (fun error => respond 500
                 (JMessage false (message_or error "Failed to verify payment")))
              (fun r d' => forall o, r = order_created o ->
                 total_stock d - total_stock d'
                 = sumZ (map ol_quantity (o_products o)))
              (fun _ => True) d) as [H|[_ [e He]]].
  - unfold checkoutSuccess_body.
    repeat frame_step ltac:(cbn; assumption); try not_created.
    apply materialize_total.
  - reflexivity.
  - apply H, Hr.
  - rewrite He in Hr. discriminate Hr.
Qed.

Lemma checkoutSuccess_decremented env req d :
  decremented_from (products d) (checkoutSuccess env req d).1.
Proof.
  unfold checkoutSuccess.
  apply (preserves_handler (decremented_from (products d)));
    [|exists []; reflexivity].
  unfold checkoutSuccess_body.
  preserves_body products_unchanged. unfold materialize.
  preserves_body products_unchanged.
  apply decrement_stock_decremented.
Qed.

Lemma checkoutSuccess_materializes env req d o :
  (checkoutSuccess env req d).2 = order_created o ->
  exists latestPayment orderData ttl,
    payment_status latestPayment = "SUCCESS"
    /\ Order_findOne (cashfreeOrderId o) d = None
    /\ redis d !! PENDING_KEY (cashfreeOrderId o) = Some (orderData, ttl)
    /\ o = order_document env (cashfreeOrderId o) latestPayment orderData
    /\ orders (checkoutSuccess env req d).1 = orders d ++ [o]
    /\ redis (checkoutSuccess env req d).1
       = delete (PENDING_KEY (cashfreeOrderId o)) (redis d)
    /\ total_stock d - total_stock (checkoutSuccess env req d).1
       = total_quantity (pd_products orderData).
Proof.
  intros Hr. unfold checkoutSuccess in *.
  destruct (handler_triple (eq d) (checkoutSuccess_body env req)
    (fun error => respond 500
       (JMessage false (message_or error "Failed to verify payment")))
    (fun r d' => forall o, r = order_created o ->
       exists latestPayment orderData ttl,
         payment_status latestPayment = "SUCCESS"
         /\ Order_findOne (cashfreeOrderId o) d = None
         /\ redis d !! PENDING_KEY (cashfreeOrderId o) = Some (orderData, ttl)
         /\ o = order_document env (cashfreeOrderId o) latestPayment orderData
         /\ orders d' = orders d ++ [o]
         /\ redis d' = delete (PENDING_KEY (cashfreeOrderId o)) (redis d)
         /\ total_stock d - total_stock d'
            = total_quantity (pd_products orderData))
    (fun _ => True) d) as [H|[_ [e He]]].
  - apply checkoutSuccess_reads; [exact I| |].
    + intros r Hne o0 ->. destruct (Hne o0 eq_refl).
    + intros orderId latestPayment rest orderData _ _ Hs Hfind Hget _.
      eapply triple_conseq;
        [apply materialize_spec|intros ? H; exact H| |intros; exact I].
      intros r d' H o0 Hr0. destruct (H o0 Hr0) as (-> & H2 & H3 & H4).
      destruct (redis d !! PENDING_KEY orderId) as [[data ttl]|] eqn:Hl;
        [|discriminate Hget].
      cbn in Hget. injection Hget as ->.
      exists latestPayment, orderData, ttl. cbn [cashfreeOrderId order_document].
      auto 10.
  - reflexivity.
  - exact (H o Hr).
  - rewrite He in Hr. discriminate Hr.
Qed.

Lemma checkoutSuccess_unique env req d :
  unique_orders d -> unique_orders (checkoutSuccess env req d).1.
Proof.
  apply preserves_handler. unfold checkoutSuccess_body.
  preserves_body orders_unchanged. apply materialize_unique.
Qed.

(** *** The ownership check *)

(** C9 (amended).  A confirmation for a pending order that recorded a user,
    sent by anyone else (another user or nobody), creates no order: the
    stores are left exactly as they were and the answer is never "order
    created".  The answer is 403 when the call gets as far as the ownership
    check: the gateway reports the latest payment as SUCCESS, no order exists
    yet for the gateway order id, and none of the three awaited calls
    rejects.  When an order already exists for the gateway order id, the
    ownership is not checked: the answer is 200 "Order already processed",
    with that order, whoever asks. *)
Theorem ownership_mismatch_rejected env req d orderId pending ttl u :
  cr_body req = Some (Some orderId) -> truthy_string orderId = true ->
  redis d !! PENDING_KEY orderId = Some (pending, ttl) ->
  userId pending = Some u -> truthy_string u = true ->
  cr_user req <> Some u ->
  (checkoutSuccess env req d).1 = d
  /\ (forall o, (checkoutSuccess env req d).2 <> order_created o)
  /\ (forall latestPayment rest,
        io_rejects env 0%nat = false -> io_rejects env 1%nat = false ->
        io_rejects env 2%nat = false ->
        PGOrderFetchPayments env orderId = inr (Some (latestPayment :: rest)) ->
        payment_status latestPayment = "SUCCESS" ->
        Order_findOne orderId d = None ->
        checkoutSuccess env req d
        = (d, respond 403 (JMessage false "Unauthorized")))
  /\ (forall latestPayment rest existing,
        io_rejects env 0%nat = false -> io_rejects env 1%nat = false ->
        PGOrderFetchPayments env orderId = inr (Some (latestPayment :: rest)) ->
        payment_status latestPayment = "SUCCESS" ->
        Order_findOne orderId d = Some existing ->
        checkoutSuccess env req d = (d, order_already_processed existing)).
Proof.
  intros Hbody Hoid Hredis Huser Hu Hne.
  assert (Hown : truthy (userId pending)
                 && negb (bool_decide (cr_user req = userId pending)) = true).
  { rewrite Huser. cbn. rewrite Hu. cbn.
    rewrite bool_decide_eq_false_2 by exact Hne. reflexivity. }
  assert (H : triple (eq d) (checkoutSuccess_body env req)
                (fun r d0 => d = d0 /\ forall o, r <> order_created o) (eq d)).
  { apply checkoutSuccess_reads; [reflexivity|auto|].
    intros orderId' latestPayment rest orderData Hb _ _ _ Hget Hown'.
    rewrite Hbody in Hb. injection Hb as <-.
    rewrite Hredis in Hget. cbn in Hget. injection Hget as <-. congruence. }
  split; [|split; [|split]].
  - unfold checkoutSuccess.
    destruct (handler_triple _ _
                (fun error => respond 500
                   (JMessage false (message_or error "Failed to verify payment")))
                _ _ d H eq_refl) as [[Hd _]|[Hd _]]; symmetry; exact Hd.
  - intros o. unfold checkoutSuccess.
    destruct (handler_triple _ _
                (fun error => respond 500
                   (JMessage false (message_or error "Failed to verify payment")))
                _ _ d H eq_refl) as [[_ Hr]|[_ [e ->]]]; [apply Hr|discriminate].
  - intros latestPayment rest H0 H1 H2 Hpay Hs Hfind.
    unfold checkoutSuccess, handler, checkoutSuccess_body. rewrite Hbody.
    unfold truthy. rewrite Hoid. cbn.
    unfold mbind, M_bind, await_call, await_read, await. cbn.
    rewrite H0, Hpay. cbn. rewrite Hs. cbn. rewrite H1, Hfind. cbn.
    rewrite H2. cbn. rewrite Hredis. cbn.
    rewrite Huser, Hu. cbn.
    rewrite bool_decide_eq_false_2 by exact Hne. reflexivity.
  - intros latestPayment rest existing H0 H1 Hpay Hs Hfind.
    unfold checkoutSuccess, handler, checkoutSuccess_body. rewrite Hbody.
    unfold truthy. rewrite Hoid. cbn.
    unfold mbind, M_bind, await_call, await_read, await. cbn.
    rewrite H0, Hpay. cbn. rewrite Hs. cbn. rewrite H1, Hfind. reflexivity.
Qed.

Lemma ownership_mismatch_rejected_witness :
  redis scenario_reserved !! PENDING_KEY scenario_order_id
  = Some (scenario_pending, PENDING_ORDER_TTL)
  /\ checkoutSuccess scenario_env intruder_confirm_request scenario_reserved
     = (scenario_reserved, respond 403 (JMessage false "Unauthorized")).
Proof.
  assert (H : redis scenario_reserved !! PENDING_KEY scenario_order_id
              = Some (scenario_pending, PENDING_ORDER_TTL))
    by (vm_compute; reflexivity).
  split; [exact H|].
  refine (proj1 (proj2 (proj2 (ownership_mismatch_rejected scenario_env
            intruder_confirm_request scenario_reserved scenario_order_id
            scenario_pending PENDING_ORDER_TTL "user_1"
            eq_refl eq_refl H eq_refl eq_refl _)))
            success_payment [] eq_refl eq_refl eq_refl eq_refl eq_refl _).
  - discriminate.
  - vm_compute. reflexivity.
Defined.

(** C9, as stated, fails: once the session of the scenario is open, a
    confirmation by the owner that the database interrupts on the second
    stock update (a 500) leaves the order stored next to the pending order,
    which records the owner; the confirmation that another user then sends
    for the same gateway order id is not rejected: it is answered 200 with
    the owner's order. *)
Lemma ownership_not_checked_for_stored_order :
  (createCheckoutSession scenario_env scenario_session_request scenario_db).1
  = scenario_reserved
  /\ checkoutSuccess database_down_env scenario_confirm_request scenario_reserved
     = (scenario_interrupted, respond 500 (JMessage false "request failed"))
  /\ redis scenario_interrupted !! PENDING_KEY scenario_order_id
     = Some (scenario_pending, PENDING_ORDER_TTL)
  /\ userId scenario_pending = Some "user_1"
  /\ cr_user intruder_confirm_request = Some "user_2"
  /\ checkoutSuccess scenario_env intruder_confirm_request scenario_interrupted
     = (scenario_interrupted, order_already_processed scenario_order)
  /\ status (order_already_processed scenario_order) = 200.
Proof. repeat split; vm_compute; reflexivity. Qed.

(** *** Running out of stock at confirmation time *)

(** C2: what the code does when the second line runs out of stock.  The
    pending order asks for one frame and two motors and only one motor is
    left.  The order is deleted, the pending order is deleted and the answer
    is 409, but the frame taken for the first line is not given back: the
    catalogue has lost one frame that no order accounts for. *)
Lemma rollback_keeps_earlier_decrements :
  map stock (products scenario_sold_out) = [5; 1]
  /\ checkoutSuccess scenario_env scenario_confirm_request scenario_sold_out
     = ({| orders := []; products := [inc_stock (- 1) frame; inc_stock (- 3) motor];
           redis := ∅ |},
        respond 409 (JMessage false
          "Insufficient stock for Motor. Please update your cart and try again."))
  /\ map stock
       (products (checkoutSuccess scenario_env scenario_confirm_request
                    scenario_sold_out).1) = [4; 1].
Proof. repeat split; vm_compute; reflexivity. Qed.

(** ** The webhook: [cashfreeWebhook] *)

Lemma process_webhook_status env req :
  triple (fun _ => True) (process_webhook env req)
    (fun r _ => status r = 200) (fun _ => True).
Proof.
  unfold process_webhook.
  repeat frame_step ltac:(exact I); reflexivity.
Qed.

(** C8.  The webhook handler answers 401 exactly when its signature check ran
    and returned false, and then the stores are untouched; on every other
    request, whatever the payload, the stored orders, the event type and the
    outcome of the awaited calls (rejections included), it answers 200. *)
Theorem webhook_always_acknowledged env hmac req d :
  status (cashfreeWebhook env hmac req d).2
  = (if signature_rejected env hmac req then 401 else 200)
  /\ (signature_rejected env hmac req = true ->
      cashfreeWebhook env hmac req d
      = (d, respond 401 (JMessage false "Invalid signature"))).
Proof.
  assert (Hp : status (handler (process_webhook env req)
                 (fun _ => respond 200 (JMessage true "Webhook received")) d).2
               = 200).
  { destruct (handler_triple (fun _ => True) (process_webhook env req)
                (fun _ => respond 200 (JMessage true "Webhook received"))
                (fun r _ => status r = 200) (fun _ => True) d
                (process_webhook_status env req) I) as [H|[_ [e ->]]];
      [exact H|reflexivity]. }
  unfold signature_rejected, cashfreeWebhook, cashfreeWebhook_body.
  destruct (truthy (x_webhook_timestamp req) && truthy (x_webhook_signature req));
    cbn [andb]; [|split; [exact Hp|discriminate]].
  destruct (verifyCashfreeWebhook _ _ _ _ _) as [e|[|]].
  - split; [reflexivity|discriminate].
  - split; [exact Hp|discriminate].
  - split; [reflexivity|]. intros _. reflexivity.
Qed.

(** *** The signature check *)

Lemma verifyCashfreeWebhook_mismatch env hmac raw ts sig :
  String.length sig
  = String.length (hmac (default "" (CASHFREE_SECRET_KEY env)) (ts +:+ raw)) ->
  sig <> hmac (default "" (CASHFREE_SECRET_KEY env)) (ts +:+ raw) ->
  verifyCashfreeWebhook env hmac raw ts sig = inr false.
Proof.
  intros Hlen Hne. unfold verifyCashfreeWebhook.
  destruct (negb (truthy (CASHFREE_SECRET_KEY env)) || negb (truthy_string raw)
            || negb (truthy_string ts) || negb (truthy_string sig));
    [reflexivity|].
  unfold crypto_timingSafeEqual. rewrite <- Hlen, Nat.eqb_refl.
  f_equal. apply String.eqb_neq. congruence.
Qed.

(** C3 (amended).  Verification compares, with [crypto.timingSafeEqual], the
    signature header with the HMAC-SHA256 of the timestamp followed by the raw
    body under the configured secret.  A request that carries both headers
    and whose signature has the byte length of that digest and differs from
    it -- a tampered raw body under an unchanged signature header is one --
    is answered 401 with the stores untouched.  A request that lacks one of
    the two headers is not verified: it is handled as any other event. *)
Theorem webhook_signature_mismatch_rejected :
  (forall env hmac raw ts sig key,
     CASHFREE_SECRET_KEY env = Some key -> truthy_string key = true ->
     truthy_string raw = true -> truthy_string ts = true ->
     truthy_string sig = true ->
     verifyCashfreeWebhook env hmac raw ts sig
     = crypto_timingSafeEqual (hmac key (ts +:+ raw)) sig)
  /\ (forall env hmac req d ts sig,
        x_webhook_timestamp req = Some ts -> truthy_string ts = true ->
        x_webhook_signature req = Some sig -> truthy_string sig = true ->
        String.length sig
        = String.length (hmac (default "" (CASHFREE_SECRET_KEY env))
                           (ts +:+ default "" (rawBody req))) ->
        sig <> hmac (default "" (CASHFREE_SECRET_KEY env))
                 (ts +:+ default "" (rawBody req)) ->
        cashfreeWebhook env hmac req d
        = (d, respond 401 (JMessage false "Invalid signature")))
  /\ (forall env hmac req d,
        truthy (x_webhook_timestamp req) && truthy (x_webhook_signature req)
        = false ->
        cashfreeWebhook env hmac req d
        = handler (process_webhook env req)
            (fun _ => respond 200 (JMessage true "Webhook received")) d).
Proof.
  split; [|split].
  - intros env hmac raw ts sig key Hkey Hk Hraw Hts Hsig.
    unfold verifyCashfreeWebhook. rewrite Hkey. cbn.
    rewrite Hk, Hraw, Hts, Hsig. reflexivity.
  - intros env hmac req d ts sig Hts Htt Hsig Hst Hlen Hne.
    unfold cashfreeWebhook, cashfreeWebhook_body.
    rewrite Hts, Hsig. cbn. rewrite Htt, Hst. cbn.
    rewrite (verifyCashfreeWebhook_mismatch _ _ _ _ _ Hlen Hne). reflexivity.
  - intros env hmac req d H.
    unfold cashfreeWebhook, cashfreeWebhook_body. rewrite H. reflexivity.
Qed.

Lemma webhook_signature_mismatch_rejected_witness :
  cashfreeWebhook scenario_env scenario_digest
    (tampered_webhook "PAYMENT_FAILED_WEBHOOK") scenario_materialized
  = (scenario_materialized, respond 401 (JMessage false "Invalid signature")).
Proof.
  refine (proj1 (proj2 webhook_signature_mismatch_rejected) scenario_env
            scenario_digest (tampered_webhook "PAYMENT_FAILED_WEBHOOK")
            scenario_materialized "1700000000"
            (scenario_digest "secret" ("1700000000" +:+ "{A}"))
            eq_refl eq_refl eq_refl eq_refl eq_refl _).
  vm_compute. discriminate.
Defined.

(** C3, as stated, fails: with a secret configured, a webhook that has no
    signature header is not rejected; here it cancels the stored order and is
    answered 200. *)
Lemma webhook_missing_signature_accepted :
  CASHFREE_SECRET_KEY scenario_env = Some "secret"
  /\ x_webhook_signature (unsigned_webhook "PAYMENT_FAILED_WEBHOOK") = None
  /\ Order_findOne scenario_order_id scenario_materialized = Some scenario_order
  /\ cashfreeWebhook scenario_env scenario_digest
       (unsigned_webhook "PAYMENT_FAILED_WEBHOOK") scenario_materialized
     = (scenario_cancelled, respond 200 JAck)
  /\ Order_findOne scenario_order_id scenario_cancelled
     = Some (set_status "cancelled" (Some "pay_1") scenario_order).
Proof. repeat split; vm_compute; reflexivity. Qed.

(** *** What the events change *)

(** C10.  On a PAYMENT_SUCCESS_WEBHOOK event whose order id has an Order: if
    the Order's status is anything but 'pending', the stores are left exactly
    as they were (every field of every Order included); if it is 'pending',
    the signature check passed and no awaited call rejects, the stored Order
    gets the status 'processing' and the payment id of the event (its old one
    when the event has none), nothing else changes, and the answer is 200. *)
Theorem success_webhook_touches_only_pending env hmac req d pay oid o :
  wr_body req = Some {| type := "PAYMENT_SUCCESS_WEBHOOK";
                        data := Some {| wd_order := Some (Some oid);
                                        wd_payment := pay |} |} ->
  truthy_string oid = true ->
  Order_findOne oid d = Some o ->
  (orderStatus o <> "pending" -> (cashfreeWebhook env hmac req d).1 = d)
  /\ (orderStatus o = "pending" -> unique_orders d -> no_rejection env ->
      signature_passed env hmac req = true ->
      cashfreeWebhook env hmac req d
      = (set_orders
           (saved (set_status "processing"
                     (or_else (pay ≫= id) (cashfreePaymentId o)) o)
                  (orders d)) d,
         respond 200 JAck)).
Proof.
  intros Hbody Hoid Hfind. split.
  - intros Hst. apply String.eqb_neq in Hst.
    unfold cashfreeWebhook. rewrite handler_db.
    assert (Hp : forall n,
               db (process_webhook env req {| db := d; tick := n |}).1 = d).
    { intros n. unfold process_webhook. rewrite Hbody. cbn.
      unfold truthy. rewrite Hoid. cbn.
      unfold mbind, M_bind, await_read, await. cbn.
      destruct (io_rejects env n); cbn; [reflexivity|].
      rewrite Hfind, Hst. cbn. reflexivity. }
    unfold cashfreeWebhook_body.
    destruct (truthy (x_webhook_timestamp req) && truthy (x_webhook_signature req));
      [|apply Hp].
    destruct (verifyCashfreeWebhook _ _ _ _ _) as [e|[|]];
      [reflexivity|apply Hp|reflexivity].
  - intros Hst [Hids _] Hno Hpass. apply String.eqb_eq in Hst.
    assert (Hp : handler (process_webhook env req)
                   (fun _ => respond 200 (JMessage true "Webhook received")) d
                 = (set_orders
                      (saved (set_status "processing"
                                (or_else (pay ≫= id) (cashfreePaymentId o)) o)
                             (orders d)) d,
                    respond 200 JAck)).
    { unfold handler, process_webhook. rewrite Hbody. cbn.
      unfold truthy. rewrite Hoid. cbn.
      unfold mbind, M_bind, await_read.
      rewrite await_no_rejection by exact Hno. cbn.
      rewrite Hfind, Hst. rewrite await_no_rejection by exact Hno. cbn.
      unfold Order_save.
      rewrite replace_by_id_saved;
        [reflexivity|exact Hids|].
      apply Order_findOne_In in Hfind as [Hin _].
      exact (has_order_id_In o _ Hin). }
    unfold signature_passed in Hpass.
    unfold cashfreeWebhook, cashfreeWebhook_body.
    destruct (truthy (x_webhook_timestamp req) && truthy (x_webhook_signature req));
      [|exact Hp].
    cbn in Hpass.
    destruct (verifyCashfreeWebhook _ _ _ _ _) as [e|[|]];
      [discriminate|exact Hp|discriminate].
Qed.

Lemma success_webhook_touches_only_pending_witness :
  (cashfreeWebhook scenario_env scenario_digest
     (signed_webhook "PAYMENT_SUCCESS_WEBHOOK") scenario_shipped).1
  = scenario_shipped
  /\ cashfreeWebhook scenario_env scenario_digest
       (signed_webhook "PAYMENT_SUCCESS_WEBHOOK") scenario_materialized
     = (set_orders
          [set_status "processing" (Some "pay_1") scenario_order]
          scenario_materialized,
        respond 200 JAck).
Proof.
  split.
  - refine (proj1 (success_webhook_touches_only_pending scenario_env
              scenario_digest (signed_webhook "PAYMENT_SUCCESS_WEBHOOK")
              scenario_shipped (Some (Some "pay_1")) scenario_order_id
              (set_status "shipped" (Some "pay_1") scenario_order)
              eq_refl eq_refl _) _).
    + vm_compute. reflexivity.
    + discriminate.
  - refine (proj2 (success_webhook_touches_only_pending scenario_env
              scenario_digest (signed_webhook "PAYMENT_SUCCESS_WEBHOOK")
              scenario_materialized (Some (Some "pay_1")) scenario_order_id
              scenario_order eq_refl eq_refl _) eq_refl _ _ _).
    + vm_compute. reflexivity.
    + split; vm_compute; repeat constructor; intros [].
    + intros n. reflexivity.
    + vm_compute. reflexivity.
Defined.

Lemma cashfreeWebhook_products env hmac req d :
  products (cashfreeWebhook env hmac req d).1 = products d.
Proof.
  unfold cashfreeWebhook.
  refine (preserves_handler (fun d0 => products d0 = products d) _ _ d _ _);
    [|reflexivity].
  unfold cashfreeWebhook_body, process_webhook.
  preserves_body products_unchanged.
Qed.

Lemma cashfreeWebhook_frame env hmac req d :
  products (cashfreeWebhook env hmac req d).1 = products d
  /\ redis (cashfreeWebhook env hmac req d).1 = redis d
  /\ map o_id (orders (cashfreeWebhook env hmac req d).1) = map o_id (orders d).
Proof.
  unfold cashfreeWebhook.
  refine (preserves_handler
            (fun d0 => products d0 = products d /\ redis d0 = redis d
                       /\ map o_id (orders d0) = map o_id (orders d))
            _ _ d _ _); [|auto].
  unfold cashfreeWebhook_body, process_webhook.
  preserves_body ltac:(
    unfold Order_save;
    match goal with
    | |- context [replace_by_id ?doc ?os] =>
        destruct (replace_by_id doc os) as [os'|] eqn:Hrep;
        [apply replace_by_id_ids in Hrep; cbn; rewrite Hrep|cbn]; assumption
    end).
Qed.

Lemma process_webhook_without_order env req d :
  webhook_order_id req ≫= (fun oid => Order_findOne oid d) = None ->
  triple (eq d) (process_webhook env req) (fun _ d0 => d = d0) (eq d).
Proof.
  unfold webhook_order_id, process_webhook. intros H.
  destruct (wr_body req) as [body|]; [|apply triple_throw; auto].
  destruct body as [event [[[order_id|] payment]|]];
    try (apply triple_ret; auto). cbn [data type] in *.
  destruct order_id as [oid|]; [|apply triple_ret; auto].
  cbn [truthy]. destruct (truthy_string oid); [|apply triple_ret; auto].
  cbn [negb]. change (default "" (Some oid)) with oid.
  apply triple_read_bind; [reflexivity|].
  cbn in H. rewrite H. apply triple_ret. auto.
Qed.

Lemma cashfreeWebhook_without_order env hmac req d :
  webhook_order_id req ≫= (fun oid => Order_findOne oid d) = None ->
  (cashfreeWebhook env hmac req d).1 = d.
Proof.
  intros H. unfold cashfreeWebhook. symmetry.
  refine (preserves_handler (eq d) _ _ d _ eq_refl).
  unfold cashfreeWebhook_body.
  pose proof (process_webhook_without_order env req d H) as Hp.
  destruct (truthy (x_webhook_timestamp req) && truthy (x_webhook_signature req));
    [|exact Hp].
  destruct (verifyCashfreeWebhook _ _ _ _ _) as [e|[|]];
    [apply triple_throw; auto|exact Hp|apply triple_ret; auto].
Qed.

Lemma save_status_unique env s p order :
  triple (fun d => unique_orders d /\ In order (orders d))
    (await env (Order_save (set_status s p order)))
    (fun _ => unique_orders) unique_orders.
Proof.
  apply triple_await; [intros d [H _]; exact H|].
  intros d [H Hin]. pose proof (Order_save_unique s p order d H Hin) as H'.
  destruct (Order_save _ d) as [d' [e|[]]]; exact H'.
Qed.

Lemma process_webhook_unique env req :
  preserves unique_orders (process_webhook env req).
Proof.
  unfold process_webhook.
  destruct (wr_body req) as [body|]; [|preserves_body idtac].
  destruct (data body) as [[[order_id|] payment]|];
    try solve [preserves_body idtac].
  destruct (negb (truthy order_id)); [solve [preserves_body idtac]|].
  eapply triple_bind with
    (R := fun found d0 =>
            unique_orders d0 /\ forall o, found = Some o -> In o (orders d0)).
  - apply triple_await_read; [auto|]. intros d0 H. split; [exact H|].
    intros o Ho. apply Order_findOne_In in Ho. tauto.
  - intros [order|]; [|apply triple_ret; intros d0 [H _]; exact H].
    eapply triple_conseq with
      (P' := fun d0 => unique_orders d0 /\ In order (orders d0))
      (Q' := fun _ => unique_orders) (E' := unique_orders); auto;
      [|intros d0 [H Hin]; auto].
    eapply triple_bind with (R := fun _ => unique_orders);
      [|intros _; apply triple_ret; auto].
    repeat match goal with
           | |- triple _ (if ?b then _ else _) _ _ => destruct b
           | |- triple _ (await _ _) _ _ => apply save_status_unique
           | |- triple _ (mret _) _ _ => apply triple_ret; intros ? [? _]; assumption
           end.
Qed.

Lemma cashfreeWebhook_unique env hmac req d :
  unique_orders d -> unique_orders (cashfreeWebhook env hmac req d).1.
Proof.
  apply preserves_handler. unfold cashfreeWebhook_body.
  preserves_body idtac; apply process_webhook_unique.
Qed.

(** ** The workflow *)

(** The scenario, run: opening the session stores the pending order, and the
    owner's confirmation turns it into the order. *)
Lemma scenario_runs :
  createCheckoutSession scenario_env scenario_session_request scenario_db
  = (scenario_reserved, respond 200 (JSession "session_1" scenario_order_id 2199))
  /\ checkoutSuccess scenario_env scenario_confirm_request scenario_reserved
     = (scenario_materialized, order_created scenario_order).
Proof. split; vm_compute; reflexivity. Qed.

(** *** Stock *)

(** C4.  Stock is never negative.  A line's stock changes only through the
    conditional update: the first document with the line's product id and a
    stock of at least the quantity loses exactly that quantity, and when
    there is none the collection stays as it is.  Creating a session and
    handling a webhook leave every product as it is; a confirmation changes
    the catalogue by conditional updates only, keeps every stock
    non-negative, and, when it answers that the order was created, has
    lowered the total stock by the sum of the ordered quantities. *)
Theorem stock_never_negative_and_conserved :
  (forall id qty ps,
     match findOneAndUpdate_stock id qty ps with
     | (Some p', ps') =>
         exists l1 p l2, ps = l1 ++ p :: l2 /\ ps' = l1 ++ p' :: l2 /\
           p_id p = id /\ qty <= stock p /\ p' = inc_stock (- qty) p
     | (None, ps') =>
         ps' = ps /\ forall p, In p ps -> p_id p = id -> stock p < qty
     end)
  /\ (forall env req d, products (createCheckoutSession env req d).1 = products d)
  /\ (forall env hmac req d, products (cashfreeWebhook env hmac req d).1 = products d)
  /\ (forall env req d, exists items,
        products (checkoutSuccess env req d).1
        = conditional_decrements items (products d))
  /\ (forall env req d,
        stock_nonneg d -> stock_nonneg (checkoutSuccess env req d).1)
  /\ (forall env req d o,
        (checkoutSuccess env req d).2 = order_created o ->
        total_stock d - total_stock (checkoutSuccess env req d).1
        = sumZ (map ol_quantity (o_products o))).
Proof.
  split; [exact findOneAndUpdate_stock_spec|].
  split; [exact createCheckoutSession_products|].
  split; [exact cashfreeWebhook_products|].
  split; [exact checkoutSuccess_decremented|].
  split; [exact checkoutSuccess_nonneg|exact checkoutSuccess_total].
Qed.

Lemma stock_never_negative_and_conserved_witness :
  stock_nonneg scenario_reserved
  /\ (checkoutSuccess scenario_env scenario_confirm_request scenario_reserved).2
     = order_created scenario_order
  /\ stock_nonneg
       (checkoutSuccess scenario_env scenario_confirm_request scenario_reserved).1
  /\ total_stock scenario_reserved
     - total_stock
         (checkoutSuccess scenario_env scenario_confirm_request scenario_reserved).1
     = sumZ [1; 2].
Proof.
  destruct stock_never_negative_and_conserved as (_ & _ & _ & _ & Hnn & Htot).
  assert (H0 : stock_nonneg scenario_reserved)
    by (repeat constructor; vm_compute; discriminate).
  assert (Hr : (checkoutSuccess scenario_env scenario_confirm_request
                  scenario_reserved).2 = order_created scenario_order)
    by (vm_compute; reflexivity).
  split; [exact H0|]. split; [exact Hr|].
  split; [exact (Hnn _ _ _ H0)|].
  exact (Htot _ _ _ _ Hr).
Defined.

(** *** At most one order for a gateway order id *)

Lemma unique_orders_at_most_one d o1 o2 :
  unique_orders d -> In o1 (orders d) -> In o2 (orders d) ->
  cashfreeOrderId o1 = cashfreeOrderId o2 -> o1 = o2.
Proof. intros [_ H]. now apply NoDup_map_In_eq. Qed.

(** C1 (amended).  The two unique indexes of the orders, once they hold, hold
    after every request, so that no two stored orders ever share a gateway
    order id.  A confirmation for a gateway order id that already has an
    Order changes nothing and never answers "order created"; it answers 200
    with the existing Order once the gateway has reported the latest payment
    as SUCCESS, the check that comes first.  A confirmation that reaches
    [Order.create] when an Order with its gateway order id has been written
    in the meantime is rejected by the index: [Order.create] throws and
    nothing is written. *)
Theorem at_most_one_order_per_gateway_id :
  (forall env req d,
     unique_orders d -> unique_orders (checkoutSuccess env req d).1)
  /\ (forall env req d,
        unique_orders d -> unique_orders (createCheckoutSession env req d).1)
  /\ (forall env hmac req d,
        unique_orders d -> unique_orders (cashfreeWebhook env hmac req d).1)
  /\ (forall d o1 o2,
        unique_orders d -> In o1 (orders d) -> In o2 (orders d) ->
        cashfreeOrderId o1 = cashfreeOrderId o2 -> o1 = o2)
  /\ (forall env req d orderId existing,
        cr_body req = Some (Some orderId) ->
        Order_findOne orderId d = Some existing ->
        (checkoutSuccess env req d).1 = d
        /\ (forall o, (checkoutSuccess env req d).2 <> order_created o)
        /\ (forall latestPayment rest,
              truthy_string orderId = true ->
              io_rejects env 0%nat = false -> io_rejects env 1%nat = false ->
              PGOrderFetchPayments env orderId
              = inr (Some (latestPayment :: rest)) ->
              payment_status latestPayment = "SUCCESS" ->
              checkoutSuccess env req d = (d, order_already_processed existing)))
  /\ (forall env orderId latestPayment orderData w,
        has_cashfreeOrderId orderId (orders (db w)) = true ->
        exists e,
          materialize env orderId latestPayment orderData w
          = (next (db w) w, inl e)).
Proof.
  split; [exact checkoutSuccess_unique|].
  split; [exact createCheckoutSession_unique|].
  split; [exact cashfreeWebhook_unique|].
  split; [exact unique_orders_at_most_one|].
  split; [|exact materialize_duplicate].
  intros env req d orderId existing Hbody Hfind.
  pose proof (checkoutSuccess_existing env req d orderId existing Hbody Hfind) as H.
  split; [|split].
  - unfold checkoutSuccess.
    destruct (handler_triple _ _
                (fun error => respond 500
                   (JMessage false (message_or error "Failed to verify payment")))
                _ _ d H eq_refl) as [[Hd _]|[Hd _]]; symmetry; exact Hd.
  - intros o. unfold checkoutSuccess.
    destruct (handler_triple _ _
                (fun error => respond 500
                   (JMessage false (message_or error "Failed to verify payment")))
                _ _ d H eq_refl) as [[_ Hr]|[_ [e ->]]]; [apply Hr|discriminate].
  - intros latestPayment rest Hoid H0 H1 Hpay Hs.
    unfold checkoutSuccess, handler, checkoutSuccess_body. rewrite Hbody.
    unfold truthy. rewrite Hoid. cbn.
    unfold mbind, M_bind, await_call, await_read, await. cbn.
    rewrite H0, Hpay. cbn. rewrite Hs. cbn. rewrite H1, Hfind. reflexivity.
Qed.

Lemma at_most_one_order_per_gateway_id_witness :
  unique_orders scenario_materialized
  /\ unique_orders
       (checkoutSuccess scenario_env scenario_confirm_request
          scenario_materialized).1
  /\ checkoutSuccess scenario_env scenario_confirm_request scenario_materialized
     = (scenario_materialized, order_already_processed scenario_order)
  /\ (exists e,
        materialize second_env scenario_order_id success_payment scenario_pending
          {| db := scenario_racing; tick := 3 |}
        = (next scenario_racing {| db := scenario_racing; tick := 3 |}, inl e)).
Proof.
  destruct at_most_one_order_per_gateway_id as (Hu & _ & _ & _ & Hex & Hrace).
  assert (H0 : unique_orders scenario_materialized)
    by (split; vm_compute; repeat constructor; intros []).
  split; [exact H0|]. split; [exact (Hu _ _ _ H0)|]. split.
  - refine (proj2 (proj2 (Hex scenario_env scenario_confirm_request
              scenario_materialized scenario_order_id scenario_order eq_refl _))
              success_payment [] eq_refl eq_refl eq_refl eq_refl eq_refl).
    vm_compute. reflexivity.
  - apply (Hrace second_env scenario_order_id success_payment scenario_pending
             {| db := scenario_racing; tick := 3 |}).
    vm_compute. reflexivity.
Defined.

(** C1, as stated, fails twice.  The existence check is not the first check:
    with the Order stored, a confirmation for which the gateway lists a
    failed attempt first is answered 400, not with the Order.  And a
    duplicate-key rejection of [Order.create] is not treated as "already
    materialized": the second worker's request ends as a 500. *)
Lemma existing_order_not_returned_first :
  Order_findOne scenario_order_id scenario_materialized = Some scenario_order
  /\ checkoutSuccess retry_env scenario_confirm_request scenario_materialized
     = (scenario_materialized,
        respond 400 (JPaymentStatus "Payment not completed" "FAILED"))
  /\ Order_findOne scenario_order_id scenario_racing = Some scenario_order
  /\ checkoutSuccess_resumed second_env scenario_order_id success_payment
       scenario_pending scenario_racing
     = (scenario_racing,
        respond 500 (JMessage false "E11000 duplicate key error")).
Proof. repeat split; vm_compute; reflexivity. Qed.

(** *** The stock that a confirmation takes *)

Lemma decrement_stock_products env newOrder orderId items PS :
  triple (fun d => products d = PS)
    (decrement_stock env newOrder orderId items)
    (fun r d' =>
       match r with
       | None => decrements_succeed items PS = true
                 /\ products d' = conditional_decrements items PS
       | Some response => status response = 409
       end)
    (fun _ => True).
Proof.
  revert PS. induction items as [|item rest IH]; intros PS;
    cbn [decrement_stock].
  - apply triple_ret. intros d Hd. split; [reflexivity|exact Hd].
  - eapply triple_bind with
      (R := fun updated d' =>
         updated = (findOneAndUpdate_stock (op_productId item)
                      (op_quantity item) PS).1
         /\ products d'
            = (findOneAndUpdate_stock (op_productId item)
                 (op_quantity item) PS).2).
    + apply triple_await; [auto|]. intros d <-. unfold Product_findOneAndUpdate.
      destruct (findOneAndUpdate_stock _ _ _) as [r ps']. split; reflexivity.
    + intros [p'|]; apply triple_pure; intros Hup.
      * eapply triple_conseq;
          [apply (IH (findOneAndUpdate_stock (op_productId item)
                        (op_quantity item) PS).2)
          |intros d Hd; exact Hd| |auto].
        intros [response|] d Hd; [exact Hd|].
        cbn [decrements_succeed]. unfold conditional_decrements.
        cbn [fold_left].
        destruct (findOneAndUpdate_stock _ _ PS) as [r ps']. cbn in *.
        subst r. exact Hd.
      * eapply triple_bind with (R := fun _ _ => True);
          [apply triple_await; intros;
           [|destruct (Order_findByIdAndDelete _ _) as [? [|]]]; exact I|].
        intros _.
        eapply triple_bind with (R := fun _ _ => True);
          [apply triple_await; intros;
           [|destruct (redis_del _ _) as [? [|]]]; exact I|].
        intros _. apply triple_ret. intros d _. reflexivity.
Qed.

Lemma materialize_products env orderId latestPayment orderData PS :
  triple (fun d => products d = PS)
    (materialize env orderId latestPayment orderData)
    (fun r d' => forall o, r = order_created o ->
       decrements_succeed (pd_products orderData) PS = true
       /\ products d' = conditional_decrements (pd_products orderData) PS)
    (fun _ => True).
Proof.
  unfold materialize.
  eapply triple_bind with (R := fun _ d' => products d' = PS).
  - apply triple_await; [auto|]. intros d Hd. unfold Order_create.
    destruct (has_order_id _ _ || _); cbn; auto.
  - intros newOrder.
    eapply triple_bind; [apply decrement_stock_products|].
    intros [response|].
    + apply triple_ret. intros d' Hd o ->. discriminate Hd.
    + apply triple_pure. intros Hok.
      eapply triple_conseq with
        (Q' := fun _ d' =>
           products d' = conditional_decrements (pd_products orderData) PS)
        (E' := fun _ => True); [|intros ? H; exact H|auto|auto].
      repeat frame_step ltac:(cbn; assumption).
Qed.

Lemma map_unchanged {A : Type} (f : A -> A) (l : list A) :
  (forall x, In x l -> f x = x) -> map f l = l.
Proof.
  induction l as [|a l IH]; intros H; [reflexivity|].
  cbn [map]. rewrite H, IH; [reflexivity| |left; reflexivity].
  intros x Hx. apply H. now right.
Qed.

(** With one document per id, a conditional update that succeeds lowers the
    stock of the product that has the id and of no other. *)
Lemma findOneAndUpdate_stock_map id qty ps p' ps' :
  List.NoDup (map p_id ps) ->
  findOneAndUpdate_stock id qty ps = (Some p', ps') ->
  ps' = map (fun p => if String.eqb (p_id p) id then inc_stock (- qty) p else p)
          ps.
Proof.
  intros Hnd Hf.
  pose proof (findOneAndUpdate_stock_spec id qty ps) as Hs. rewrite Hf in Hs.
  destruct Hs as (l1 & p & l2 & -> & -> & Hid & _ & ->).
  rewrite List.map_app in Hnd. cbn [map] in Hnd.
  assert (Hother : forall x, In x (l1 ++ l2) -> String.eqb (p_id x) id = false).
  { intros x Hx. apply String.eqb_neq. intros Hx'.
    apply List.NoDup_remove_2 in Hnd. apply Hnd.
    rewrite <- List.map_app, Hid, <- Hx'. now apply in_map. }
  rewrite List.map_app. cbn [map]. rewrite Hid, String.eqb_refl.
  rewrite !map_unchanged; [reflexivity| |];
    intros x Hx; rewrite Hother; auto using in_or_app.
Qed.

Lemma ordered_quantity_cons item rest id :
  ordered_quantity (item :: rest) id
  = (if String.eqb (op_productId item) id then op_quantity item else 0)
    + ordered_quantity rest id.
Proof.
  unfold ordered_quantity. cbn [List.filter].
  destruct (String.eqb (op_productId item) id); reflexivity.
Qed.

Lemma inc_stock_0 p : inc_stock (- 0) p = p.
Proof. destruct p. unfold inc_stock. cbn. f_equal. lia. Qed.

(** With one document per id, the updates of a confirmation that all succeed
    lower the stock of every product by the quantity that the lines ask of
    it. *)
Lemma conditional_decrements_map items ps :
  List.NoDup (map p_id ps) -> decrements_succeed items ps = true ->
  conditional_decrements items ps
  = map (fun p => inc_stock (- ordered_quantity items (p_id p)) p) ps.
Proof.
  revert ps. induction items as [|item rest IH]; intros ps Hnd Hok.
  - cbn. symmetry. apply map_unchanged. intros p _. apply inc_stock_0.
  - cbn [decrements_succeed] in Hok.
    unfold conditional_decrements in *. cbn [fold_left].
    destruct (findOneAndUpdate_stock (op_productId item) (op_quantity item) ps)
      as [[p'|] ps'] eqn:Hf; [|discriminate Hok]. cbn [snd].
    rewrite (findOneAndUpdate_stock_map _ _ _ _ _ Hnd Hf) in Hok |- *.
    rewrite IH; [| |exact Hok].
    + rewrite List.map_map. apply map_ext. intros p.
      rewrite ordered_quantity_cons, (String.eqb_sym (op_productId item)).
      destruct (String.eqb (p_id p) (op_productId item)).
      * destruct p. unfold inc_stock. cbn. f_equal. lia.
      * reflexivity.
    + rewrite List.map_map.
      erewrite map_ext; [exact Hnd|]. intros p.
      now destruct (String.eqb (p_id p) (op_productId item)).
Qed.

(** A confirmation that answers "order created": what it found and what it
    wrote. *)
Lemma checkoutSuccess_materializes_exact env req d o :
  (checkoutSuccess env req d).2 = order_created o ->
  exists latestPayment rest orderData ttl,
    cr_body req = Some (Some (cashfreeOrderId o))
    /\ PGOrderFetchPayments env (cashfreeOrderId o)
       = inr (Some (latestPayment :: rest))
    /\ payment_status latestPayment = "SUCCESS"
    /\ Order_findOne (cashfreeOrderId o) d = None
    /\ redis d !! PENDING_KEY (cashfreeOrderId o) = Some (orderData, ttl)
    /\ o = order_document env (cashfreeOrderId o) latestPayment orderData
    /\ orders (checkoutSuccess env req d).1 = orders d ++ [o]
    /\ redis (checkoutSuccess env req d).1
       = delete (PENDING_KEY (cashfreeOrderId o)) (redis d)
    /\ decrements_succeed (pd_products orderData) (products d) = true
    /\ products (checkoutSuccess env req d).1
       = conditional_decrements (pd_products orderData) (products d)
    /\ total_stock d - total_stock (checkoutSuccess env req d).1
       = total_quantity (pd_products orderData).
Proof.
  intros Hr. unfold checkoutSuccess in *.
  destruct (handler_triple (eq d) (checkoutSuccess_body env req)
    (fun error => respond 500
       (JMessage false (message_or error "Failed to verify payment")))
    (fun r d' => forall o, r = order_created o ->
       exists latestPayment rest orderData ttl,
         cr_body req = Some (Some (cashfreeOrderId o))
         /\ PGOrderFetchPayments env (cashfreeOrderId o)
            = inr (Some (latestPayment :: rest))
         /\ payment_status latestPayment = "SUCCESS"
         /\ Order_findOne (cashfreeOrderId o) d = None
         /\ redis d !! PENDING_KEY (cashfreeOrderId o) = Some (orderData, ttl)
         /\ o = order_document env (cashfreeOrderId o) latestPayment orderData
         /\ orders d' = orders d ++ [o]
         /\ redis d' = delete (PENDING_KEY (cashfreeOrderId o)) (redis d)
         /\ decrements_succeed (pd_products orderData) (products d) = true
         /\ products d'
            = conditional_decrements (pd_products orderData) (products d)
         /\ total_stock d - total_stock d'
            = total_quantity (pd_products orderData))
    (fun _ => True) d) as [H|[_ [e He]]].
  - apply checkoutSuccess_reads; [exact I| |].
    + intros r Hne o0 ->. destruct (Hne o0 eq_refl).
    + intros orderId latestPayment rest orderData Hbody Hpay Hs Hfind Hget _.
      eapply triple_conseq;
        [apply triple_conj;
         [apply (materialize_spec env orderId latestPayment orderData d)
         |apply (materialize_products env orderId latestPayment orderData
                   (products d))]
        |intros ? <-; split; reflexivity| |intros; exact I].
      intros r d' [H1 H2] o0 Hr0.
      destruct (H1 o0 Hr0) as (-> & Ho & Hd & Htot).
      destruct (H2 _ Hr0) as [Hok Hps].
      destruct (redis d !! PENDING_KEY orderId) as [[data ttl]|] eqn:Hl;
        [|discriminate Hget].
      cbn in Hget. injection Hget as ->.
      exists latestPayment, rest, orderData, ttl.
      cbn [cashfreeOrderId order_document]. auto 13.
  - reflexivity.
  - exact (H o Hr).
  - rewrite He in Hr. discriminate Hr.
Qed.

(** *** Who materializes an order *)

(** C5 (amended).  Only the confirmation call materializes an order.  The
    webhook handler never does: on every request it leaves the products and
    the pending orders as they are and neither adds nor removes an order, and
    when no Order exists for the gateway order id of the event it changes
    nothing at all.  A confirmation that answers "order created" was sent
    for a gateway order id for which the gateway listed a latest payment
    reported as SUCCESS and the stores held no Order and a pending order; it
    has appended the Order built from that pending order and that payment,
    deleted the pending order, and applied to the catalogue the conditional
    stock update of every line, in order, each of which found its product
    with enough stock: the total stock is lower by the quantities asked for
    and, with one product per id, the stock of every product is lower by the
    quantity that the lines ask of it. *)
Theorem materialization_by_confirmation_only :
  (forall env hmac req d,
     products (cashfreeWebhook env hmac req d).1 = products d
     /\ redis (cashfreeWebhook env hmac req d).1 = redis d
     /\ map o_id (orders (cashfreeWebhook env hmac req d).1) = map o_id (orders d))
  /\ (forall env hmac req d,
        webhook_order_id req ≫= (fun oid => Order_findOne oid d) = None ->
        (cashfreeWebhook env hmac req d).1 = d)
  /\ (forall env req d o,
        (checkoutSuccess env req d).2 = order_created o ->
        exists latestPayment rest orderData ttl,
          cr_body req = Some (Some (cashfreeOrderId o))
          /\ PGOrderFetchPayments env (cashfreeOrderId o)
             = inr (Some (latestPayment :: rest))
          /\ payment_status latestPayment = "SUCCESS"
          /\ Order_findOne (cashfreeOrderId o) d = None
          /\ redis d !! PENDING_KEY (cashfreeOrderId o) = Some (orderData, ttl)
          /\ o = order_document env (cashfreeOrderId o) latestPayment orderData
          /\ orders (checkoutSuccess env req d).1 = orders d ++ [o]
          /\ redis (checkoutSuccess env req d).1
             = delete (PENDING_KEY (cashfreeOrderId o)) (redis d)
          /\ decrements_succeed (pd_products orderData) (products d) = true
          /\ products (checkoutSuccess env req d).1
             = conditional_decrements (pd_products orderData) (products d)
          /\ total_stock d - total_stock (checkoutSuccess env req d).1
             = total_quantity (pd_products orderData)
          /\ (List.NoDup (map p_id (products d)) ->
              products (checkoutSuccess env req d).1
              = map (fun p =>
                       inc_stock
                         (- ordered_quantity (pd_products orderData) (p_id p)) p)
                  (products d))).
Proof.
  split; [exact cashfreeWebhook_frame|].
  split; [exact cashfreeWebhook_without_order|].
  intros env req d o Hr.
  destruct (checkoutSuccess_materializes_exact env req d o Hr)
    as (latestPayment & rest & orderData & ttl & Hbody & Hpay & Hs & Hfind
        & Hget & Ho & Hos & Hredis & Hok & Hps & Htot).
  exists latestPayment, rest, orderData, ttl.
  do 11 (split; [assumption|]).
  intros Hnd. rewrite Hps. now apply conditional_decrements_map.
Qed.

Lemma materialization_by_confirmation_only_witness :
  (cashfreeWebhook scenario_env scenario_digest
     (signed_webhook "PAYMENT_SUCCESS_WEBHOOK") scenario_reserved).1
  = scenario_reserved
  /\ exists latestPayment rest orderData ttl,
       cr_body scenario_confirm_request
       = Some (Some (cashfreeOrderId scenario_order))
       /\ PGOrderFetchPayments scenario_env (cashfreeOrderId scenario_order)
          = inr (Some (latestPayment :: rest))
       /\ payment_status latestPayment = "SUCCESS"
       /\ Order_findOne (cashfreeOrderId scenario_order) scenario_reserved = None
       /\ redis scenario_reserved !! PENDING_KEY (cashfreeOrderId scenario_order)
          = Some (orderData, ttl)
       /\ scenario_order
          = order_document scenario_env (cashfreeOrderId scenario_order)
              latestPayment orderData
       /\ orders (checkoutSuccess scenario_env scenario_confirm_request
                    scenario_reserved).1
          = orders scenario_reserved ++ [scenario_order]
       /\ redis (checkoutSuccess scenario_env scenario_confirm_request
                   scenario_reserved).1
          = delete (PENDING_KEY (cashfreeOrderId scenario_order))
              (redis scenario_reserved)
       /\ decrements_succeed (pd_products orderData)
            (products scenario_reserved) = true
       /\ products (checkoutSuccess scenario_env scenario_confirm_request
                      scenario_reserved).1
          = conditional_decrements (pd_products orderData)
              (products scenario_reserved)
       /\ total_stock scenario_reserved
          - total_stock (checkoutSuccess scenario_env scenario_confirm_request
                           scenario_reserved).1
          = total_quantity (pd_products orderData)
       /\ products (checkoutSuccess scenario_env scenario_confirm_request
                      scenario_reserved).1
          = map (fun p =>
                   inc_stock
                     (- ordered_quantity (pd_products orderData) (p_id p)) p)
              (products scenario_reserved).
Proof.
  destruct materialization_by_confirmation_only as (_ & Hw & Hc).
  split.
  - apply Hw. vm_compute. reflexivity.
  - destruct (Hc scenario_env scenario_confirm_request scenario_reserved
                scenario_order)
      as (latestPayment & rest & orderData & ttl & H1 & H2 & H3 & H4 & H5 & H6
          & H7 & H8 & H9 & H10 & H11 & H12).
    { vm_compute. reflexivity. }
    exists latestPayment, rest, orderData, ttl.
    do 11 (split; [assumption|]).
    apply H12. cbn.
    apply List.NoDup_cons; [intros [H|[]]; discriminate H|].
    apply List.NoDup_cons; [intros []|apply List.NoDup_nil].
Defined.

(** C5, as stated, fails: with the pending order stored and the payment
    reported as SUCCESS, the webhook of the payment creates no Order, takes
    no stock and leaves the pending order where it is; it answers 200 "Order
    not found".  The confirmation call on the same stores creates the Order. *)
Lemma webhook_does_not_materialize :
  redis scenario_reserved !! PENDING_KEY scenario_order_id
  = Some (scenario_pending, PENDING_ORDER_TTL)
  /\ PGOrderFetchPayments scenario_env scenario_order_id
     = inr (Some [success_payment])
  /\ signature_passed scenario_env scenario_digest
       (signed_webhook "PAYMENT_SUCCESS_WEBHOOK") = true
  /\ cashfreeWebhook scenario_env scenario_digest
       (signed_webhook "PAYMENT_SUCCESS_WEBHOOK") scenario_reserved
     = (scenario_reserved, respond 200 (JMessage true "Order not found"))
  /\ orders scenario_reserved = []
  /\ (checkoutSuccess scenario_env scenario_confirm_request scenario_reserved).2
     = order_created scenario_order.
Proof. repeat split; vm_compute; reflexivity. Qed.

(* ================================================================= *)
(** * Further properties of the handlers *)

(** ** Running a request to its end *)

Lemma await_run {A : Type} env (op : Db -> Db * (Exn + A)) w :
  io_rejects env (tick w) = false ->
  await env op w = (next (op (db w)).1 w, (op (db w)).2).
Proof. intros H. unfold await. rewrite H. destruct (op (db w)); reflexivity. Qed.

Lemma bind_run {A B : Type} (m : M A) (f : A -> M B) w w' a :
  m w = (w', inr a) -> (m ≫= f) w = f a w'.
Proof. intros H. unfold mbind, M_bind. now rewrite H. Qed.

Lemma bind_throws {A B : Type} (m : M A) (f : A -> M B) w w' e :
  m w = (w', inl e) -> (m ≫= f) w = (w', inl e).
Proof. intros H. unfold mbind, M_bind. now rewrite H. Qed.

Lemma set_products_same d : set_products (products d) d = d.
Proof. destruct d; reflexivity. Qed.

Lemma PENDING_KEY_inj a b : PENDING_KEY a = PENDING_KEY b -> a = b.
Proof. unfold PENDING_KEY. cbn. intros [= H]. exact H. Qed.

(** ** More on [createCheckoutSession] *)

Lemma cart_product_Some d item p :
  cart_product d item = Some p ->
  isValidObjectId (productId item) = true
  /\ Product_findById (productId item) d = Some p.
Proof.
  unfold cart_product. destruct (isValidObjectId _); [auto|discriminate].
Qed.

Lemma fetch_products_run env d items found :
  no_rejection env ->
  Forall2 (fun item p => cart_product d item = Some p) items found ->
  forall acc n,
    fetch_products env items acc {| db := d; tick := n |}
    = ({| db := d; tick := n + length items |}, inr (inr (acc ++ found))).
Proof.
  intros Hno. induction 1 as [|item p items found Hp _ IH]; intros acc n.
  - cbn. now rewrite app_nil_r, Nat.add_0_r.
  - apply cart_product_Some in Hp as [Hv Hp].
    cbn [fetch_products]. rewrite Hv.
    erewrite bind_run;
      [|unfold await_read; rewrite await_run by apply Hno; cbn; rewrite Hp;
        reflexivity].
    cbv beta iota. unfold next. cbn [db tick]. rewrite IH. cbn [length].
    now rewrite <- app_assoc, Nat.add_succ_r.
Qed.

Lemma fetch_products_missing_run env d before item after found :
  no_rejection env ->
  Forall2 (fun item p => cart_product d item = Some p) before found ->
  cart_product d item = None ->
  forall acc n, exists n',
    fetch_products env (before ++ item :: after) acc {| db := d; tick := n |}
    = ({| db := d; tick := n' |},
       inr (inl (respond 400 (JMessage false
            ("Product not found: " +:+ productId item +:+
             ". Please ensure you're using valid product IDs from the database."))))).
Proof.
  intros Hno H Hnone. induction H as [|item0 p items found Hp _ IH]; intros acc n.
  - cbn [app fetch_products]. unfold cart_product in Hnone.
    destruct (isValidObjectId (productId item)).
    + eexists. erewrite bind_run
        by (unfold await_read; rewrite await_run by apply Hno; cbn;
            rewrite Hnone; reflexivity).
      reflexivity.
    + exists n. reflexivity.
  - apply cart_product_Some in Hp as [Hv Hp].
    cbn [app fetch_products]. rewrite Hv.
    erewrite bind_run;
      [|unfold await_read; rewrite await_run by apply Hno; cbn; rewrite Hp;
        reflexivity].
    cbv beta iota. apply IH.
Qed.

Lemma check_stock_enough items dbProducts :
  Forall2 (fun item p => quantity item <= stock p) items dbProducts ->
  check_stock items dbProducts = None.
Proof.
  induction 1 as [|item p items ps Hq _ IH]; cbn; [reflexivity|].
  destruct (Z.ltb_spec (stock p) (quantity item)); [lia|exact IH].
Qed.

Lemma check_stock_short before item after psb p psa :
  Forall2 (fun item p => quantity item <= stock p) before psb ->
  stock p < quantity item ->
  check_stock (before ++ item :: after) (psb ++ p :: psa)
  = Some (respond 400 (JMessage false
            ("Insufficient stock for " +:+ p_name p +:+
             ". Available: " +:+ pretty (stock p)))).
Proof.
  intros H Hlt. induction H as [|item0 p0 items ps Hq _ IH]; cbn.
  - destruct (Z.ltb_spec (stock p) (quantity item)); [reflexivity|lia].
  - destruct (Z.ltb_spec (stock p0) (quantity item0)); [lia|exact IH].
Qed.

Lemma open_session_run env user customerDetails shippingAddress T lines w r :
  no_rejection env ->
  PGCreateOrder env
    (order_request env user customerDetails (pr_totalAmount (pricing T)) lines)
  = inr r ->
  open_session env user customerDetails shippingAddress T lines w
  = ({| db := set_redis
                (<[PENDING_KEY (new_order_id env)
                   := (pending_order env user customerDetails shippingAddress
                         lines (pricing T), PENDING_ORDER_TTL)]> (redis (db w)))
                (db w);
        tick := S (S (tick w)) |},
     match r with
     | None => inl (Throw "TypeError" "Cannot read properties of undefined")
     | Some data =>
         inr (respond 200
                (JSession (payment_session_id data)
                   (default (new_order_id env)
                      (or_else (sd_order_id data) (Some (new_order_id env))))
                   (pr_totalAmount (pricing T))))
     end).
Proof.
  intros Hno Hgw. unfold open_session.
  erewrite bind_run;
    [|unfold await_call; rewrite await_run by apply Hno; cbn [fst snd];
      rewrite Hgw; reflexivity].
  erewrite bind_run;
    [|rewrite await_run by apply Hno; reflexivity].
  destruct r; reflexivity.
Qed.

(** The cart of a request that has every field. *)
Lemma createCheckoutSession_cart env req body customerDetails shippingAddress
    items d :
  sr_body req = Some body ->
  sb_customerDetails body = Some customerDetails ->
  sb_shippingAddress body = Some shippingAddress ->
  sb_products body = Some items -> items <> [] ->
  createCheckoutSession env req d
  = handler
      (fetched ← fetch_products env items [];
       match fetched with
       | inl response => mret response
       | inr dbProducts =>
           if negb (length dbProducts =? length items)%nat
           then mret (respond 400 (JMessage false "Some products not found"))
           else
             match check_stock items dbProducts with
             | Some response => mret response
             | None =>
                 let '(subtotal, orderProducts) :=
                   price_lines items dbProducts 0 [] in
                 open_session env (sr_user req) customerDetails shippingAddress
                   subtotal orderProducts
             end
       end)
      (fun error => respond 500
         (JMessage false (message_or error "Failed to create checkout session")))
      d.
Proof.
  intros Hb Hcd Hsa Hps Hne.
  unfold createCheckoutSession, createCheckoutSession_body.
  rewrite Hb, Hcd, Hsa, Hps. destruct items; [contradiction|reflexivity].
Qed.

(** X1.  A cart line whose product id is not that of a product -- an id that is
    not 24 hexadecimal digits is not even looked up -- refuses the whole
    cart: the first such line is named in a 400 answer and nothing is
    written. *)
Theorem unknown_product_refuses_cart env req d body customerDetails
    shippingAddress before item after :
  no_rejection env ->
  sr_body req = Some body ->
  sb_customerDetails body = Some customerDetails ->
  sb_shippingAddress body = Some shippingAddress ->
  sb_products body = Some (before ++ item :: after) ->
  Forall (fun line => is_Some (cart_product d line)) before ->
  cart_product d item = None ->
  createCheckoutSession env req d
  = (d, respond 400 (JMessage false
          ("Product not found: " +:+ productId item +:+
           ". Please ensure you're using valid product IDs from the database."))).
Proof.
  intros Hno Hb Hcd Hsa Hps Hbefore Hitem.
  rewrite (createCheckoutSession_cart env req body customerDetails
             shippingAddress (before ++ item :: after) d Hb Hcd Hsa Hps)
    by (destruct before; discriminate).
  assert (Hfound : exists found,
            Forall2 (fun line p => cart_product d line = Some p) before found).
  { clear -Hbefore. induction Hbefore as [|line rest [p Hp] _ [found IH]].
    - exists []. constructor.
    - exists (p :: found). constructor; assumption. }
  destruct Hfound as [found Hfound].
  destruct (fetch_products_missing_run env d before item after found
              Hno Hfound Hitem [] 0%nat) as [n' Hrun].
  unfold handler. erewrite bind_run by exact Hrun. reflexivity.
Qed.

Lemma unknown_product_refuses_cart_witness :
  createCheckoutSession scenario_env unknown_product_request scenario_db
  = (scenario_db, respond 400 (JMessage false
       ("Product not found: 65f0000000000000000000ff" +:+
        ". Please ensure you're using valid product IDs from the database."))).
Proof.
  refine (unknown_product_refuses_cart scenario_env unknown_product_request
            scenario_db _ scenario_customer (address "{}")
            [ {| productId := p_id frame; quantity := 1 |} ]
            {| productId := "65f0000000000000000000ff"; quantity := 1 |}
            [ {| productId := p_id motor; quantity := 2 |} ]
            _ eq_refl eq_refl eq_refl eq_refl _ _).
  - intros n. reflexivity.
  - repeat constructor. exists frame. vm_compute. reflexivity.
  - vm_compute. reflexivity.
Defined.

(** X2.  The stock check of a cart is made line by line on the products as they
    were fetched: the first line that asks for more than its product has in
    stock is answered 400 with the product's name and its stock, and nothing
    is written. *)
Theorem cart_beyond_stock_refused env req d body customerDetails
    shippingAddress before item after psb p psa :
  no_rejection env ->
  sr_body req = Some body ->
  sb_customerDetails body = Some customerDetails ->
  sb_shippingAddress body = Some shippingAddress ->
  sb_products body = Some (before ++ item :: after) ->
  Forall2 (fun line q => cart_product d line = Some q)
    (before ++ item :: after) (psb ++ p :: psa) ->
  Forall2 (fun line q => quantity line <= stock q) before psb ->
  stock p < quantity item ->
  createCheckoutSession env req d
  = (d, respond 400 (JMessage false
          ("Insufficient stock for " +:+ p_name p +:+
           ". Available: " +:+ pretty (stock p)))).
Proof.
  intros Hno Hb Hcd Hsa Hps Hfound Henough Hshort.
  rewrite (createCheckoutSession_cart env req body customerDetails
             shippingAddress (before ++ item :: after) d Hb Hcd Hsa Hps)
    by (destruct before; discriminate).
  unfold handler.
  erewrite bind_run
    by exact (fetch_products_run env d _ _ Hno Hfound [] 0%nat).
  cbn [app]. rewrite (Forall2_length _ _ _ Hfound), Nat.eqb_refl. cbn [negb].
  rewrite (check_stock_short before item after psb p psa Henough Hshort).
  reflexivity.
Qed.

Lemma cart_beyond_stock_refused_witness :
  createCheckoutSession scenario_env greedy_request scenario_db
  = (scenario_db, respond 400 (JMessage false
       ("Insufficient stock for Motor" +:+ ". Available: " +:+ "4"))).
Proof.
  refine (cart_beyond_stock_refused scenario_env greedy_request scenario_db
            _ scenario_customer (address "{}")
            [ {| productId := p_id frame; quantity := 1 |} ]
            {| productId := p_id motor; quantity := 9 |} []
            [frame] motor []
            _ eq_refl eq_refl eq_refl eq_refl _ _ _).
  - intros n. reflexivity.
  - repeat constructor.
  - repeat constructor. vm_compute. discriminate.
  - reflexivity.
Defined.

(** X3.  A session opens: when every line of the cart has its product, with
    enough stock, no awaited call rejects and the gateway answers with
    [data], the handler stores the pending order -- the lines at catalogue
    prices and their price breakdown -- under the pending key of the new
    order id, for one hour, and answers 200 with the gateway's session id,
    the gateway's order id (the new order id when it gives none) and the
    total.  Nothing else is written, and no stock is taken. *)
Theorem session_opens env req d body customerDetails shippingAddress items
    dbProducts lines pr session :
  no_rejection env ->
  sr_body req = Some body ->
  sb_customerDetails body = Some customerDetails ->
  sb_shippingAddress body = Some shippingAddress ->
  sb_products body = Some items -> items <> [] ->
  Forall2 (fun line p => cart_product d line = Some p) items dbProducts ->
  Forall2 (fun line p => quantity line <= stock p) items dbProducts ->
  lines = zip_with order_line items dbProducts ->
  pr = pricing (lines_subtotal lines) ->
  PGCreateOrder env
    (order_request env (sr_user req) customerDetails (pr_totalAmount pr) lines)
  = inr (Some session) ->
  createCheckoutSession env req d
  = (set_redis
       (<[PENDING_KEY (new_order_id env)
          := (pending_order env (sr_user req) customerDetails shippingAddress
                lines pr, PENDING_ORDER_TTL)]> (redis d)) d,
     respond 200
       (JSession (payment_session_id session)
          (default (new_order_id env)
             (or_else (sd_order_id session) (Some (new_order_id env))))
          (pr_totalAmount pr))).
Proof.
  intros Hno Hb Hcd Hsa Hps Hne Hfound Henough -> -> Hgw.
  rewrite (createCheckoutSession_cart env req body customerDetails
             shippingAddress items d Hb Hcd Hsa Hps Hne).
  unfold handler.
  erewrite bind_run
    by exact (fetch_products_run env d _ _ Hno Hfound [] 0%nat).
  cbn [app]. rewrite (Forall2_length _ _ _ Hfound), Nat.eqb_refl. cbn [negb].
  rewrite (check_stock_enough _ _ Henough), price_lines_spec.
  rewrite (open_session_run _ _ _ _ _ _ _ _ Hno Hgw). reflexivity.
Qed.

Lemma session_opens_witness :
  createCheckoutSession scenario_env scenario_session_request scenario_db
  = (set_redis
       (<[PENDING_KEY (new_order_id scenario_env)
          := (scenario_pending, PENDING_ORDER_TTL)]> (redis scenario_db))
       scenario_db,
     respond 200 (JSession "session_1" scenario_order_id 2199)).
Proof.
  refine (session_opens scenario_env scenario_session_request scenario_db
            _ scenario_customer (address "{}") _ [frame; motor]
            (pd_products scenario_pending)
            {| pr_shipping := 99; pr_baseSubtotal := 2000; pr_tax := 100;
               pr_discount := 0; pr_totalAmount := 2199 |}
            {| payment_session_id := "session_1";
               sd_order_id := Some scenario_order_id |}
            _ eq_refl eq_refl eq_refl eq_refl _ _ _ _ _ _).
  - intros n. reflexivity.
  - discriminate.
  - repeat constructor.
  - repeat constructor; vm_compute; discriminate.
  - reflexivity.
  - vm_compute. reflexivity.
  - reflexivity.
Defined.

(** X4.  A gateway response without [data] leaves a pending order behind: the
    pending order is stored before the response is read, so the request ends
    as a 500 while the store keeps the pending order under the new order
    id. *)
Theorem session_without_data_leaves_pending_order env req d body
    customerDetails shippingAddress items dbProducts lines pr :
  no_rejection env ->
  sr_body req = Some body ->
  sb_customerDetails body = Some customerDetails ->
  sb_shippingAddress body = Some shippingAddress ->
  sb_products body = Some items -> items <> [] ->
  Forall2 (fun line p => cart_product d line = Some p) items dbProducts ->
  Forall2 (fun line p => quantity line <= stock p) items dbProducts ->
  lines = zip_with order_line items dbProducts ->
  pr = pricing (lines_subtotal lines) ->
  PGCreateOrder env
    (order_request env (sr_user req) customerDetails (pr_totalAmount pr) lines)
  = inr None ->
  (createCheckoutSession env req d).1
  = set_redis
      (<[PENDING_KEY (new_order_id env)
         := (pending_order env (sr_user req) customerDetails shippingAddress
               lines pr, PENDING_ORDER_TTL)]> (redis d)) d
  /\ status (createCheckoutSession env req d).2 = 500.
Proof.
  intros Hno Hb Hcd Hsa Hps Hne Hfound Henough -> -> Hgw.
  rewrite (createCheckoutSession_cart env req body customerDetails
             shippingAddress items d Hb Hcd Hsa Hps Hne).
  unfold handler.
  erewrite bind_run
    by exact (fetch_products_run env d _ _ Hno Hfound [] 0%nat).
  cbn [app]. rewrite (Forall2_length _ _ _ Hfound), Nat.eqb_refl. cbn [negb].
  rewrite (check_stock_enough _ _ Henough), price_lines_spec.
  rewrite (open_session_run _ _ _ _ _ _ _ _ Hno Hgw). split; reflexivity.
Qed.

Lemma session_without_data_leaves_pending_order_witness :
  (createCheckoutSession no_data_env scenario_session_request scenario_db).1
  = set_redis
      (<[PENDING_KEY (new_order_id no_data_env)
         := (scenario_pending, PENDING_ORDER_TTL)]> (redis scenario_db))
      scenario_db
  /\ status (createCheckoutSession no_data_env scenario_session_request
               scenario_db).2 = 500.
Proof.
  refine (session_without_data_leaves_pending_order no_data_env
            scenario_session_request scenario_db
            _ scenario_customer (address "{}") _ [frame; motor]
            (pd_products scenario_pending)
            {| pr_shipping := 99; pr_baseSubtotal := 2000; pr_tax := 100;
               pr_discount := 0; pr_totalAmount := 2199 |}
            _ eq_refl eq_refl eq_refl eq_refl _ _ _ _ _ _).
  - intros n. reflexivity.
  - discriminate.
  - repeat constructor.
  - repeat constructor; vm_compute; discriminate.
  - reflexivity.
  - vm_compute. reflexivity.
  - reflexivity.
Defined.

(** X5.  Creating a session never touches an order or a product, and of the
    pending orders it writes at most the one under the pending key of its own
    new order id (always for one hour): the pending order of every other
    order id is left as it is. *)
Theorem session_writes_only_its_pending_key env req d :
  orders (createCheckoutSession env req d).1 = orders d
  /\ products (createCheckoutSession env req d).1 = products d
  /\ (redis (createCheckoutSession env req d).1 = redis d
      \/ exists pending,
           redis (createCheckoutSession env req d).1
           = <[PENDING_KEY (new_order_id env) := (pending, PENDING_ORDER_TTL)]>
               (redis d))
  /\ (forall orderId, orderId <> new_order_id env ->
        redis (createCheckoutSession env req d).1 !! PENDING_KEY orderId
        = redis d !! PENDING_KEY orderId).
Proof.
  assert (H : orders (createCheckoutSession env req d).1 = orders d
    /\ products (createCheckoutSession env req d).1 = products d
    /\ (redis (createCheckoutSession env req d).1 = redis d
        \/ exists pending,
             redis (createCheckoutSession env req d).1
             = <[PENDING_KEY (new_order_id env) := (pending, PENDING_ORDER_TTL)]>
                 (redis d))).
  { unfold createCheckoutSession.
    refine (preserves_handler
              (fun d0 => orders d0 = orders d /\ products d0 = products d
                 /\ (redis d0 = redis d
                     \/ exists pending,
                          redis d0
                          = <[PENDING_KEY (new_order_id env)
                              := (pending, PENDING_ORDER_TTL)]> (redis d)))
              _ _ d _ _); [|auto].
    unfold createCheckoutSession_body.
    preserves_body idtac.
    - apply fetch_products_preserves.
    - unfold open_session.
      preserves_body ltac:(
        match goal with
        | H : _ /\ _ /\ (_ \/ _) |- _ =>
            destruct H as (Ho & Hp & [Hr|[pending0 Hr]]); cbn;
            (split; [exact Ho|split; [exact Hp|right; eexists; rewrite Hr]])
        end; [reflexivity|apply insert_insert_eq]). }
  destruct H as (Ho & Hp & Hr).
  split; [exact Ho|]. split; [exact Hp|]. split; [exact Hr|].
  intros orderId Hne. destruct Hr as [->|[pending ->]]; [reflexivity|].
  apply lookup_insert_ne. intros Hk. apply PENDING_KEY_inj in Hk. congruence.
Qed.

(** ** More on [checkoutSuccess] *)

(** *** The store operations of a confirmation *)

Lemma Order_findOne_None id d :
  Order_findOne id d = None <-> has_cashfreeOrderId id (orders d) = false.
Proof.
  unfold Order_findOne, has_cashfreeOrderId.
  induction (orders d) as [|o rest IH]; cbn; [tauto|].
  destruct (String.eqb (cashfreeOrderId o) id); cbn; [|exact IH].
  split; discriminate.
Qed.

Lemma Order_findOne_snoc id d d' o :
  Order_findOne id d = None -> cashfreeOrderId o = id ->
  orders d' = orders d ++ [o] ->
  Order_findOne id d' = Some o.
Proof.
  unfold Order_findOne. intros Hnone <- ->.
  induction (orders d) as [|x rest IH]; cbn in *.
  - now rewrite String.eqb_refl.
  - destruct (String.eqb (cashfreeOrderId x) (cashfreeOrderId o));
      [discriminate|auto].
Qed.

Lemma delete_by_id_fresh doc os :
  has_order_id (o_id doc) os = false -> delete_by_id (o_id doc) (os ++ [doc]) = os.
Proof.
  unfold has_order_id. induction os as [|o rest IH]; cbn.
  - now rewrite String.eqb_refl.
  - destruct (String.eqb (o_id o) (o_id doc)); cbn; [discriminate|].
    intros H. now rewrite IH.
Qed.

Lemma conditional_decrements_cons item rest ps :
  conditional_decrements (item :: rest) ps
  = conditional_decrements rest
      (findOneAndUpdate_stock (op_productId item) (op_quantity item) ps).2.
Proof. reflexivity. Qed.

Lemma conditional_decrements_total items ps :
  decrements_succeed items ps = true ->
  sumZ (map stock ps) - sumZ (map stock (conditional_decrements items ps))
  = total_quantity items.
Proof.
  revert ps. induction items as [|item rest IH]; intros ps; cbn [decrements_succeed].
  - intros _. unfold total_quantity, sumZ. cbn. lia.
  - rewrite conditional_decrements_cons.
    destruct (findOneAndUpdate_stock _ _ ps) as [[p'|] ps'] eqn:Hf;
      [|discriminate].
    intros H. specialize (IH ps' H). cbn [snd].
    rewrite (findOneAndUpdate_stock_total _ _ _ _ _ Hf) in IH.
    unfold total_quantity in *. cbn [map]. unfold sumZ in *. cbn [fold_right].
    lia.
Qed.

(** *** Running the stock loop *)

Lemma decrement_stock_app_run env newOrder orderId before rest :
  forall d n,
    (forall k, (k < length before)%nat -> io_rejects env (n + k) = false) ->
    decrements_succeed before (products d) = true ->
    decrement_stock env newOrder orderId (before ++ rest) {| db := d; tick := n |}
    = decrement_stock env newOrder orderId rest
        {| db := set_products (conditional_decrements before (products d)) d;
           tick := n + length before |}.
Proof.
  induction before as [|item before IH]; intros d n Hno Hok.
  - cbn. now rewrite set_products_same, Nat.add_0_r.
  - cbn [decrements_succeed] in Hok. cbn [app decrement_stock].
    destruct (findOneAndUpdate_stock _ _ (products d)) as [[p'|] ps'] eqn:Hf;
      [|discriminate].
    erewrite bind_run;
      [|rewrite await_run
          by (cbn [tick]; rewrite <- (Nat.add_0_r n); apply Hno; cbn; lia);
        unfold Product_findOneAndUpdate; cbn [db]; rewrite Hf; reflexivity].
    cbv beta iota. unfold next. cbn [db tick fst].
    rewrite IH.
    + rewrite conditional_decrements_cons, Hf. cbn [length].
      now rewrite Nat.add_succ_r.
    + intros k Hk. replace (S n + k)%nat with (n + S k)%nat by lia.
      apply Hno. cbn. lia.
    + exact Hok.
Qed.

Lemma decrement_stock_run env newOrder orderId items d n :
  (forall k, (k < length items)%nat -> io_rejects env (n + k) = false) ->
  decrements_succeed items (products d) = true ->
  decrement_stock env newOrder orderId items {| db := d; tick := n |}
  = ({| db := set_products (conditional_decrements items (products d)) d;
        tick := n + length items |}, inr None).
Proof.
  intros Hno Hok.
  rewrite <- (app_nil_r items) at 1.
  now rewrite (decrement_stock_app_run env newOrder orderId items [] d n Hno Hok).
Qed.

Lemma decrement_stock_short_run env newOrder orderId item after d n :
  io_rejects env n = false -> io_rejects env (S n) = false ->
  io_rejects env (S (S n)) = false ->
  decrements_succeed [item] (products d) = false ->
  decrement_stock env newOrder orderId (item :: after) {| db := d; tick := n |}
  = ({| db := {| orders := delete_by_id (o_id newOrder) (orders d);
                 products := products d;
                 redis := delete (PENDING_KEY orderId) (redis d) |};
        tick := S (S (S n)) |},
     inr (Some (respond 409 (JMessage false
       ("Insufficient stock for " +:+ op_name item +:+
        ". Please update your cart and try again."))))).
Proof.
  intros H0 H1 H2 Hshort. cbn [decrements_succeed] in Hshort.
  destruct (findOneAndUpdate_stock (op_productId item) (op_quantity item)
              (products d)) as [[p'|] ps'] eqn:Hf; [discriminate|].
  pose proof (findOneAndUpdate_stock_spec (op_productId item) (op_quantity item)
                (products d)) as Hsame.
  rewrite Hf in Hsame. destruct Hsame as [-> _].
  cbn [decrement_stock].
  erewrite bind_run;
    [|rewrite await_run by exact H0;
      unfold Product_findOneAndUpdate; cbn [db]; rewrite Hf; reflexivity].
  cbv beta iota.
  erewrite bind_run; [|rewrite await_run by exact H1; reflexivity].
  erewrite bind_run; [|rewrite await_run by exact H2; reflexivity].
  cbn. now rewrite set_products_same.
Qed.

Lemma Order_create_run env doc d n :
  io_rejects env n = false ->
  has_order_id (o_id doc) (orders d) = false ->
  Order_findOne (cashfreeOrderId doc) d = None ->
  await env (Order_create doc) {| db := d; tick := n |}
  = ({| db := set_orders (orders d ++ [doc]) d; tick := S n |}, inr doc).
Proof.
  intros Hno Hid Hcf. rewrite await_run by exact Hno.
  unfold Order_create. cbn [db].
  rewrite Hid, (proj1 (Order_findOne_None _ _) Hcf). reflexivity.
Qed.

Lemma try_swallow_run env w :
  try_catch (await_call env (inr tt)) (fun _ => mret tt) w = (next (db w) w, inr tt).
Proof.
  unfold try_catch, await_call, await.
  destruct (io_rejects env (tick w)); reflexivity.
Qed.

(** *** Running the handler up to [Order.create] *)

Lemma checkoutSuccess_run env req d orderId latestPayment rest pending ttl :
  cr_body req = Some (Some orderId) -> truthy_string orderId = true ->
  io_rejects env 0%nat = false -> io_rejects env 1%nat = false ->
  io_rejects env 2%nat = false ->
  PGOrderFetchPayments env orderId = inr (Some (latestPayment :: rest)) ->
  payment_status latestPayment = "SUCCESS" ->
  Order_findOne orderId d = None ->
  redis d !! PENDING_KEY orderId = Some (pending, ttl) ->
  (truthy (userId pending) = true -> cr_user req = userId pending) ->
  checkoutSuccess_body env req {| db := d; tick := 0 |}
  = materialize env orderId latestPayment pending {| db := d; tick := 3 |}.
Proof.
  intros Hbody Hoid H0 H1 H2 Hpay Hs Hfind Hget Hown.
  unfold checkoutSuccess_body. rewrite Hbody.
  change (truthy (Some orderId)) with (truthy_string orderId).
  rewrite Hoid. cbn [negb].
  change (default "" (Some orderId)) with orderId.
  erewrite bind_run;
    [|unfold await_call; rewrite await_run by exact H0; cbn [fst snd];
      rewrite Hpay; reflexivity].
  cbv beta iota. rewrite Hs. rewrite String.eqb_refl. cbn [negb].
  erewrite bind_run;
    [|unfold await_read; rewrite await_run by exact H1; cbn [fst snd db next];
      rewrite Hfind; reflexivity].
  cbv beta iota.
  erewrite bind_run;
    [|rewrite await_run by exact H2; unfold redis_get; cbn [fst snd db next];
      rewrite Hget; reflexivity].
  cbn [fmap option_fmap option_map fst].
  destruct (truthy (userId pending)) eqn:Ht; cbn [andb]; [|reflexivity].
  rewrite bool_decide_eq_true_2 by exact (Hown eq_refl). reflexivity.
Qed.

Lemma checkoutSuccess_expired_run env req d orderId latestPayment rest :
  cr_body req = Some (Some orderId) -> truthy_string orderId = true ->
  io_rejects env 0%nat = false -> io_rejects env 1%nat = false ->
  io_rejects env 2%nat = false ->
  PGOrderFetchPayments env orderId = inr (Some (latestPayment :: rest)) ->
  payment_status latestPayment = "SUCCESS" ->
  Order_findOne orderId d = None ->
  redis d !! PENDING_KEY orderId = None ->
  checkoutSuccess env req d
  = (d, respond 400 (JMessage false
          "Order data not found. Session may have expired.")).
Proof.
  intros Hbody Hoid H0 H1 H2 Hpay Hs Hfind Hget.
  unfold checkoutSuccess, handler, checkoutSuccess_body. rewrite Hbody.
  change (truthy (Some orderId)) with (truthy_string orderId).
  rewrite Hoid. cbn [negb].
  change (default "" (Some orderId)) with orderId.
  erewrite bind_run;
    [|unfold await_call; rewrite await_run by exact H0; cbn [fst snd];
      rewrite Hpay; reflexivity].
  cbv beta iota. rewrite Hs. rewrite String.eqb_refl. cbn [negb].
  erewrite bind_run;
    [|unfold await_read; rewrite await_run by exact H1; cbn [fst snd db next];
      rewrite Hfind; reflexivity].
  cbv beta iota.
  erewrite bind_run;
    [|rewrite await_run by exact H2; unfold redis_get; cbn [fst snd db next];
      rewrite Hget; reflexivity].
  reflexivity.
Qed.

Lemma checkoutSuccess_existing_run env req d orderId latestPayment rest existing :
  cr_body req = Some (Some orderId) -> truthy_string orderId = true ->
  io_rejects env 0%nat = false -> io_rejects env 1%nat = false ->
  PGOrderFetchPayments env orderId = inr (Some (latestPayment :: rest)) ->
  payment_status latestPayment = "SUCCESS" ->
  Order_findOne orderId d = Some existing ->
  checkoutSuccess env req d = (d, order_already_processed existing).
Proof.
  intros Hbody Hoid H0 H1 Hpay Hs Hfind.
  unfold checkoutSuccess, handler, checkoutSuccess_body. rewrite Hbody.
  change (truthy (Some orderId)) with (truthy_string orderId).
  rewrite Hoid. cbn [negb].
  change (default "" (Some orderId)) with orderId.
  erewrite bind_run;
    [|unfold await_call; rewrite await_run by exact H0; cbn [fst snd];
      rewrite Hpay; reflexivity].
  cbv beta iota. rewrite Hs. rewrite String.eqb_refl. cbn [negb].
  erewrite bind_run;
    [|unfold await_read; rewrite await_run by exact H1; cbn [fst snd db next];
      rewrite Hfind; reflexivity].
  reflexivity.
Qed.

(** *** A confirmation that goes through *)

(** X6.  The confirmation succeeds: when the gateway lists a successful payment
    first, no order has the gateway order id or the new ObjectId, the pending
    order is in the store, its owner (if it has one) is confirming, and every
    line still finds its stock, the handler appends the order built from the
    pending order, takes the stock line by line, deletes the pending order
    and answers "order created".  Neither a failing mail transport nor a
    failing shipment request changes any of this: only the awaited calls
    other than those two are assumed not to reject. *)
Theorem confirmation_creates_the_order env req d orderId latestPayment rest
    pending ttl :
  cr_body req = Some (Some orderId) -> truthy_string orderId = true ->
  (forall k, k <> (4 + length (pd_products pending))%nat ->
             k <> (5 + length (pd_products pending))%nat ->
             io_rejects env k = false) ->
  PGOrderFetchPayments env orderId = inr (Some (latestPayment :: rest)) ->
  payment_status latestPayment = "SUCCESS" ->
  Order_findOne orderId d = None ->
  has_order_id (new_ObjectId env) (orders d) = false ->
  redis d !! PENDING_KEY orderId = Some (pending, ttl) ->
  (truthy (userId pending) = true -> cr_user req = userId pending) ->
  decrements_succeed (pd_products pending) (products d) = true ->
  checkoutSuccess env req d
  = ({| orders := orders d ++ [order_document env orderId latestPayment pending];
        products := conditional_decrements (pd_products pending) (products d);
        redis := delete (PENDING_KEY orderId) (redis d) |},
     order_created (order_document env orderId latestPayment pending)).
Proof.
  intros Hbody Hoid Hno Hpay Hs Hfind Hfresh Hget Hown Hstock.
  unfold checkoutSuccess, handler.
  rewrite (checkoutSuccess_run env req d orderId latestPayment rest pending ttl)
    by (auto; apply Hno; lia).
  unfold materialize.
  erewrite bind_run;
    [|apply Order_create_run; [apply Hno; lia|exact Hfresh|exact Hfind]].
  cbn [orders products redis set_orders].
  erewrite bind_run;
    [|apply decrement_stock_run;
      [intros k Hk; apply Hno; lia|exact Hstock]].
  cbv beta iota.
  erewrite bind_run; [|apply try_swallow_run].
  erewrite bind_run; [|apply try_swallow_run].
  erewrite bind_run;
    [|rewrite await_run by (apply Hno; cbn; lia); reflexivity].
  reflexivity.
Qed.

Lemma confirmation_creates_the_order_witness :
  checkoutSuccess mailer_down_env scenario_confirm_request scenario_reserved
  = ({| orders := orders scenario_reserved
                  ++ [order_document mailer_down_env scenario_order_id
                        success_payment scenario_pending];
        products := conditional_decrements (pd_products scenario_pending)
                      (products scenario_reserved);
        redis := delete (PENDING_KEY scenario_order_id) (redis scenario_reserved) |},
     order_created (order_document mailer_down_env scenario_order_id
                      success_payment scenario_pending)).
Proof.
  refine (confirmation_creates_the_order mailer_down_env scenario_confirm_request
            scenario_reserved scenario_order_id success_payment []
            scenario_pending PENDING_ORDER_TTL
            eq_refl eq_refl _ eq_refl eq_refl eq_refl eq_refl _ _ eq_refl).
  - intros k H6 H7. cbn. apply orb_false_iff.
    split; apply Nat.eqb_neq; assumption.
  - vm_compute. reflexivity.
  - intros _. reflexivity.
Defined.

(** *** Running out of stock, in general *)

(** X7.  When a line of the pending order does not find its stock any more, the
    handler deletes the order it has just created and the pending order and
    answers 409 naming the line's product -- and the stock taken for the
    lines before it stays taken: the catalogue is left with their conditional
    updates applied, its total stock lower by their quantities, with no order
    to account for them. *)
Theorem stock_shortfall_at_confirmation env req d orderId latestPayment rest
    pending ttl before item after :
  no_rejection env ->
  cr_body req = Some (Some orderId) -> truthy_string orderId = true ->
  PGOrderFetchPayments env orderId = inr (Some (latestPayment :: rest)) ->
  payment_status latestPayment = "SUCCESS" ->
  Order_findOne orderId d = None ->
  has_order_id (new_ObjectId env) (orders d) = false ->
  redis d !! PENDING_KEY orderId = Some (pending, ttl) ->
  (truthy (userId pending) = true -> cr_user req = userId pending) ->
  pd_products pending = before ++ item :: after ->
  decrements_succeed before (products d) = true ->
  decrements_succeed [item] (conditional_decrements before (products d)) = false ->
  checkoutSuccess env req d
  = ({| orders := orders d;
        products := conditional_decrements before (products d);
        redis := delete (PENDING_KEY orderId) (redis d) |},
     respond 409 (JMessage false
       ("Insufficient stock for " +:+ op_name item +:+
        ". Please update your cart and try again.")))
  /\ total_stock d - total_stock (checkoutSuccess env req d).1
     = total_quantity before.
Proof.
  intros Hno Hbody Hoid Hpay Hs Hfind Hfresh Hget Hown Hlines Hbefore Hitem.
  assert (Hrun : checkoutSuccess env req d
    = ({| orders := orders d;
          products := conditional_decrements before (products d);
          redis := delete (PENDING_KEY orderId) (redis d) |},
       respond 409 (JMessage false
         ("Insufficient stock for " +:+ op_name item +:+
          ". Please update your cart and try again.")))).
  { unfold checkoutSuccess, handler.
    rewrite (checkoutSuccess_run env req d orderId latestPayment rest pending ttl)
      by auto.
    unfold materialize.
    erewrite bind_run;
      [|apply Order_create_run; [apply Hno|exact Hfresh|exact Hfind]].
    rewrite Hlines.
    erewrite bind_run;
      [|rewrite decrement_stock_app_run by (auto; intros; apply Hno);
        apply decrement_stock_short_run; try apply Hno; exact Hitem].
    cbn [db fst snd orders products redis set_orders set_products].
    rewrite (delete_by_id_fresh (order_document env orderId latestPayment pending))
      by exact Hfresh.
    reflexivity. }
  split; [exact Hrun|].
  rewrite Hrun. unfold total_stock. cbn [fst products].
  apply conditional_decrements_total, Hbefore.
Qed.

Lemma stock_shortfall_at_confirmation_witness :
  checkoutSuccess scenario_env scenario_confirm_request scenario_sold_out
  = ({| orders := orders scenario_sold_out;
        products := conditional_decrements
                      [ {| op_productId := p_id frame; op_name := "Frame";
                           op_price := 1050; op_quantity := 1;
                           op_image := "frame.png" |} ]
                      (products scenario_sold_out);
        redis := delete (PENDING_KEY scenario_order_id) (redis scenario_sold_out) |},
     respond 409 (JMessage false
       ("Insufficient stock for " +:+ "Motor" +:+
        ". Please update your cart and try again.")))
  /\ total_stock scenario_sold_out
     - total_stock (checkoutSuccess scenario_env scenario_confirm_request
                      scenario_sold_out).1
     = total_quantity
         [ {| op_productId := p_id frame; op_name := "Frame";
              op_price := 1050; op_quantity := 1; op_image := "frame.png" |} ].
Proof.
  refine (stock_shortfall_at_confirmation scenario_env scenario_confirm_request
            scenario_sold_out scenario_order_id success_payment []
            scenario_pending PENDING_ORDER_TTL
            [ {| op_productId := p_id frame; op_name := "Frame";
                 op_price := 1050; op_quantity := 1; op_image := "frame.png" |} ]
            {| op_productId := p_id motor; op_name := "Motor"; op_price := 525;
               op_quantity := 2; op_image := "" |} []
            _ eq_refl eq_refl eq_refl eq_refl eq_refl eq_refl _ _ eq_refl
            eq_refl eq_refl).
  - intros n. reflexivity.
  - vm_compute. reflexivity.
  - intros _. reflexivity.
Defined.

(** *** A database error in the middle *)

(** X8.  The confirmation is not atomic: when a stock update is rejected by the
    database after the order was created, the request ends as a 500 with the
    order stored, the stock of the earlier lines taken, that of the later
    lines untouched and the pending order still there.  A retry then finds
    the order and answers "Order already processed". *)
Theorem failed_stock_update_leaves_the_order env req d orderId latestPayment
    rest pending ttl before item after :
  cr_body req = Some (Some orderId) -> truthy_string orderId = true ->
  (forall k, (k < 4 + length before)%nat -> io_rejects env k = false) ->
  io_rejects env (4 + length before)%nat = true ->
  PGOrderFetchPayments env orderId = inr (Some (latestPayment :: rest)) ->
  payment_status latestPayment = "SUCCESS" ->
  Order_findOne orderId d = None ->
  has_order_id (new_ObjectId env) (orders d) = false ->
  redis d !! PENDING_KEY orderId = Some (pending, ttl) ->
  (truthy (userId pending) = true -> cr_user req = userId pending) ->
  pd_products pending = before ++ item :: after ->
  decrements_succeed before (products d) = true ->
  (checkoutSuccess env req d).1
  = {| orders := orders d ++ [order_document env orderId latestPayment pending];
       products := conditional_decrements before (products d);
       redis := redis d |}
  /\ status (checkoutSuccess env req d).2 = 500
  /\ (forall env' req' latestPayment' rest',
        cr_body req' = Some (Some orderId) ->
        io_rejects env' 0%nat = false -> io_rejects env' 1%nat = false ->
        PGOrderFetchPayments env' orderId
        = inr (Some (latestPayment' :: rest')) ->
        payment_status latestPayment' = "SUCCESS" ->
        checkoutSuccess env' req' (checkoutSuccess env req d).1
        = ((checkoutSuccess env req d).1,
           order_already_processed
             (order_document env orderId latestPayment pending))).
Proof.
  intros Hbody Hoid Hno Hrej Hpay Hs Hfind Hfresh Hget Hown Hlines Hbefore.
  assert (Hrun : exists e,
    checkoutSuccess_body env req {| db := d; tick := 0 |}
    = ({| db := {| orders := orders d
                             ++ [order_document env orderId latestPayment pending];
                   products := conditional_decrements before (products d);
                   redis := redis d |};
          tick := S (4 + length before) |}, inl e)).
  { rewrite (checkoutSuccess_run env req d orderId latestPayment rest pending ttl)
      by (auto; apply Hno; lia).
    unfold materialize. eexists.
    erewrite bind_run;
      [|apply Order_create_run; [apply Hno; lia|exact Hfresh|exact Hfind]].
    rewrite Hlines.
    erewrite bind_throws; [reflexivity|].
    rewrite decrement_stock_app_run
      by (auto; intros; apply Hno; lia).
    cbn [decrement_stock]. erewrite bind_throws; [reflexivity|].
    unfold await. cbn [tick]. rewrite Hrej. reflexivity. }
  destruct Hrun as [e Hrun].
  assert (Hd : (checkoutSuccess env req d).1
    = {| orders := orders d ++ [order_document env orderId latestPayment pending];
         products := conditional_decrements before (products d);
         redis := redis d |}).
  { unfold checkoutSuccess, handler. now rewrite Hrun. }
  split; [exact Hd|]. split.
  - unfold checkoutSuccess, handler. now rewrite Hrun.
  - intros env' req' latestPayment' rest' Hbody' H0 H1 Hpay' Hs'.
    apply (checkoutSuccess_existing_run env' req' _ orderId latestPayment' rest');
      auto.
    rewrite Hd.
    apply (Order_findOne_snoc orderId d); [exact Hfind|reflexivity|reflexivity].
Qed.

Lemma failed_stock_update_leaves_the_order_witness :
  (checkoutSuccess database_down_env scenario_confirm_request scenario_reserved).1
  = {| orders := orders scenario_reserved
                 ++ [order_document database_down_env scenario_order_id
                       success_payment scenario_pending];
       products := conditional_decrements
                     [ {| op_productId := p_id frame; op_name := "Frame";
                          op_price := 1050; op_quantity := 1;
                          op_image := "frame.png" |} ]
                     (products scenario_reserved);
       redis := redis scenario_reserved |}
  /\ status (checkoutSuccess database_down_env scenario_confirm_request
               scenario_reserved).2 = 500
  /\ checkoutSuccess scenario_env scenario_confirm_request
       (checkoutSuccess database_down_env scenario_confirm_request
          scenario_reserved).1
     = ((checkoutSuccess database_down_env scenario_confirm_request
           scenario_reserved).1,
        order_already_processed
          (order_document database_down_env scenario_order_id success_payment
             scenario_pending)).
Proof.
  assert (Hno : forall k, (k < 4 + 1)%nat -> io_rejects database_down_env k = false).
  { intros k Hk. cbn. apply Nat.eqb_neq. lia. }
  assert (Hget : redis scenario_reserved !! PENDING_KEY scenario_order_id
                 = Some (scenario_pending, PENDING_ORDER_TTL))
    by (vm_compute; reflexivity).
  destruct (failed_stock_update_leaves_the_order database_down_env
              scenario_confirm_request scenario_reserved scenario_order_id
              success_payment [] scenario_pending PENDING_ORDER_TTL
              [ {| op_productId := p_id frame; op_name := "Frame";
                   op_price := 1050; op_quantity := 1; op_image := "frame.png" |} ]
              {| op_productId := p_id motor; op_name := "Motor"; op_price := 525;
                 op_quantity := 2; op_image := "" |} []
              eq_refl eq_refl Hno eq_refl eq_refl eq_refl eq_refl eq_refl Hget
              (fun _ => eq_refl) eq_refl eq_refl)
    as (H1 & H2 & H3).
  split; [exact H1|]. split; [exact H2|].
  exact (H3 scenario_env scenario_confirm_request success_payment []
           eq_refl eq_refl eq_refl eq_refl eq_refl).
Defined.

(** *** What a confirmation may write *)

Lemma decrement_stock_effect env newOrder orderId items OS R :
  triple (fun d => orders d = OS /\ redis d = R)
    (decrement_stock env newOrder orderId items)
    (fun r d' =>
       match r with
       | None => orders d' = OS /\ redis d' = R
       | Some response =>
           status response = 409
           /\ orders d' = delete_by_id (o_id newOrder) OS
           /\ redis d' = delete (PENDING_KEY orderId) R
       end)
    (fun d' => (orders d' = OS \/ orders d' = delete_by_id (o_id newOrder) OS)
               /\ redis d' = R).
Proof.
  induction items as [|item rest IH]; cbn.
  - apply triple_ret. auto.
  - eapply triple_bind with (R := fun _ d' => orders d' = OS /\ redis d' = R).
    + apply triple_await; [intros d [-> ->]; auto|]. intros d Hd.
      unfold Product_findOneAndUpdate.
      destruct (findOneAndUpdate_stock _ _ _). exact Hd.
    + intros [p'|]; [exact IH|].
      eapply triple_bind with
        (R := fun _ d' => orders d' = delete_by_id (o_id newOrder) OS
                          /\ redis d' = R).
      * apply triple_await; [intros d [-> ->]; auto|].
        intros d [<- <-]. cbn. auto.
      * intros _.
        eapply triple_bind with
          (R := fun _ d' => orders d' = delete_by_id (o_id newOrder) OS
                            /\ redis d' = delete (PENDING_KEY orderId) R).
        -- apply triple_await; [intros d [-> ->]; auto|].
           intros d [<- <-]. cbn. auto.
        -- intros _. apply triple_ret. intros d [-> ->]. auto.
Qed.

(** From [Order.create] on, a confirmation ends in one of three ways: the
    order is appended and the pending order deleted ("order created"); the
    order is gone again and the pending order deleted (409); or it throws,
    with the pending order in place and the order there or not. *)
Lemma materialize_effect env orderId latestPayment orderData d :
  triple (eq d) (materialize env orderId latestPayment orderData)
    (fun r d' =>
       (r = order_created (order_document env orderId latestPayment orderData)
        /\ orders d' = orders d
                       ++ [order_document env orderId latestPayment orderData]
        /\ redis d' = delete (PENDING_KEY orderId) (redis d))
       \/ (status r = 409 /\ orders d' = orders d
           /\ redis d' = delete (PENDING_KEY orderId) (redis d)))
    (fun d' =>
       (orders d' = orders d
        \/ orders d' = orders d
                       ++ [order_document env orderId latestPayment orderData])
       /\ redis d' = redis d).
Proof.
  unfold materialize.
  set (doc := order_document env orderId latestPayment orderData).
  eapply triple_bind with
    (R := fun newOrder d' =>
       (newOrder = doc /\ has_order_id (o_id doc) (orders d) = false)
       /\ (orders d' = orders d ++ [doc] /\ redis d' = redis d)).
  - apply triple_await; [intros d0 <-; auto|]. intros d0 <-. unfold Order_create.
    destruct (has_order_id (o_id doc) (orders d)) eqn:H1; cbn; [auto|].
    destruct (has_cashfreeOrderId _ _); cbn; auto.
  - intros newOrder. apply triple_pure. intros [-> Hfresh].
    eapply triple_bind with
      (R := fun r d' =>
         match r with
         | None => orders d' = orders d ++ [doc] /\ redis d' = redis d
         | Some response =>
             status response = 409 /\ orders d' = orders d
             /\ redis d' = delete (PENDING_KEY orderId) (redis d)
         end).
    + eapply triple_conseq;
        [apply (decrement_stock_effect env doc orderId _ (orders d ++ [doc])
                  (redis d))
        |auto| |].
      * intros [response|] d'; [|auto].
        rewrite (delete_by_id_fresh doc _ Hfresh). auto.
      * intros d'. rewrite (delete_by_id_fresh doc _ Hfresh). tauto.
    + intros [response|].
      * apply triple_ret. auto.
      * eapply triple_bind with
          (R := fun _ d' => orders d' = orders d ++ [doc] /\ redis d' = redis d).
        { eapply triple_try_catch with
            (E' := fun d' => orders d' = orders d ++ [doc] /\ redis d' = redis d).
          - unfold sendMail, await_call. apply triple_await; auto.
          - intros e. apply triple_ret. auto. }
        intros _.
        eapply triple_bind with
          (R := fun _ d' => orders d' = orders d ++ [doc] /\ redis d' = redis d).
        { eapply triple_try_catch with
            (E' := fun d' => orders d' = orders d ++ [doc] /\ redis d' = redis d).
          - unfold createShipmentForOrder, await_call. apply triple_await; auto.
          - intros e. apply triple_ret. auto. }
        intros _.
        eapply triple_bind with
          (R := fun _ d' => orders d' = orders d ++ [doc]
                            /\ redis d' = delete (PENDING_KEY orderId) (redis d)).
        { apply triple_await; [intros d' [-> ->]; auto|].
          intros d' [<- <-]. cbn. auto. }
        intros _. apply triple_ret. intros d' [-> ->]. auto.
Qed.

Ltac contradictory_answer :=
  subst; unfold order_created, order_already_processed, respond in *;
  cbn [status json] in *; congruence.

(** The handler as a whole: it answers before [Order.create], with a 400, a
    403 or the existing order and on unchanged stores, or it runs
    [materialize] for a truthy order id. *)
Lemma checkoutSuccess_gates env req d (Q : Response -> Db -> Prop)
    (E : Db -> Prop) :
  E d ->
  (forall r,
     status r = 400 \/ status r = 403
     \/ (exists o, r = order_already_processed o) -> Q r d) ->
  (forall orderId latestPayment rest orderData,
     cr_body req = Some (Some orderId) -> truthy_string orderId = true ->
     PGOrderFetchPayments env orderId = inr (Some (latestPayment :: rest)) ->
     payment_status latestPayment = "SUCCESS" ->
     Order_findOne orderId d = None ->
     fst <$> redis d !! PENDING_KEY orderId = Some orderData ->
     triple (eq d) (materialize env orderId latestPayment orderData) Q E) ->
  triple (eq d) (checkoutSuccess_body env req) Q E.
Proof.
  intros HE Hearly Hmat. unfold checkoutSuccess_body.
  destruct (cr_body req) as [[orderId|]|] eqn:Hbody;
    try (apply triple_throw; intros ? <-; assumption);
    try (apply triple_ret; intros ? <-; apply Hearly; left; reflexivity).
  change (default "" (Some orderId)) with orderId.
  change (truthy (Some orderId)) with (truthy_string orderId).
  destruct (truthy_string orderId) eqn:Hoid; cbn [negb];
    [|apply triple_ret; intros ? <-; apply Hearly; left; reflexivity].
  apply triple_call_bind; [exact HE|]. intros [[|latestPayment rest]|] Hpay;
    try (apply triple_throw; intros ? <-; assumption);
    try (apply triple_ret; intros ? <-; apply Hearly; left; reflexivity).
  destruct (String.eqb (payment_status latestPayment) "SUCCESS") eqn:Hs; cbn [negb];
    [|apply triple_ret; intros ? <-; apply Hearly; left; reflexivity].
  apply String.eqb_eq in Hs.
  apply triple_read_bind; [exact HE|].
  destruct (Order_findOne orderId d) as [existing|] eqn:Hfind;
    [apply triple_ret; intros ? <-; apply Hearly; right; right; eauto|].
  apply triple_get_bind; [exact HE|].
  destruct (fst <$> redis d !! PENDING_KEY orderId) as [orderData|] eqn:Hget;
    [|apply triple_ret; intros ? <-; apply Hearly; left; reflexivity].
  destruct (truthy (userId orderData)
            && negb (bool_decide (cr_user req = userId orderData)));
    [apply triple_ret; intros ? <-; apply Hearly; right; left; reflexivity|].
  eapply Hmat; eauto.
Qed.

(** What the handler makes of a specification of its body. *)
Lemma checkoutSuccess_triple env req d (Q : Response -> Db -> Prop)
    (E : Db -> Prop) :
  triple (eq d) (checkoutSuccess_body env req) Q E ->
  Q (checkoutSuccess env req d).2 (checkoutSuccess env req d).1
  \/ (E (checkoutSuccess env req d).1
      /\ status (checkoutSuccess env req d).2 = 500).
Proof.
  intros H. unfold checkoutSuccess.
  destruct (handler_triple _ _
              (fun error => respond 500
                 (JMessage false (message_or error "Failed to verify payment")))
              _ _ d H eq_refl) as [HQ|[HE [e He]]]; [left; exact HQ|right].
  split; [exact HE|]. rewrite He. reflexivity.
Qed.

(** X9.  A confirmation that is refused -- any 400, the 403, and also the answer
    "Order already processed" -- has written nothing: the orders, the stock
    and the pending orders are exactly as before, so the call can be repeated
    at will. *)
Theorem refused_confirmation_writes_nothing env req d :
  status (checkoutSuccess env req d).2 = 400
  \/ status (checkoutSuccess env req d).2 = 403
  \/ (exists o, (checkoutSuccess env req d).2 = order_already_processed o) ->
  (checkoutSuccess env req d).1 = d.
Proof.
  intros Hr.
  destruct (checkoutSuccess_triple env req d
    (fun r d' =>
       status r = 400 \/ status r = 403
       \/ (exists o, r = order_already_processed o) -> d' = d)
    (fun _ => True)) as [H|[_ H500]].
  - apply checkoutSuccess_gates; [exact I|auto|].
    intros orderId latestPayment rest orderData _ _ _ _ _ _.
    eapply triple_conseq;
      [apply materialize_effect|intros ? H; exact H| |intros; exact I].
    intros r d' [[-> _]|[H409 _]] [H|[H|[o H]]]; contradictory_answer.
  - exact (H Hr).
  - destruct Hr as [H|[H|[o H]]]; rewrite ?H in H500; contradictory_answer.
Qed.

Lemma refused_confirmation_writes_nothing_witness :
  (checkoutSuccess scenario_env intruder_confirm_request scenario_reserved).1
  = scenario_reserved.
Proof.
  apply (refused_confirmation_writes_nothing scenario_env
           intruder_confirm_request scenario_reserved).
  right. left. vm_compute. reflexivity.
Defined.

(** X10.  A confirmation never changes or removes an order that was there: the
    orders afterwards are the orders before, with at most one order appended.
    And of the pending orders it deletes at most the one of the order id it
    was called with; every other pending order is left as it is. *)
Theorem confirmation_touches_only_its_order env req d :
  (orders (checkoutSuccess env req d).1 = orders d
   \/ exists o, orders (checkoutSuccess env req d).1 = orders d ++ [o])
  /\ (redis (checkoutSuccess env req d).1 = redis d
      \/ exists orderId,
           cr_body req = Some (Some orderId)
           /\ redis (checkoutSuccess env req d).1
              = delete (PENDING_KEY orderId) (redis d))
  /\ (forall orderId, cr_body req <> Some (Some orderId) ->
        redis (checkoutSuccess env req d).1 !! PENDING_KEY orderId
        = redis d !! PENDING_KEY orderId).
Proof.
  assert (H : (orders (checkoutSuccess env req d).1 = orders d
               \/ exists o, orders (checkoutSuccess env req d).1 = orders d ++ [o])
              /\ (redis (checkoutSuccess env req d).1 = redis d
                  \/ exists orderId,
                       cr_body req = Some (Some orderId)
                       /\ redis (checkoutSuccess env req d).1
                          = delete (PENDING_KEY orderId) (redis d))).
  { destruct (checkoutSuccess_triple env req d
      (fun _ d' =>
         (orders d' = orders d \/ exists o, orders d' = orders d ++ [o])
         /\ (redis d' = redis d
             \/ exists orderId,
                  cr_body req = Some (Some orderId)
                  /\ redis d' = delete (PENDING_KEY orderId) (redis d)))
      (fun d' =>
         (orders d' = orders d \/ exists o, orders d' = orders d ++ [o])
         /\ (redis d' = redis d
             \/ exists orderId,
                  cr_body req = Some (Some orderId)
                  /\ redis d' = delete (PENDING_KEY orderId) (redis d))))
      as [H|[H _]]; [|exact H|exact H].
    apply checkoutSuccess_gates; [auto|auto|].
    intros orderId latestPayment rest orderData Hbody _ _ _ _ _.
    eapply triple_conseq;
      [apply materialize_effect|intros ? H; exact H| |].
    - intros r d' [(_ & Ho & Hr)|(_ & Ho & Hr)]; split; eauto.
    - intros d' [[Ho|Ho] Hr]; split; eauto. }
  destruct H as [Ho Hr]. split; [exact Ho|]. split; [exact Hr|].
  intros orderId Hne. destruct Hr as [->|(orderId' & Hbody & ->)]; [reflexivity|].
  apply lookup_delete_ne. intros Hk. apply PENDING_KEY_inj in Hk. congruence.
Qed.

(** *** After a 409 *)

(** X11.  A confirmation answered 409 has consumed the session: the pending order
    is gone and there is no order, so repeating the confirmation -- the
    payment is still reported as successful -- is answered 400 "Order data
    not found. Session may have expired.". *)
Theorem shortfall_ends_the_session env req d orderId env' req' latestPayment
    rest :
  status (checkoutSuccess env req d).2 = 409 ->
  cr_body req = Some (Some orderId) ->
  cr_body req' = Some (Some orderId) ->
  io_rejects env' 0%nat = false -> io_rejects env' 1%nat = false ->
  io_rejects env' 2%nat = false ->
  PGOrderFetchPayments env' orderId = inr (Some (latestPayment :: rest)) ->
  payment_status latestPayment = "SUCCESS" ->
  orders (checkoutSuccess env req d).1 = orders d
  /\ redis (checkoutSuccess env req d).1 = delete (PENDING_KEY orderId) (redis d)
  /\ checkoutSuccess env' req' (checkoutSuccess env req d).1
     = ((checkoutSuccess env req d).1,
        respond 400 (JMessage false
          "Order data not found. Session may have expired.")).
Proof.
  intros H409 Hbody Hbody' H0 H1 H2 Hpay Hs.
  destruct (checkoutSuccess_triple env req d
    (fun r d' =>
       status r = 409 ->
       truthy_string orderId = true /\ Order_findOne orderId d = None
       /\ orders d' = orders d
       /\ redis d' = delete (PENDING_KEY orderId) (redis d))
    (fun _ => True)) as [H|[_ H500]].
  - apply checkoutSuccess_gates; [exact I| |].
    + intros r [H|[H|[o ->]]] Hr; contradictory_answer.
    + intros orderId0 latestPayment0 rest0 orderData Hb Hoid _ _ Hfind _.
      rewrite Hbody in Hb. injection Hb as <-.
      eapply triple_conseq;
        [apply materialize_effect|intros ? H; exact H| |intros; exact I].
      intros r d' [[-> _]|(_ & Ho & Hr)] Hst; [contradictory_answer|auto].
  - destruct (H H409) as (Hoid & Hfind & Ho & Hr).
    split; [exact Ho|]. split; [exact Hr|].
    apply (checkoutSuccess_expired_run env' req' _ orderId latestPayment rest);
      auto.
    + unfold Order_findOne in *. now rewrite Ho.
    + rewrite Hr. apply lookup_delete_eq.
  - contradictory_answer.
Qed.

Lemma shortfall_ends_the_session_witness :
  orders (checkoutSuccess scenario_env scenario_confirm_request
            scenario_sold_out).1 = orders scenario_sold_out
  /\ redis (checkoutSuccess scenario_env scenario_confirm_request
              scenario_sold_out).1
     = delete (PENDING_KEY scenario_order_id) (redis scenario_sold_out)
  /\ checkoutSuccess scenario_env scenario_confirm_request
       (checkoutSuccess scenario_env scenario_confirm_request
          scenario_sold_out).1
     = ((checkoutSuccess scenario_env scenario_confirm_request
           scenario_sold_out).1,
        respond 400 (JMessage false
          "Order data not found. Session may have expired.")).
Proof.
  refine (shortfall_ends_the_session scenario_env scenario_confirm_request
            scenario_sold_out scenario_order_id scenario_env
            scenario_confirm_request success_payment []
            _ eq_refl eq_refl eq_refl eq_refl eq_refl eq_refl eq_refl).
  vm_compute. reflexivity.
Defined.

(** *** Confirming twice *)

Lemma checkoutSuccess_created env req d o :
  (checkoutSuccess env req d).2 = order_created o ->
  cr_body req = Some (Some (cashfreeOrderId o))
  /\ truthy_string (cashfreeOrderId o) = true
  /\ Order_findOne (cashfreeOrderId o) d = None
  /\ orders (checkoutSuccess env req d).1 = orders d ++ [o].
Proof.
  intros Hr.
  destruct (checkoutSuccess_triple env req d
    (fun r d' =>
       forall o, r = order_created o ->
       cr_body req = Some (Some (cashfreeOrderId o))
       /\ truthy_string (cashfreeOrderId o) = true
       /\ Order_findOne (cashfreeOrderId o) d = None
       /\ orders d' = orders d ++ [o])
    (fun _ => True)) as [H|[_ H500]].
  - apply checkoutSuccess_gates; [exact I| |].
    + intros r [H|[H|[o0 ->]]] o1 Hr1; contradictory_answer.
    + intros orderId latestPayment rest orderData Hb Hoid _ _ Hfind _.
      eapply triple_conseq;
        [apply materialize_effect|intros ? H; exact H| |intros; exact I].
      intros r d' [(-> & Ho & _)|(H409 & _)] o1 Hr1.
      * injection Hr1 as <-. cbn [cashfreeOrderId order_document]. auto.
      * contradictory_answer.
  - exact (H o Hr).
  - rewrite Hr in H500. contradictory_answer.
Qed.

(** X12.  Confirming twice is harmless: once a confirmation has answered "order
    created", any later confirmation for the same order id -- by the same
    caller or by anyone else, for as long as the gateway lists a successful
    payment first -- answers "Order already processed" with that very order
    and writes nothing. *)
Theorem repeated_confirmation_returns_the_order env req d o env' req'
    latestPayment rest :
  (checkoutSuccess env req d).2 = order_created o ->
  cr_body req' = cr_body req ->
  io_rejects env' 0%nat = false -> io_rejects env' 1%nat = false ->
  PGOrderFetchPayments env' (cashfreeOrderId o)
  = inr (Some (latestPayment :: rest)) ->
  payment_status latestPayment = "SUCCESS" ->
  checkoutSuccess env' req' (checkoutSuccess env req d).1
  = ((checkoutSuccess env req d).1, order_already_processed o).
Proof.
  intros Hr Hbody' H0 H1 Hpay Hs.
  destruct (checkoutSuccess_created env req d o Hr) as (Hbody & Hoid & Hfind & Ho).
  apply (checkoutSuccess_existing_run env' req' _ (cashfreeOrderId o)
           latestPayment rest); auto; [congruence|].
  exact (Order_findOne_snoc _ d _ o Hfind eq_refl Ho).
Qed.

Lemma repeated_confirmation_returns_the_order_witness :
  checkoutSuccess scenario_env intruder_confirm_request
    (checkoutSuccess scenario_env scenario_confirm_request scenario_reserved).1
  = ((checkoutSuccess scenario_env scenario_confirm_request scenario_reserved).1,
     order_already_processed scenario_order).
Proof.
  refine (repeated_confirmation_returns_the_order scenario_env
            scenario_confirm_request scenario_reserved scenario_order
            scenario_env intruder_confirm_request success_payment []
            _ eq_refl eq_refl eq_refl eq_refl eq_refl).
  vm_compute. reflexivity.
Defined.

(** *** The checks, in their order *)

(** X13.  The checks of a confirmation come in a fixed order, each one answering
    400 on unchanged stores: a missing or empty order id; a gateway that
    lists no payment; a first listed payment that is not SUCCESS -- whatever
    payments follow it in the list and whether or not the order exists
    already; and, for a successful payment without an order, a pending order
    that is not in the store (any more). *)
Theorem confirmation_checks_in_order env req d :
  (cr_body req = Some None \/ cr_body req = Some (Some "") ->
   checkoutSuccess env req d
   = (d, respond 400 (JMessage false "Order ID is required")))
  /\ (forall orderId,
        cr_body req = Some (Some orderId) -> truthy_string orderId = true ->
        io_rejects env 0%nat = false ->
        PGOrderFetchPayments env orderId = inr (Some []) ->
        checkoutSuccess env req d
        = (d, respond 400 (JMessage false "No payment information found")))
  /\ (forall orderId latestPayment rest,
        cr_body req = Some (Some orderId) -> truthy_string orderId = true ->
        io_rejects env 0%nat = false ->
        PGOrderFetchPayments env orderId = inr (Some (latestPayment :: rest)) ->
        payment_status latestPayment <> "SUCCESS" ->
        checkoutSuccess env req d
        = (d, respond 400 (JPaymentStatus "Payment not completed"
                             (payment_status latestPayment))))
  /\ (forall orderId latestPayment rest,
        cr_body req = Some (Some orderId) -> truthy_string orderId = true ->
        io_rejects env 0%nat = false -> io_rejects env 1%nat = false ->
        io_rejects env 2%nat = false ->
        PGOrderFetchPayments env orderId = inr (Some (latestPayment :: rest)) ->
        payment_status latestPayment = "SUCCESS" ->
        Order_findOne orderId d = None ->
        redis d !! PENDING_KEY orderId = None ->
        checkoutSuccess env req d
        = (d, respond 400 (JMessage false
                "Order data not found. Session may have expired."))).
Proof.
  split; [|split; [|split]].
  - intros [H|H]; unfold checkoutSuccess, handler, checkoutSuccess_body;
      rewrite H; reflexivity.
  - intros orderId Hbody Hoid H0 Hpay.
    unfold checkoutSuccess, handler, checkoutSuccess_body. rewrite Hbody.
    change (truthy (Some orderId)) with (truthy_string orderId).
    rewrite Hoid. cbn [negb].
    change (default "" (Some orderId)) with orderId.
    erewrite bind_run;
      [|unfold await_call; rewrite await_run by exact H0; cbn [fst snd];
        rewrite Hpay; reflexivity].
    reflexivity.
  - intros orderId latestPayment rest Hbody Hoid H0 Hpay Hs.
    unfold checkoutSuccess, handler, checkoutSuccess_body. rewrite Hbody.
    change (truthy (Some orderId)) with (truthy_string orderId).
    rewrite Hoid. cbn [negb].
    change (default "" (Some orderId)) with orderId.
    erewrite bind_run;
      [|unfold await_call; rewrite await_run by exact H0; cbn [fst snd];
        rewrite Hpay; reflexivity].
    cbv beta iota. apply String.eqb_neq in Hs. rewrite Hs. reflexivity.
  - intros orderId latestPayment rest.
    apply checkoutSuccess_expired_run.
Qed.

Lemma confirmation_checks_in_order_witness :
  checkoutSuccess retry_env scenario_confirm_request scenario_materialized
  = (scenario_materialized,
     respond 400 (JPaymentStatus "Payment not completed" "FAILED"))
  /\ checkoutSuccess scenario_env scenario_confirm_request scenario_db
     = (scenario_db,
        respond 400 (JMessage false
          "Order data not found. Session may have expired.")).
Proof.
  destruct (confirmation_checks_in_order retry_env scenario_confirm_request
              scenario_materialized) as (_ & _ & H3 & _).
  destruct (confirmation_checks_in_order scenario_env scenario_confirm_request
              scenario_db) as (_ & _ & _ & H4).
  split.
  - refine (H3 scenario_order_id
              {| payment_status := "FAILED"; cf_payment_id := Some "pay_2" |}
              [success_payment] eq_refl eq_refl eq_refl eq_refl _).
    discriminate.
  - exact (H4 scenario_order_id success_payment [] eq_refl eq_refl eq_refl
             eq_refl eq_refl eq_refl eq_refl eq_refl eq_refl).
Defined.

(** ** From the session to the order *)

Lemma check_stock_status items dbProducts response :
  check_stock items dbProducts = Some response -> status response = 400.
Proof.
  revert dbProducts. induction items as [|item items IH]; intros [|p ps]; cbn;
    try discriminate.
  destruct (stock p <? quantity item); [intros [= <-]; reflexivity|apply IH].
Qed.

Lemma createCheckoutSession_opened env req d sid oid amount :
  (createCheckoutSession env req d).2 = respond 200 (JSession sid oid amount) ->
  exists items dbProducts customerDetails shippingAddress,
    sr_body req ≫= sb_products = Some items
    /\ Forall2 (fun item p => Product_findById (productId item) d = Some p)
         items dbProducts
    /\ redis (createCheckoutSession env req d).1 !! PENDING_KEY (new_order_id env)
       = Some (pending_order env (sr_user req) customerDetails shippingAddress
                 (zip_with order_line items dbProducts)
                 (pricing (lines_subtotal (zip_with order_line items dbProducts))),
               PENDING_ORDER_TTL)
    /\ amount
       = pr_totalAmount
           (pricing (lines_subtotal (zip_with order_line items dbProducts))).
Proof.
  intros Hr.
  assert (H : triple (eq d) (createCheckoutSession_body env req)
    (fun r d' => forall sid oid amount,
       r = respond 200 (JSession sid oid amount) ->
       exists items dbProducts customerDetails shippingAddress,
         sr_body req ≫= sb_products = Some items
         /\ Forall2 (fun item p => Product_findById (productId item) d = Some p)
              items dbProducts
         /\ redis d' !! PENDING_KEY (new_order_id env)
            = Some (pending_order env (sr_user req) customerDetails
                      shippingAddress (zip_with order_line items dbProducts)
                      (pricing (lines_subtotal
                                  (zip_with order_line items dbProducts))),
                    PENDING_ORDER_TTL)
         /\ amount = pr_totalAmount
                       (pricing (lines_subtotal
                                   (zip_with order_line items dbProducts))))
    (fun _ => True)).
  { unfold createCheckoutSession_body.
    destruct (sr_body req) as [body|]; [|apply triple_throw; auto].
    destruct (sb_customerDetails body) as [customerDetails|];
      [|apply triple_ret; intros; discriminate].
    destruct (sb_shippingAddress body) as [shippingAddress|];
      [|apply triple_ret; intros; discriminate].
    destruct (sb_products body) as [[|item items]|] eqn:Hps;
      try solve [apply triple_ret; intros; discriminate].
    eapply triple_bind;
      [eapply triple_conseq;
       [apply (fetch_products_found env d)|auto|intros a d0 H; exact H|auto]|].
    intros [response|dbProducts]; apply triple_pure; intros Hf.
    { apply triple_ret. intros ? _ ? ? ? E. rewrite E in Hf. discriminate Hf. }
    destruct (negb _); [apply triple_ret; intros; discriminate|].
    destruct (check_stock _ _) as [response|] eqn:Hc.
    { apply triple_ret. intros ? _ ? ? ? ->.
      apply check_stock_status in Hc. discriminate Hc. }
    rewrite price_lines_spec.
    destruct Hf as (found & -> & Hfound). cbn [app] in *.
    eapply triple_conseq;
      [apply open_session_pricing|intros; exact I| |intros; exact I].
    intros r d' H sid' oid' amount' Hr'.
    destruct (H _ _ _ Hr') as [H1 H2].
    exists (item :: items), found, customerDetails, shippingAddress.
    cbn. rewrite Hps. auto. }
  unfold createCheckoutSession in *.
  destruct (handler_triple _ _
              (fun error => respond 500
                 (JMessage false
                    (message_or error "Failed to create checkout session")))
              _ _ d H eq_refl) as [HQ|[_ [e He]]];
    [|rewrite He in Hr; discriminate Hr].
  exact (HQ _ _ _ Hr).
Qed.

Lemma order_lines_of_cart items dbProducts :
  map (fun p => {| ol_product := op_productId p;
                   ol_quantity := op_quantity p;
                   ol_price := op_price p |})
    (zip_with order_line items dbProducts)
  = zip_with cart_order_line items dbProducts.
Proof.
  revert dbProducts. induction items as [|item items IH]; intros [|p ps]; cbn;
    try reflexivity.
  now rewrite IH.
Qed.

(** X14.  The order is what the session quoted.  When a session was opened for a
    cart and a confirmation later creates the order of that session from the
    pending order it stored, the order is for the user of the session, its
    total is the amount the session answered, and its lines are the lines of
    the cart at the prices the catalogue had when the session was opened --
    whatever the catalogue says by the time of the confirmation. *)
Theorem order_is_what_the_session_quoted env req d sid oid amount env' req' d' o :
  (createCheckoutSession env req d).2 = respond 200 (JSession sid oid amount) ->
  redis d' !! PENDING_KEY (new_order_id env)
  = redis (createCheckoutSession env req d).1 !! PENDING_KEY (new_order_id env) ->
  (checkoutSuccess env' req' d').2 = order_created o ->
  cashfreeOrderId o = new_order_id env ->
  o_totalAmount o = amount
  /\ o_user o = sr_user req
  /\ orderStatus o = "pending"
  /\ exists items dbProducts,
       sr_body req ≫= sb_products = Some items
       /\ Forall2 (fun item p => Product_findById (productId item) d = Some p)
            items dbProducts
       /\ o_products o = zip_with cart_order_line items dbProducts.
Proof.
  intros Hsession Hkept Hcreated Hid.
  destruct (createCheckoutSession_opened env req d sid oid amount Hsession)
    as (items & dbProducts & customerDetails & shippingAddress
        & Hitems & Hfound & Hstored & ->).
  destruct (checkoutSuccess_materializes env' req' d' o Hcreated)
    as (latestPayment & orderData & ttl & _ & _ & Hget & Ho & _).
  rewrite Hid in Hget, Ho. rewrite Hkept, Hstored in Hget.
  injection Hget as <- <-. rewrite Ho.
  cbn [order_document o_totalAmount o_user orderStatus o_products pending_order
       totalAmount userId pd_products].
  repeat split. exists items, dbProducts.
  split; [exact Hitems|]. split; [exact Hfound|]. apply order_lines_of_cart.
Qed.

Lemma order_is_what_the_session_quoted_witness :
  map p_price (products scenario_repriced) = [1500; 525]
  /\ o_totalAmount scenario_order = 2199
  /\ o_user scenario_order = sr_user scenario_session_request
  /\ orderStatus scenario_order = "pending"
  /\ exists items dbProducts,
       sr_body scenario_session_request ≫= sb_products = Some items
       /\ Forall2 (fun item p =>
                     Product_findById (productId item) scenario_db = Some p)
            items dbProducts
       /\ o_products scenario_order = zip_with cart_order_line items dbProducts.
Proof.
  split; [reflexivity|].
  refine (order_is_what_the_session_quoted scenario_env scenario_session_request
            scenario_db "session_1" scenario_order_id 2199
            scenario_env scenario_confirm_request scenario_repriced
            scenario_order _ _ _ _); vm_compute; reflexivity.
Defined.

(** ** More on [cashfreeWebhook] *)

(** *** The signature check, at its edges *)

Lemma cashfreeWebhook_processed env hmac req d :
  signature_passed env hmac req = true ->
  cashfreeWebhook env hmac req d
  = handler (process_webhook env req)
      (fun _ => respond 200 (JMessage true "Webhook received")) d.
Proof.
  unfold signature_passed, cashfreeWebhook, cashfreeWebhook_body.
  destruct (truthy (x_webhook_timestamp req) && truthy (x_webhook_signature req));
    cbn [negb orb]; [|reflexivity].
  destruct (verifyCashfreeWebhook _ _ _ _ _) as [e|[|]];
    [discriminate|reflexivity|discriminate].
Qed.

(** X15.  A request signed with the configured secret over its timestamp and raw
    body passes the check: it is processed exactly like an event that
    carries no signature headers at all. *)
Theorem signed_webhook_is_processed env hmac req d key ts raw :
  CASHFREE_SECRET_KEY env = Some key -> truthy_string key = true ->
  x_webhook_timestamp req = Some ts -> truthy_string ts = true ->
  rawBody req = Some raw -> truthy_string raw = true ->
  x_webhook_signature req = Some (hmac key (ts +:+ raw)) ->
  truthy_string (hmac key (ts +:+ raw)) = true ->
  verifyCashfreeWebhook env hmac raw ts (hmac key (ts +:+ raw)) = inr true
  /\ cashfreeWebhook env hmac req d
     = handler (process_webhook env req)
         (fun _ => respond 200 (JMessage true "Webhook received")) d.
Proof.
  intros Hkey Hk Hts Htt Hraw Hrt Hsig Hst.
  assert (Hv : verifyCashfreeWebhook env hmac raw ts (hmac key (ts +:+ raw))
               = inr true).
  { unfold verifyCashfreeWebhook. rewrite Hkey.
    change (default "" (Some key)) with key. cbn [truthy].
    rewrite Hk, Hrt, Htt, Hst. cbn [negb orb].
    unfold crypto_timingSafeEqual. now rewrite Nat.eqb_refl, String.eqb_refl. }
  split; [exact Hv|].
  apply cashfreeWebhook_processed. unfold signature_passed.
  rewrite Hts, Hsig, Hraw.
  change (default "" (Some ?x)) with x. cbn [truthy]. rewrite Htt, Hst.
  cbn [andb negb orb]. now rewrite Hv.
Qed.

Lemma signed_webhook_is_processed_witness :
  verifyCashfreeWebhook scenario_env scenario_digest "{A}" "1700000000"
    (scenario_digest "secret" ("1700000000" +:+ "{A}")) = inr true
  /\ cashfreeWebhook scenario_env scenario_digest
       (signed_webhook "PAYMENT_FAILED_WEBHOOK") scenario_materialized
     = handler (process_webhook scenario_env
                  (signed_webhook "PAYMENT_FAILED_WEBHOOK"))
         (fun _ => respond 200 (JMessage true "Webhook received"))
         scenario_materialized.
Proof.
  exact (signed_webhook_is_processed scenario_env scenario_digest
           (signed_webhook "PAYMENT_FAILED_WEBHOOK") scenario_materialized
           "secret" "1700000000" "{A}"
           eq_refl eq_refl eq_refl eq_refl eq_refl eq_refl eq_refl eq_refl).
Defined.

(** X16.  A signature header whose length is not that of the digest is neither
    rejected nor processed: [crypto.timingSafeEqual] throws on buffers of
    different lengths, the handler's [catch] swallows the error, and the
    request is answered 200 "Webhook received" with nothing changed. *)
Theorem wrong_length_signature_is_swallowed env hmac req d key ts raw sig :
  CASHFREE_SECRET_KEY env = Some key -> truthy_string key = true ->
  x_webhook_timestamp req = Some ts -> truthy_string ts = true ->
  rawBody req = Some raw -> truthy_string raw = true ->
  x_webhook_signature req = Some sig -> truthy_string sig = true ->
  String.length sig <> String.length (hmac key (ts +:+ raw)) ->
  cashfreeWebhook env hmac req d
  = (d, respond 200 (JMessage true "Webhook received")).
Proof.
  intros Hkey Hk Hts Htt Hraw Hrt Hsig Hst Hlen.
  unfold cashfreeWebhook, handler, cashfreeWebhook_body.
  rewrite Hts, Hsig, Hraw.
  change (default "" (Some ?x)) with x. cbn [truthy]. rewrite Htt, Hst. cbn [andb].
  unfold verifyCashfreeWebhook. rewrite Hkey.
  change (default "" (Some key)) with key. cbn [truthy].
  rewrite Hk, Hrt, Htt, Hst. cbn [negb orb].
  unfold crypto_timingSafeEqual.
  destruct (Nat.eqb_spec (String.length (hmac key (ts +:+ raw)))
              (String.length sig)) as [He|_]; [congruence|reflexivity].
Qed.

Lemma wrong_length_signature_is_swallowed_witness :
  cashfreeWebhook scenario_env scenario_digest
    (short_signature_webhook "PAYMENT_FAILED_WEBHOOK") scenario_materialized
  = (scenario_materialized, respond 200 (JMessage true "Webhook received")).
Proof.
  refine (wrong_length_signature_is_swallowed scenario_env scenario_digest
            (short_signature_webhook "PAYMENT_FAILED_WEBHOOK")
            scenario_materialized "secret" "1700000000" "{A}" "forged"
            eq_refl eq_refl eq_refl eq_refl eq_refl eq_refl eq_refl eq_refl _).
  vm_compute. discriminate.
Defined.

(** X17.  Without a configured secret, or without a raw body, nothing can be
    verified: every request that carries both signature headers is answered
    401 and changes nothing, whatever its signature. *)
Theorem unverifiable_webhook_is_rejected env hmac req d :
  truthy (x_webhook_timestamp req) = true ->
  truthy (x_webhook_signature req) = true ->
  truthy (CASHFREE_SECRET_KEY env) = false \/ truthy (rawBody req) = false ->
  cashfreeWebhook env hmac req d
  = (d, respond 401 (JMessage false "Invalid signature")).
Proof.
  intros Hts Hsig Hmissing.
  unfold cashfreeWebhook, handler, cashfreeWebhook_body. rewrite Hts, Hsig.
  cbn [andb]. unfold verifyCashfreeWebhook.
  assert (Hc : negb (truthy (CASHFREE_SECRET_KEY env))
               || negb (truthy_string (default "" (rawBody req))) = true).
  { destruct Hmissing as [->|Hraw]; [reflexivity|].
    apply orb_true_iff. right.
    destruct (rawBody req) as [raw|]; cbn in *; [now rewrite Hraw|reflexivity]. }
  rewrite Hc. reflexivity.
Qed.

Lemma unverifiable_webhook_is_rejected_witness :
  cashfreeWebhook no_secret_env scenario_digest
    (signed_webhook "PAYMENT_FAILED_WEBHOOK") scenario_materialized
  = (scenario_materialized, respond 401 (JMessage false "Invalid signature")).
Proof.
  exact (unverifiable_webhook_is_rejected no_secret_env scenario_digest
           (signed_webhook "PAYMENT_FAILED_WEBHOOK") scenario_materialized
           eq_refl eq_refl (or_introl eq_refl)).
Defined.

(** *** What an event does to the orders *)

Lemma saved_Forall2 (P : Order -> Order -> Prop) doc os :
  Forall (fun x => P x (if String.eqb (o_id x) (o_id doc) then doc else x)) os ->
  Forall2 P os (saved doc os).
Proof.
  unfold saved. induction 1; cbn; constructor; assumption.
Qed.

Lemma Forall2_status_update_refl os : Forall2 status_update os os.
Proof. induction os; constructor; [left; reflexivity|assumption]. Qed.

Lemma saved_status_update doc o os :
  List.NoDup (map o_id os) -> In o os -> o_id doc = o_id o ->
  status_update o doc -> Forall2 status_update os (saved doc os).
Proof.
  intros Hnd Hin Hid Hupd. apply saved_Forall2. apply List.Forall_forall.
  intros x Hx. destruct (String.eqb (o_id x) (o_id doc)) eqn:He;
    [|left; reflexivity].
  apply String.eqb_eq in He.
  assert (x = o) as -> by (apply (NoDup_map_In_eq o_id os); congruence).
  exact Hupd.
Qed.

Lemma event_update_status_update event payment o o' :
  event_update event payment o = Some o' ->
  o_id o' = o_id o /\ status_update o o'.
Proof.
  unfold event_update, status_update.
  destruct (String.eqb event "PAYMENT_SUCCESS_WEBHOOK").
  - destruct (String.eqb (orderStatus o) "pending") eqn:Hp; [|discriminate].
    apply String.eqb_eq in Hp. intros [= <-]. split; [reflexivity|].
    right. left. eauto.
  - destruct (_ || _); [|discriminate].
    intros [= <-]. split; [reflexivity|]. right. right. reflexivity.
Qed.

(** The [switch] of the handler, by way of [event_update]. *)
Lemma process_webhook_switch env event payment order (k : unit -> M Response) :
  ((if String.eqb event "PAYMENT_SUCCESS_WEBHOOK" then
      if String.eqb (orderStatus order) "pending"
      then await env (Order_save
             (set_status "processing"
                (or_else (payment ≫= id) (cashfreePaymentId order)) order))
      else mret tt
    else if String.eqb event "PAYMENT_FAILED_WEBHOOK" then
      await env (Order_save
        (set_status "cancelled" (cashfreePaymentId order) order))
    else if String.eqb event "PAYMENT_USER_DROPPED_WEBHOOK" then
      await env (Order_save
        (set_status "cancelled" (cashfreePaymentId order) order))
    else mret tt) ≫= k)
  = (match event_update event payment order with
     | Some doc => await env (Order_save doc)
     | None => mret tt
     end ≫= k).
Proof.
  unfold event_update.
  destruct (String.eqb event "PAYMENT_SUCCESS_WEBHOOK");
    [destruct (String.eqb (orderStatus order) "pending"); reflexivity|].
  destruct (String.eqb event "PAYMENT_FAILED_WEBHOOK"); [reflexivity|].
  destruct (String.eqb event "PAYMENT_USER_DROPPED_WEBHOOK"); reflexivity.
Qed.

Lemma process_webhook_updates env req d :
  unique_orders d ->
  triple (eq d) (process_webhook env req)
    (fun _ d' => Forall2 status_update (orders d) (orders d'))
    (fun d' => Forall2 status_update (orders d) (orders d')).
Proof.
  intros [Hids _]. unfold process_webhook.
  pose proof (Forall2_status_update_refl (orders d)) as Hrefl.
  destruct (wr_body req) as [body|]; [|apply triple_throw; intros ? <-; exact Hrefl].
  destruct (data body) as [[[order_id|] payment]|];
    try (apply triple_ret; intros ? <-; exact Hrefl).
  destruct (negb (truthy order_id));
    [apply triple_ret; intros ? <-; exact Hrefl|].
  apply triple_read_bind; [exact Hrefl|].
  destruct (Order_findOne _ d) as [order|] eqn:Hfind;
    [|apply triple_ret; intros ? <-; exact Hrefl].
  rewrite process_webhook_switch.
  apply Order_findOne_In in Hfind as [Hin _].
  eapply triple_bind with
    (R := fun _ d' => Forall2 status_update (orders d) (orders d'));
    [|intros _; apply triple_ret; auto].
  destruct (event_update (type body) payment order) as [doc|] eqn:Hev;
    [|apply triple_ret; intros ? <-; exact Hrefl].
  apply event_update_status_update in Hev as [Hid Hupd].
  apply triple_await; [intros ? <-; exact Hrefl|].
  intros ? <-. unfold Order_save.
  rewrite replace_by_id_saved;
    [|exact Hids|rewrite Hid; exact (has_order_id_In order _ Hin)].
  cbn. apply (saved_status_update doc order); assumption.
Qed.

(** X18.  An event can only move the status of an order: after any webhook request
    every stored order is as it was, or was pending and is now processing
    (with the payment id of the event, or its own), or is now cancelled with
    everything else as it was -- its id, user, lines, total, addresses and
    gateway order id never change, and no order is added or removed.  An
    event of a type other than the three that the handler knows changes
    nothing at all. *)
Theorem webhook_updates_status_only env hmac req d :
  unique_orders d ->
  Forall2 status_update (orders d) (orders (cashfreeWebhook env hmac req d).1)
  /\ (forall body,
        wr_body req = Some body -> handled_event (type body) = false ->
        (cashfreeWebhook env hmac req d).1 = d).
Proof.
  intros Hu. split.
  - unfold cashfreeWebhook.
    refine (_ (handler_triple (eq d) (cashfreeWebhook_body env hmac req)
                 (fun _ => respond 200 (JMessage true "Webhook received"))
                 (fun _ d' => Forall2 status_update (orders d) (orders d'))
                 (fun d' => Forall2 status_update (orders d) (orders d'))
                 d _ eq_refl)).
    + intros [H|[H _]]; exact H.
    + unfold cashfreeWebhook_body.
      pose proof (process_webhook_updates env req d Hu) as Hp.
      pose proof (Forall2_status_update_refl (orders d)) as Hrefl.
      destruct (truthy (x_webhook_timestamp req)
                && truthy (x_webhook_signature req)); [|exact Hp].
      destruct (verifyCashfreeWebhook _ _ _ _ _) as [e|[|]];
        [apply triple_throw; intros ? <-; exact Hrefl
        |exact Hp
        |apply triple_ret; intros ? <-; exact Hrefl].
  - intros body Hbody Hevent. unfold cashfreeWebhook. symmetry.
    refine (preserves_handler (eq d) _ _ d _ eq_refl).
    assert (Hp : preserves (eq d) (process_webhook env req)).
    { unfold process_webhook. rewrite Hbody.
      unfold handled_event in Hevent.
      apply orb_false_iff in Hevent as [Hevent H3].
      apply orb_false_iff in Hevent as [H1 H2].
      rewrite H1, H2, H3.
      preserves_body idtac. }
    unfold cashfreeWebhook_body.
    destruct (truthy (x_webhook_timestamp req)
              && truthy (x_webhook_signature req)); [|exact Hp].
    destruct (verifyCashfreeWebhook _ _ _ _ _) as [e|[|]];
      [apply triple_throw; auto|exact Hp|apply triple_ret; auto].
Qed.

Lemma webhook_updates_status_only_witness :
  unique_orders scenario_shipped
  /\ Forall2 status_update (orders scenario_shipped)
       (orders (cashfreeWebhook scenario_env scenario_digest
                  (signed_webhook "PAYMENT_FAILED_WEBHOOK") scenario_shipped).1)
  /\ (cashfreeWebhook scenario_env scenario_digest
        (signed_webhook "PAYMENT_REFUNDED_WEBHOOK") scenario_shipped).1
     = scenario_shipped.
Proof.
  assert (Hu : unique_orders scenario_shipped)
    by (split; vm_compute; repeat constructor; intros []).
  split; [exact Hu|]. split.
  - exact (proj1 (webhook_updates_status_only scenario_env scenario_digest
                    (signed_webhook "PAYMENT_FAILED_WEBHOOK") scenario_shipped Hu)).
  - exact (proj2 (webhook_updates_status_only scenario_env scenario_digest
                    (signed_webhook "PAYMENT_REFUNDED_WEBHOOK") scenario_shipped
                    Hu) _ eq_refl eq_refl).
Defined.

(** *** Running the handler *)

Lemma process_webhook_run env req d :
  no_rejection env -> unique_orders d ->
  handler (process_webhook env req)
    (fun _ => respond 200 (JMessage true "Webhook received")) d
  = match wr_body req with
    | None => (d, respond 200 (JMessage true "Webhook received"))
    | Some body =>
        match webhook_order_id req with
        | None => (d, respond 200 (JMessage true "Webhook acknowledged"))
        | Some orderId =>
            match Order_findOne orderId d with
            | None => (d, respond 200 (JMessage true "Order not found"))
            | Some order =>
                (match event_update (type body)
                         (data body ≫= wd_payment) order with
                 | Some doc => set_orders (saved doc (orders d)) d
                 | None => d
                 end, respond 200 JAck)
            end
        end
    end.
Proof.
  intros Hno [Hids _]. unfold handler, process_webhook, webhook_order_id.
  destruct (wr_body req) as [body|]; [|reflexivity].
  destruct body as [event [[[order_id|] payment]|]]; try reflexivity.
  cbn [data type wd_payment mbind option_bind].
  destruct order_id as [orderId|]; [|reflexivity].
  change (truthy (Some orderId)) with (truthy_string orderId).
  destruct (truthy_string orderId); [|reflexivity]. cbn [negb].
  change (default "" (Some orderId)) with orderId.
  erewrite bind_run;
    [|unfold await_read; rewrite await_run by apply Hno; reflexivity].
  cbn [db fst snd].
  destruct (Order_findOne orderId d) as [order|] eqn:Hfind; [|reflexivity].
  rewrite process_webhook_switch.
  destruct (event_update event payment order) as [doc|] eqn:Hev; [|reflexivity].
  apply event_update_status_update in Hev as [Hid _].
  apply Order_findOne_In in Hfind as [Hin _].
  erewrite bind_run;
    [|rewrite await_run by apply Hno; unfold Order_save; cbn [db next];
      rewrite replace_by_id_saved
        by (try exact Hids; rewrite Hid; exact (has_order_id_In order _ Hin));
      reflexivity].
  reflexivity.
Qed.

(** X19.  A payment that failed, or that the customer dropped, cancels the order
    whatever its status: an order that is already processing, shipped or
    delivered is set to 'cancelled' as well (its payment id is kept), and the
    answer is 200. *)
Theorem failure_webhook_cancels_any_order env hmac req d event payment orderId
    order :
  event = "PAYMENT_FAILED_WEBHOOK" \/ event = "PAYMENT_USER_DROPPED_WEBHOOK" ->
  wr_body req = Some {| type := event;
                        data := Some {| wd_order := Some (Some orderId);
                                        wd_payment := payment |} |} ->
  truthy_string orderId = true ->
  Order_findOne orderId d = Some order ->
  unique_orders d -> no_rejection env ->
  signature_passed env hmac req = true ->
  cashfreeWebhook env hmac req d
  = (set_orders
       (saved (set_status "cancelled" (cashfreePaymentId order) order)
              (orders d)) d,
     respond 200 JAck).
Proof.
  intros Hevent Hbody Hoid Hfind Hu Hno Hpass.
  rewrite (cashfreeWebhook_processed env hmac req d Hpass).
  rewrite (process_webhook_run env req d Hno Hu).
  unfold webhook_order_id. rewrite Hbody, Hoid, Hfind. cbn [type data].
  destruct Hevent as [-> | ->]; reflexivity.
Qed.

Lemma failure_webhook_cancels_any_order_witness :
  orderStatus (set_status "shipped" (Some "pay_1") scenario_order) = "shipped"
  /\ cashfreeWebhook scenario_env scenario_digest
       (signed_webhook "PAYMENT_USER_DROPPED_WEBHOOK") scenario_shipped
     = (scenario_cancelled, respond 200 JAck).
Proof.
  split; [reflexivity|].
  refine (failure_webhook_cancels_any_order scenario_env scenario_digest
            (signed_webhook "PAYMENT_USER_DROPPED_WEBHOOK") scenario_shipped
            "PAYMENT_USER_DROPPED_WEBHOOK" (Some (Some "pay_1"))
            scenario_order_id
            (set_status "shipped" (Some "pay_1") scenario_order)
            (or_intror eq_refl) eq_refl eq_refl eq_refl _ _ eq_refl).
  - split; vm_compute; repeat constructor; intros [].
  - intros n. reflexivity.
Defined.

(** *** The same event, delivered twice *)

Lemma Order_findOne_saved orderId o doc os :
  List.NoDup (map o_id os) ->
  find (fun x => String.eqb (cashfreeOrderId x) orderId) os = Some o ->
  o_id doc = o_id o -> cashfreeOrderId doc = cashfreeOrderId o ->
  find (fun x => String.eqb (cashfreeOrderId x) orderId) (saved doc os)
  = Some doc.
Proof.
  intros Hnd Hfind Hid Hcf. unfold saved.
  induction os as [|x rest IH]; [discriminate|].
  apply List.NoDup_cons_iff in Hnd as [Hnotin Hnd]. cbn in *.
  destruct (String.eqb (cashfreeOrderId x) orderId) eqn:Hx.
  - injection Hfind as ->. rewrite Hid, String.eqb_refl, Hcf, Hx. reflexivity.
  - apply find_some in Hfind as Hin. destruct Hin as [Hin _].
    destruct (String.eqb (o_id x) (o_id doc)) eqn:He.
    + apply String.eqb_eq in He. exfalso. apply Hnotin.
      rewrite He, Hid. apply in_map, Hin.
    + rewrite Hx. apply IH; assumption.
Qed.

Lemma saved_saved doc os : saved doc (saved doc os) = saved doc os.
Proof.
  unfold saved. rewrite List.map_map. apply map_ext. intros x.
  destruct (String.eqb (o_id x) (o_id doc)) eqn:He; [|now rewrite He].
  now rewrite String.eqb_refl.
Qed.

Lemma event_update_again event payment o doc :
  event_update event payment o = Some doc ->
  event_update event payment doc = None
  \/ event_update event payment doc = Some doc.
Proof.
  unfold event_update.
  destruct (String.eqb event "PAYMENT_SUCCESS_WEBHOOK").
  - destruct (String.eqb (orderStatus o) "pending"); [|discriminate].
    intros [= <-]. left. reflexivity.
  - destruct (_ || _); [|discriminate].
    intros [= <-]. right. reflexivity.
Qed.

(** X20.  Redelivery is harmless: handling the same webhook request a second time
    (the gateway retries) leaves the stores as the first handling left them
    and is answered as the first was. *)
Theorem webhook_redelivery_is_harmless env hmac req d :
  unique_orders d -> no_rejection env ->
  cashfreeWebhook env hmac req (cashfreeWebhook env hmac req d).1
  = cashfreeWebhook env hmac req d.
Proof.
  intros Hu Hno.
  assert (Hp : forall d0, unique_orders d0 ->
    handler (process_webhook env req)
      (fun _ => respond 200 (JMessage true "Webhook received"))
      (handler (process_webhook env req)
         (fun _ => respond 200 (JMessage true "Webhook received")) d0).1
    = handler (process_webhook env req)
        (fun _ => respond 200 (JMessage true "Webhook received")) d0).
  { intros d0 Hu0.
    rewrite (process_webhook_run env req d0 Hno Hu0).
    destruct (wr_body req) as [body|] eqn:Hbody;
      [|cbn [fst]; rewrite (process_webhook_run env req d0 Hno Hu0), Hbody;
        reflexivity].
    destruct (webhook_order_id req) as [orderId|] eqn:Hoid;
      [|cbn [fst]; rewrite (process_webhook_run env req d0 Hno Hu0), Hbody, Hoid;
        reflexivity].
    destruct (Order_findOne orderId d0) as [order|] eqn:Hfind;
      [|cbn [fst];
        rewrite (process_webhook_run env req d0 Hno Hu0), Hbody, Hoid, Hfind;
        reflexivity].
    destruct (event_update (type body) (data body ≫= wd_payment) order)
      as [doc|] eqn:Hev;
      [|cbn [fst];
        rewrite (process_webhook_run env req d0 Hno Hu0), Hbody, Hoid, Hfind, Hev;
        reflexivity].
    cbn [fst].
    pose proof (event_update_status_update _ _ _ _ Hev) as [Hid Hupd].
    assert (Hcf : cashfreeOrderId doc = cashfreeOrderId order).
    { destruct Hupd as [->|[(_ & pid & ->)| ->]]; reflexivity. }
    pose proof Hu0 as [Hids Hcfs].
    pose proof (Order_findOne_In _ _ _ Hfind) as [Hin _].
    assert (Hu1 : unique_orders (set_orders (saved doc (orders d0)) d0)).
    { destruct Hupd as [->|[(_ & pid & ->)| ->]].
      - unfold saved. cbn.
        rewrite (map_ext_in _ id), List.map_id; [exact Hu0|].
        intros x Hx. destruct (String.eqb (o_id x) (o_id order)) eqn:He;
          [|reflexivity].
        apply String.eqb_eq in He. symmetry.
        apply (NoDup_map_In_eq o_id (orders d0)); auto.
      - destruct (saved_set_status_ids "processing" pid order (orders d0)
                    Hids Hin) as [E1 E2].
        split; cbn; [rewrite E1|rewrite E2]; assumption.
      - destruct (saved_set_status_ids "cancelled" (cashfreePaymentId order)
                    order (orders d0) Hids Hin) as [E1 E2].
        split; cbn; [rewrite E1|rewrite E2]; assumption. }
    rewrite (process_webhook_run env req _ Hno Hu1), Hbody, Hoid.
    unfold Order_findOne at 1. cbn [orders set_orders].
    rewrite (Order_findOne_saved orderId order doc (orders d0) Hids Hfind Hid Hcf).
    destruct (event_update_again _ _ _ _ Hev) as [-> | ->]; [reflexivity|].
    cbn [orders set_orders]. rewrite saved_saved. reflexivity. }
  unfold cashfreeWebhook, cashfreeWebhook_body.
  destruct (truthy (x_webhook_timestamp req) && truthy (x_webhook_signature req));
    [|exact (Hp d Hu)].
  destruct (verifyCashfreeWebhook _ _ _ _ _) as [e|[|]];
    [reflexivity|exact (Hp d Hu)|reflexivity].
Qed.

Lemma webhook_redelivery_is_harmless_witness :
  cashfreeWebhook scenario_env scenario_digest
    (signed_webhook "PAYMENT_SUCCESS_WEBHOOK")
    (cashfreeWebhook scenario_env scenario_digest
       (signed_webhook "PAYMENT_SUCCESS_WEBHOOK") scenario_materialized).1
  = cashfreeWebhook scenario_env scenario_digest
      (signed_webhook "PAYMENT_SUCCESS_WEBHOOK") scenario_materialized.
Proof.
  apply (webhook_redelivery_is_harmless scenario_env scenario_digest
           (signed_webhook "PAYMENT_SUCCESS_WEBHOOK") scenario_materialized).
  - split; vm_compute; repeat constructor; intros [].
  - intros n. reflexivity.
Defined.

(** ** Stock, whatever the outcome *)

Lemma findOneAndUpdate_stock_le id qty ps :
  0 <= qty ->
  sumZ (map stock (findOneAndUpdate_stock id qty ps).2) <= sumZ (map stock ps).
Proof.
  intros Hq. pose proof (findOneAndUpdate_stock_spec id qty ps) as S.
  destruct (findOneAndUpdate_stock id qty ps) as [[p'|] ps'] eqn:Hf; cbn [snd].
  - rewrite (findOneAndUpdate_stock_total _ _ _ _ _ Hf). lia.
  - destruct S as [-> _]. lia.
Qed.

Lemma decrement_stock_le env newOrder orderId items T :
  Forall (fun line => 0 <= op_quantity line) items ->
  preserves (fun d => total_stock d <= T)
    (decrement_stock env newOrder orderId items).
Proof.
  induction 1 as [|item rest Hq _ IH]; cbn.
  - preserves_body idtac.
  - preserves_body ltac:(
      first [ unfold Product_findOneAndUpdate, total_stock in *;
              match goal with
              | |- context [findOneAndUpdate_stock ?id ?qty ?ps] =>
                  pose proof (findOneAndUpdate_stock_le id qty ps Hq);
                  destruct (findOneAndUpdate_stock id qty ps); cbn in *; lia
              end
            | products_unchanged ]).
    exact IH.
Qed.

Lemma materialize_le env orderId latestPayment orderData T :
  Forall (fun line => 0 <= op_quantity line) (pd_products orderData) ->
  preserves (fun d => total_stock d <= T)
    (materialize env orderId latestPayment orderData).
Proof.
  intros Hq. unfold materialize.
  preserves_body ltac:(unfold total_stock in *; products_unchanged).
  apply decrement_stock_le, Hq.
Qed.

(** X21.  A confirmation never adds stock, however it ends -- order created, 409,
    a refusal or a 500 in the middle: as long as the quantities of the
    pending order it is called for are not negative, the total stock
    afterwards is at most the total stock before.  (The quantities are those
    of the cart, which [createCheckoutSession] stores as they come.) *)
Theorem confirmation_never_adds_stock env req d :
  (forall orderId pending ttl,
     cr_body req = Some (Some orderId) ->
     redis d !! PENDING_KEY orderId = Some (pending, ttl) ->
     Forall (fun line => 0 <= op_quantity line) (pd_products pending)) ->
  total_stock (checkoutSuccess env req d).1 <= total_stock d.
Proof.
  intros Hq.
  destruct (checkoutSuccess_triple env req d
    (fun _ d' => total_stock d' <= total_stock d)
    (fun d' => total_stock d' <= total_stock d)) as [H|[H _]];
    [|exact H|exact H].
  apply checkoutSuccess_gates; [lia|intros; lia|].
  intros orderId latestPayment rest orderData Hbody _ _ _ _ Hget.
  destruct (redis d !! PENDING_KEY orderId) as [[pending ttl]|] eqn:Hl;
    [|discriminate Hget].
  cbn in Hget. injection Hget as ->.
  eapply triple_conseq;
    [apply (materialize_le env orderId latestPayment orderData (total_stock d)),
       (Hq orderId orderData ttl Hbody Hl)
    |intros ? <-; lia|auto|auto].
Qed.

Lemma confirmation_never_adds_stock_witness :
  total_stock (checkoutSuccess scenario_env scenario_confirm_request
                 scenario_sold_out).1
  <= total_stock scenario_sold_out.
Proof.
  apply (confirmation_never_adds_stock scenario_env scenario_confirm_request
           scenario_sold_out).
  intros orderId pending ttl [= <-] Hget.
  vm_compute in Hget. injection Hget as <- _.
  repeat constructor; vm_compute; discriminate.
Defined.

(** ** From the confirmation to the webhook *)

Lemma saved_snoc doc o os :
  ~ In (o_id o) (map o_id os) -> o_id doc = o_id o ->
  saved doc (os ++ [o]) = os ++ [doc].
Proof.
  intros Hfresh Hid. rewrite <- Hid in Hfresh.
  unfold saved. rewrite List.map_app.
  change (map _ os) with (saved doc os). rewrite (saved_fresh doc os Hfresh).
  cbn. now rewrite Hid, String.eqb_refl.
Qed.

(** X22.  The order of a confirmed payment becomes 'processing': once a
    confirmation has answered "order created", the success event of the
    gateway for that order id finds the order, still 'pending', and sets it
    to 'processing' with the payment id of the event (the order's own when
    the event has none); every other order, the stock and the pending orders
    stay as the confirmation left them. *)
Theorem confirmed_order_becomes_processing env req d o env' hmac req' payment :
  unique_orders d ->
  (checkoutSuccess env req d).2 = order_created o ->
  wr_body req'
  = Some {| type := "PAYMENT_SUCCESS_WEBHOOK";
            data := Some {| wd_order := Some (Some (cashfreeOrderId o));
                            wd_payment := payment |} |} ->
  no_rejection env' -> signature_passed env' hmac req' = true ->
  orderStatus o = "pending"
  /\ cashfreeWebhook env' hmac req' (checkoutSuccess env req d).1
     = (set_orders
          (orders d
           ++ [set_status "processing"
                 (or_else (payment ≫= id) (cashfreePaymentId o)) o])
          (checkoutSuccess env req d).1,
        respond 200 JAck).
Proof.
  intros Hu Hcreated Hbody Hno Hpass.
  destruct (checkoutSuccess_created env req d o Hcreated)
    as (_ & Hoid & Hfind & Ho).
  destruct (checkoutSuccess_materializes env req d o Hcreated)
    as (latestPayment & orderData & ttl & _ & _ & _ & Hdoc & _).
  assert (Hst : orderStatus o = "pending") by (rewrite Hdoc; reflexivity).
  split; [exact Hst|].
  pose proof (checkoutSuccess_unique env req d Hu) as Hu'.
  rewrite (cashfreeWebhook_processed env' hmac req' _ Hpass).
  rewrite (process_webhook_run env' req' _ Hno Hu').
  unfold webhook_order_id. rewrite Hbody, Hoid.
  rewrite (Order_findOne_snoc _ d _ o Hfind eq_refl Ho).
  cbn [type data wd_payment mbind option_bind].
  unfold event_update. rewrite Hst. cbn [String.eqb Ascii.eqb Bool.eqb andb].
  rewrite Ho. rewrite saved_snoc; [reflexivity| |reflexivity].
  destruct Hu' as [Hids _]. rewrite Ho, List.map_app in Hids. cbn in Hids.
  apply List.NoDup_remove_2 in Hids. now rewrite app_nil_r in Hids.
Qed.

Lemma confirmed_order_becomes_processing_witness :
  orderStatus scenario_order = "pending"
  /\ cashfreeWebhook scenario_env scenario_digest
       (signed_webhook "PAYMENT_SUCCESS_WEBHOOK")
       (checkoutSuccess scenario_env scenario_confirm_request scenario_reserved).1
     = (set_orders
          (orders scenario_reserved
           ++ [set_status "processing"
                 (or_else (Some (Some "pay_1") ≫= id)
                    (cashfreePaymentId scenario_order)) scenario_order])
          (checkoutSuccess scenario_env scenario_confirm_request
             scenario_reserved).1,
        respond 200 JAck).
Proof.
  refine (confirmed_order_becomes_processing scenario_env
            scenario_confirm_request scenario_reserved scenario_order
            scenario_env scenario_digest
            (signed_webhook "PAYMENT_SUCCESS_WEBHOOK") (Some (Some "pay_1"))
            _ _ eq_refl _ eq_refl).
  - split; vm_compute; constructor.
  - vm_compute. reflexivity.
  - intros n. reflexivity.
Defined.
